(** * VineTracker: order query engine and schema migrator

    A shallow embedding of [vinetracker/index.js] (the query engine
    [getOrders], the row decoder [toOrder], the writers
    [maybeInsertOrder], [setETVFactorForOrder], [setETVReasonForOrder] and
    [setNotesForOrder], the report helper [getMonthlyBreakdown], the
    creation of the table at startup, and the route handlers that call
    them) and of [vinetracker/migrate.js] (the schema migrator
    [migrate]), together with the parts of the platform they run on:

    - [JSDate]: the ECMAScript [Date] operations the code calls, on integer
      time values (milliseconds since the epoch), with the ISO-8601
      rendering of [toISOString];
    - [Sqlite]: the [orders] table, SQL text comparison and [LIKE], and a
      connection with snapshot transactions;
    - [Migrate] and [VineTracker]: the two source files. *)

From Stdlib Require Import ZArith Lia Bool List String Ascii DecimalString.
From Stdlib Require Import Sorting.Permutation Sorting.Sorted.
From Stdlib Require Import Floats.PrimFloat.
Import ListNotations.

Local Open Scope string_scope.
Local Open Scope list_scope.
Local Open Scope Z_scope.

(** ** Exceptions

    JavaScript exceptions are modelled by a sum type: a computation either
    returns a value or throws. *)

Inductive exn : Type :=
| Error (message : string)        (* [throw new Error(message)] *)
| RangeError (message : string)   (* thrown by [Date.prototype.toISOString] *)
| SqliteError (message : string). (* thrown by [node:sqlite] *)

Inductive outcome (A : Type) : Type :=
| Ok (a : A)
| Throw (e : exn).

Arguments Ok {A} a.
Arguments Throw {A} e.

Definition bind {A B : Type} (m : outcome A) (k : A -> outcome B) : outcome B :=
  match m with
  | Ok a => k a
  | Throw e => Throw e
  end.

Declare Scope outcome_scope.
Delimit Scope outcome_scope with outcome.
Notation "x <- m ;; k" := (bind m (fun x => k))
  (at level 61, m at next level, right associativity) : outcome_scope.

(** ** ECMAScript dates *)

Module JSDate.

(** A [Date] object holds a time value: an integral number of milliseconds
    since 1970-01-01T00:00:00Z, or NaN for an invalid date. *)
Inductive Date : Type :=
| TimeValue (t : Z)
| InvalidDate.

Definition msPerDay : Z := 86400000.
Definition msPerHour : Z := 3600000.
Definition msPerMinute : Z := 60000.
Definition msPerSecond : Z := 1000.

Definition Day (t : Z) : Z := t / msPerDay.
Definition TimeWithinDay (t : Z) : Z := t mod msPerDay.

Definition DaysInYear (y : Z) : Z :=
  if negb (y mod 4 =? 0) then 365
  else if negb (y mod 100 =? 0) then 366
  else if negb (y mod 400 =? 0) then 365
  else 366.

Definition DayFromYear (y : Z) : Z :=
  365 * (y - 1970) + (y - 1969) / 4 - (y - 1901) / 100 + (y - 1601) / 400.

(** The year of a day number: the largest [y] with [DayFromYear y <= d]
    (lemma [YearFromDay_spec]).  The mean year has 146097/400 days, which
    gives the year up to one, and the two comparisons settle it. *)
Definition YearFromDay (d : Z) : Z :=
  let y := 1970 + (400 * d) / 146097 in
  if d <? DayFromYear y then y - 1
  else if DayFromYear (y + 1) <=? d then y + 1
  else y.

Definition YearFromTime (t : Z) : Z := YearFromDay (Day t).
Definition InLeapYear (t : Z) : Z :=
  if DaysInYear (YearFromTime t) =? 366 then 1 else 0.
Definition DayWithinYear (t : Z) : Z := Day t - DayFromYear (YearFromTime t).

(** Number of days of the year before month [m] (0 = January). *)
Definition DaysBeforeMonth (leap m : Z) : Z :=
  match m with
  | 0 => 0
  | 1 => 31
  | 2 => 59 + leap
  | 3 => 90 + leap
  | 4 => 120 + leap
  | 5 => 151 + leap
  | 6 => 181 + leap
  | 7 => 212 + leap
  | 8 => 243 + leap
  | 9 => 273 + leap
  | 10 => 304 + leap
  | 11 => 334 + leap
  | _ => 365 + leap
  end.

Definition MonthFromTime (t : Z) : Z :=
  let d := DayWithinYear t in
  let leap := InLeapYear t in
  if d <? 31 then 0
  else if d <? 59 + leap then 1
  else if d <? 90 + leap then 2
  else if d <? 120 + leap then 3
  else if d <? 151 + leap then 4
  else if d <? 181 + leap then 5
  else if d <? 212 + leap then 6
  else if d <? 243 + leap then 7
  else if d <? 273 + leap then 8
  else if d <? 304 + leap then 9
  else if d <? 334 + leap then 10
  else 11.

Definition DateFromTime (t : Z) : Z :=
  DayWithinYear t - DaysBeforeMonth (InLeapYear t) (MonthFromTime t) + 1.

Definition HourFromTime (t : Z) : Z := (t / msPerHour) mod 24.
Definition MinFromTime (t : Z) : Z := (t / msPerMinute) mod 60.
Definition SecFromTime (t : Z) : Z := (t / msPerSecond) mod 60.
Definition msFromTime (t : Z) : Z := t mod msPerSecond.

Definition MakeTime (hour min sec ms : Z) : Z :=
  hour * msPerHour + min * msPerMinute + sec * msPerSecond + ms.

(** [MakeDay year month date]: months outside 0..11 carry into the year,
    and the day of the month is added without a range check, so that day
    0 or day 31 of a short month rolls over. *)
Definition MakeDay (year month date : Z) : Z :=
  let ym := year + month / 12 in
  let mn := month mod 12 in
  let leap := if DaysInYear ym =? 366 then 1 else 0 in
  DayFromYear ym + DaysBeforeMonth leap mn + date - 1.

Definition MakeDate (day time : Z) : Z := day * msPerDay + time.

Definition TimeClip (t : Z) : Date :=
  if Z.abs t <=? 8640000000000000 then TimeValue t else InvalidDate.

(** The host's time zone, as the language standard has it in
    [LocalTZA(t, isUTC)]: the offset of local time from UTC in
    milliseconds, at an instant of UTC ([offsetAt]) and for a local time
    ([offsetFor]).  On a host with daylight saving both depend on their
    argument; a local time that the clock skips or shows twice gets the
    offset the host chooses for it. *)
Record zone : Type := mkZone {
  offsetAt : Z -> Z;
  offsetFor : Z -> Z
}.

(** A zone that keeps one offset. *)
Definition fixed (offset : Z) : zone :=
  mkZone (fun _ => offset) (fun _ => offset).

Definition LocalTime (tz : zone) (t : Z) : Z := t + offsetAt tz t.
Definition UTC (tz : zone) (t : Z) : Z := t - offsetFor tz t.

(** [new Date(year, month, date, hours, minutes, seconds, ms)] *)
Definition construct (tz : zone) (year month date hours minutes seconds ms : Z)
    : Date :=
  let yr := if (0 <=? year) && (year <=? 99) then 1900 + year else year in
  TimeClip (UTC tz (MakeDate (MakeDay yr month date)
                             (MakeTime hours minutes seconds ms))).

(** [dt.setMonth(month, date)] *)
Definition setMonth (tz : zone) (dt : Date) (month date : Z) : Date :=
  match dt with
  | InvalidDate => InvalidDate
  | TimeValue tv =>
      let t := LocalTime tz tv in
      TimeClip (UTC tz (MakeDate (MakeDay (YearFromTime t) month date)
                                 (TimeWithinDay t)))
  end.

(** [dt.setHours(hour, min, sec, ms)] *)
Definition setHours (tz : zone) (dt : Date) (hour min sec ms : Z) : Date :=
  match dt with
  | InvalidDate => InvalidDate
  | TimeValue tv =>
      let t := LocalTime tz tv in
      TimeClip (UTC tz (MakeDate (Day t) (MakeTime hour min sec ms)))
  end.

(** [dt.setFullYear(year, month, date)]: an invalid date restarts from +0. *)
Definition setFullYear (tz : zone) (dt : Date) (year month date : Z) : Date :=
  let t := match dt with InvalidDate => 0 | TimeValue tv => LocalTime tz tv end in
  TimeClip (UTC tz (MakeDate (MakeDay year month date) (TimeWithinDay t))).

(** [dt.getMonth()]: NaN ([None]) for an invalid date. *)
Definition getMonth (tz : zone) (dt : Date) : option Z :=
  match dt with
  | InvalidDate => None
  | TimeValue tv => Some (MonthFromTime (LocalTime tz tv))
  end.

(** *** ISO-8601 rendering *)

Definition digit (n : Z) : ascii := ascii_of_N (Z.to_N (48 + n mod 10)).

(** The [w] low decimal digits of [n], most significant first. *)
Fixpoint pad (w : nat) (n : Z) : string :=
  match w with
  | O => EmptyString
  | S w' => (pad w' (n / 10) ++ String (digit n) EmptyString)%string
  end.

Definition isoYear (y : Z) : string :=
  if (0 <=? y) && (y <=? 9999) then pad 4 y
  else if y <? 0 then ("-" ++ pad 6 (- y))%string
  else ("+" ++ pad 6 y)%string.

Definition isoString (t : Z) : string :=
  (isoYear (YearFromTime t) ++ "-" ++ pad 2 (MonthFromTime t + 1) ++ "-" ++
   pad 2 (DateFromTime t) ++ "T" ++ pad 2 (HourFromTime t) ++ ":" ++
   pad 2 (MinFromTime t) ++ ":" ++ pad 2 (SecFromTime t) ++ "." ++
   pad 3 (msFromTime t) ++ "Z")%string.

(** [dt.toISOString()] throws a [RangeError] on an invalid date. *)
Definition toISOString (dt : Date) : outcome string :=
  match dt with
  | InvalidDate => Throw (RangeError "Invalid time value")
  | TimeValue t => Ok (isoString t)
  end.

(** *** Parsing *)

Definition is_digit (c : ascii) : bool :=
  let n := N_of_ascii c in ((48 <=? n) && (n <=? 57))%N.

Definition digit_val (c : ascii) : Z := Z.of_N (N_of_ascii c) - 48.

(** Value of a string of decimal digits; [None] if some character is not a
    digit. *)
Fixpoint digits_from (acc : Z) (s : string) : option Z :=
  match s with
  | EmptyString => Some acc
  | String c s' =>
      if is_digit c then digits_from (10 * acc + digit_val c) s' else None
  end.

Definition digits (s : string) : option Z :=
  match s with
  | EmptyString => None
  | _ => digits_from 0 s
  end.

(** [Date.parse] on the one format the program stores,
    [YYYY-MM-DDTHH:mm:ss.sssZ].  Strings in any other form give an invalid
    date here (an engine may accept more through its legacy parser). *)
Definition parse (s : string) : Date :=
  if negb (Nat.eqb (String.length s) 24) then InvalidDate else
  if negb (String.eqb (substring 4 1 s) "-" && String.eqb (substring 7 1 s) "-" &&
           String.eqb (substring 10 1 s) "T" && String.eqb (substring 13 1 s) ":" &&
           String.eqb (substring 16 1 s) ":" && String.eqb (substring 19 1 s) "." &&
           String.eqb (substring 23 1 s) "Z") then InvalidDate else
  match digits (substring 0 4 s), digits (substring 5 2 s),
        digits (substring 8 2 s), digits (substring 11 2 s),
        digits (substring 14 2 s), digits (substring 17 2 s),
        digits (substring 20 3 s) with
  | Some y, Some mo, Some d, Some h, Some mi, Some sec, Some ms =>
      let leap := if DaysInYear y =? 366 then 1 else 0 in
      if (1 <=? mo) && (mo <=? 12) && (1 <=? d) &&
         (d <=? DaysBeforeMonth leap mo - DaysBeforeMonth leap (mo - 1)) &&
         (h <=? 23) && (mi <=? 59) && (sec <=? 59)
      then TimeClip (MakeDate (MakeDay y (mo - 1) d) (MakeTime h mi sec ms))
      else InvalidDate
  | _, _, _, _, _, _, _ => InvalidDate
  end.

(** [new Date(value)] for a value read from a [TEXT] column: [null]
    converts to the number 0, the epoch; a string is parsed. *)
Definition ofValue (v : option string) : Date :=
  match v with
  | None => TimeValue 0
  | Some s => parse s
  end.

End JSDate.

(** ** The SQLite store *)

Module Sqlite.

(** *** Rows of the [orders] table

    One field per column the program ever declares for [orders]
    ([CREATE TABLE] in [index.js], [ALTER TABLE] in [migrate.js]), each
    holding [NULL] ([None]) or a value of the column's declared type:
    [TEXT] as a string, [REAL] as a binary64 float, [INTEGER] as an
    integer.  Which of these columns a table really has is recorded in the
    table's [columns]; a field of a column the table does not have is
    [None]. *)
Module Row.
Record row : Type := mk {
  number : option string;       (* TEXT PRIMARY KEY *)
  asin : option string;         (* TEXT *)
  product : option string;      (* TEXT *)
  orderedAt : option string;    (* TEXT, written by toISOString *)
  deliveredAt : option string;  (* TEXT, written by toISOString, or NULL *)
  etv : option float;           (* REAL *)
  etvFactor : option float;     (* REAL *)
  cancelled : option Z;         (* INTEGER DEFAULT 0 *)
  etvReason : option string;    (* TEXT *)
  notes : option string;        (* TEXT *)
  cancelledAt : option string   (* TEXT, added by the migration *)
}.

(** The row with column [c] set to [NULL]. *)
Definition set_null (c : string) (r : row) : row :=
  if String.eqb c "number" then
    mk None (asin r) (product r) (orderedAt r) (deliveredAt r) (etv r)
       (etvFactor r) (cancelled r) (etvReason r) (notes r) (cancelledAt r)
  else if String.eqb c "asin" then
    mk (number r) None (product r) (orderedAt r) (deliveredAt r) (etv r)
       (etvFactor r) (cancelled r) (etvReason r) (notes r) (cancelledAt r)
  else if String.eqb c "product" then
    mk (number r) (asin r) None (orderedAt r) (deliveredAt r) (etv r)
       (etvFactor r) (cancelled r) (etvReason r) (notes r) (cancelledAt r)
  else if String.eqb c "orderedAt" then
    mk (number r) (asin r) (product r) None (deliveredAt r) (etv r)
       (etvFactor r) (cancelled r) (etvReason r) (notes r) (cancelledAt r)
  else if String.eqb c "deliveredAt" then
    mk (number r) (asin r) (product r) (orderedAt r) None (etv r)
       (etvFactor r) (cancelled r) (etvReason r) (notes r) (cancelledAt r)
  else if String.eqb c "etv" then
    mk (number r) (asin r) (product r) (orderedAt r) (deliveredAt r) None
       (etvFactor r) (cancelled r) (etvReason r) (notes r) (cancelledAt r)
  else if String.eqb c "etvFactor" then
    mk (number r) (asin r) (product r) (orderedAt r) (deliveredAt r) (etv r)
       None (cancelled r) (etvReason r) (notes r) (cancelledAt r)
  else if String.eqb c "cancelled" then
    mk (number r) (asin r) (product r) (orderedAt r) (deliveredAt r) (etv r)
       (etvFactor r) None (etvReason r) (notes r) (cancelledAt r)
  else if String.eqb c "etvReason" then
    mk (number r) (asin r) (product r) (orderedAt r) (deliveredAt r) (etv r)
       (etvFactor r) (cancelled r) None (notes r) (cancelledAt r)
  else if String.eqb c "notes" then
    mk (number r) (asin r) (product r) (orderedAt r) (deliveredAt r) (etv r)
       (etvFactor r) (cancelled r) (etvReason r) None (cancelledAt r)
  else if String.eqb c "cancelledAt" then
    mk (number r) (asin r) (product r) (orderedAt r) (deliveredAt r) (etv r)
       (etvFactor r) (cancelled r) (etvReason r) (notes r) None
  else r.

(** The value of a [TEXT] column by name. *)
Definition get_text (c : string) (r : row) : option string :=
  if String.eqb c "number" then number r
  else if String.eqb c "asin" then asin r
  else if String.eqb c "product" then product r
  else if String.eqb c "orderedAt" then orderedAt r
  else if String.eqb c "deliveredAt" then deliveredAt r
  else if String.eqb c "etvReason" then etvReason r
  else if String.eqb c "notes" then notes r
  else if String.eqb c "cancelledAt" then cancelledAt r
  else None.

(** [UPDATE orders SET etvReason = v] on one row. *)
Definition set_etvReason (v : option string) (r : row) : row :=
  mk (number r) (asin r) (product r) (orderedAt r) (deliveredAt r) (etv r)
     (etvFactor r) (cancelled r) v (notes r) (cancelledAt r).
End Row.
Import Row.

(** A table: its column names in declaration order and its rows in rowid
    order. *)
Record table : Type := mkTable {
  columns : list string;
  rows : list row
}.

Definition has_column (t : table) (c : string) : bool :=
  existsb (String.eqb c) (columns t).

(** The database file: the [user_version] header field and the one table
    the program uses, if it has been created. *)
Record store : Type := mkStore {
  user_version : Z;
  orders : option table
}.

(** A connection: the committed store, which every reader of the file
    sees, and the working copy of the open transaction, if any. *)
Record conn : Type := mkConn {
  committed : store;
  txn : option store
}.

(** What the connection's own statements read and write. *)
Definition view (c : conn) : store :=
  match txn c with
  | Some w => w
  | None => committed c
  end.

(** *** Expressions

    Comparisons with [NULL] are unknown ([None]); [WHERE] keeps a row only
    when its condition is true. *)

Definition tri : Type := option bool.

Definition sql_and (a b : tri) : tri :=
  match a, b with
  | Some false, _ => Some false
  | _, Some false => Some false
  | Some true, Some true => Some true
  | _, _ => None
  end.

Definition sql_or (a b : tri) : tri :=
  match a, b with
  | Some true, _ => Some true
  | _, Some true => Some true
  | Some false, Some false => Some false
  | _, _ => None
  end.

Definition is_true (a : tri) : bool :=
  match a with
  | Some true => true
  | _ => false
  end.

Definition is_null {A : Type} (a : option A) : tri :=
  Some (match a with None => true | Some _ => false end).

Definition is_not_null {A : Type} (a : option A) : tri :=
  Some (match a with None => false | Some _ => true end).

(** [col = p] on an [INTEGER] column. *)
Definition int_eq (a : option Z) (p : Z) : tri := option_map (fun n => n =? p) a.

(** [col != p] on a [REAL] column. *)
Definition real_ne (a : option float) (p : float) : tri :=
  option_map (fun f => negb (PrimFloat.eqb f p)) a.

(** [col >= p] and [col <= p] on a [TEXT] column: byte order. *)
Definition text_ge (a : option string) (p : string) : tri :=
  option_map (fun s => String.leb p s) a.
Definition text_le (a : option string) (p : string) : tri :=
  option_map (fun s => String.leb s p) a.

(** [col = p] on a [TEXT] column. *)
Definition text_eq (a : option string) (p : string) : tri :=
  option_map (fun s => String.eqb s p) a.

(** [LIKE]: [%] matches any run of characters, [_] one character (all the
    bytes of a UTF-8 sequence), and any other byte matches itself, ASCII
    letters without regard to case. *)
Definition upper (c : ascii) : ascii :=
  let n := N_of_ascii c in
  if ((97 <=? n) && (n <=? 122))%N then ascii_of_N (n - 32) else c.

Definition is_continuation (c : ascii) : bool :=
  let n := N_of_ascii c in ((128 <=? n) && (n <=? 191))%N.

Fixpoint skip_continuation (s : string) : string :=
  match s with
  | EmptyString => s
  | String c s' => if is_continuation c then skip_continuation s' else s
  end.

Fixpoint like (pattern s : string) {struct pattern} : bool :=
  match pattern with
  | EmptyString =>
      match s with
      | EmptyString => true
      | String _ _ => false
      end
  | String c pattern' =>
      if Ascii.eqb c "%" then
        (fix from (s : string) : bool :=
           like pattern' s ||
           match s with
           | EmptyString => false
           | String _ s' => from s'
           end) s
      else if Ascii.eqb c "_" then
        match s with
        | EmptyString => false
        | String _ s' => like pattern' (skip_continuation s')
        end
      else
        match s with
        | EmptyString => false
        | String d s' => Ascii.eqb (upper c) (upper d) && like pattern' s'
        end
  end.

Definition sql_like (a : option string) (pattern : string) : tri :=
  option_map (like pattern) a.

(** A [REAL] result: NaN is stored and returned as [NULL]. *)
Definition real (f : float) : option float :=
  if PrimFloat.is_nan f then None else Some f.

(** *** ORDER BY, LIMIT and OFFSET *)

(** Sort keys: [NULL] sorts before numbers, numbers before text. *)
Inductive sqlkey : Type :=
| KNull
| KReal (f : float)
| KText (s : string).

Definition key_le (a b : sqlkey) : bool :=
  match a, b with
  | KNull, _ => true
  | _, KNull => false
  | KReal x, KReal y => PrimFloat.leb x y
  | KReal _, KText _ => true
  | KText _, KReal _ => false
  | KText x, KText y => String.leb x y
  end.

Fixpoint insert_by {A : Type} (le : A -> A -> bool) (x : A) (l : list A) : list A :=
  match l with
  | [] => [x]
  | y :: l' => if le x y then x :: l else y :: insert_by le x l'
  end.

(** SQLite leaves the order of rows with equal keys open; the sort here
    keeps them in scan order. *)
Definition sort_by {A : Type} (le : A -> A -> bool) (l : list A) : list A :=
  fold_right (insert_by le) [] l.

Definition order_by {A : Type} (key : A -> sqlkey) (ascending : bool)
    (l : list A) : list A :=
  if ascending then sort_by (fun a b => key_le (key a) (key b)) l
  else sort_by (fun a b => key_le (key b) (key a)) l.

(** A number is bound as a [REAL], and [LIMIT] and [OFFSET] take integers:
    SQLite turns the value into a 64-bit integer when that loses nothing
    and the integer is neither the least nor the greatest one (so the
    value lies strictly between -2^63 and 2^63), and stops the statement
    otherwise.  The whole number [n] reaches SQLite as the double nearest
    to it; the doubles next to 2^63 are 2^63 - 1024 and 2^63 itself, and
    the half-way point 2^63 - 512 goes up, so that the double passes
    exactly when [n] is below 2^63 - 512 in magnitude. *)
Definition is_int64 (n : Z) : bool :=
  (-9223372036854775296 <? n) && (n <? 9223372036854775296).

Definition must_be_int (v : option Z) : outcome unit :=
  match v with
  | Some n => if is_int64 n then Ok tt else Throw (SqliteError "datatype mismatch")
  | None => Ok tt
  end.

(** [LIMIT n OFFSET k] on the result rows, for integers [n] and [k]: a
    negative limit is no limit, a negative offset is no offset. *)
Definition limit_offset {A : Type} (limit offset : option Z) (l : list A) : list A :=
  let l' :=
    match offset with
    | Some k => skipn (Z.to_nat k) l
    | None => l
    end in
  match limit with
  | Some n => if n <? 0 then l' else firstn (Z.to_nat n) l'
  | None => l'
  end.

(** The first column of [cols] that table [t] does not have. *)
Definition missing_column (t : table) (cols : list string) : option string :=
  find (fun c => negb (has_column t c)) cols.

(** *** Statements run through [db.exec] *)

Inductive stmt : Type :=
| BeginTransaction
| Commit
| Rollback
| AlterTableDropColumn (col : string)   (* ALTER TABLE orders DROP COLUMN col *)
| AlterTableAddColumn (col : string)    (* ALTER TABLE orders ADD COLUMN col TEXT *)
| PragmaUserVersion (v : Z).            (* PRAGMA user_version = v *)

Definition drop_column (col : string) (s : store) : outcome store :=
  match orders s with
  | None => Throw (SqliteError "no such table: orders")
  | Some t =>
      if negb (has_column t col) then
        Throw (SqliteError ("no such column: " ++ col))
      else if String.eqb col "number" then
        Throw (SqliteError ("cannot drop PRIMARY KEY column: " ++ col))
      else if (List.length (columns t) <=? 1)%nat then
        Throw (SqliteError ("cannot drop column: no other columns exist"))
      else
        Ok (mkStore (user_version s)
              (Some (mkTable (filter (fun c => negb (String.eqb c col)) (columns t))
                             (map (set_null col) (rows t)))))
  end.

Definition add_column (col : string) (s : store) : outcome store :=
  match orders s with
  | None => Throw (SqliteError "no such table: orders")
  | Some t =>
      if has_column t col then
        Throw (SqliteError ("duplicate column name: " ++ col))
      else
        Ok (mkStore (user_version s)
              (Some (mkTable (columns t ++ [col])
                             (map (set_null col) (rows t)))))
  end.

Definition set_user_version (v : Z) (s : store) : outcome store :=
  Ok (mkStore v (orders s)).

(** A write goes to the working copy inside a transaction and straight to
    the file in autocommit mode.  A statement that fails changes nothing. *)
Definition write (f : store -> outcome store) (c : conn) : outcome conn :=
  match txn c with
  | Some w => w' <- f w ;; Ok (mkConn (committed c) (Some w'))
  | None => s' <- f (committed c) ;; Ok (mkConn s' None)
  end%outcome.

Definition exec (s : stmt) (c : conn) : outcome conn :=
  match s with
  | BeginTransaction =>
      match txn c with
      | Some _ =>
          Throw (SqliteError "cannot start a transaction within a transaction")
      | None => Ok (mkConn (committed c) (Some (committed c)))
      end
  | Commit =>
      match txn c with
      | Some w => Ok (mkConn w None)
      | None => Throw (SqliteError "cannot commit - no transaction is active")
      end
  | Rollback =>
      match txn c with
      | Some _ => Ok (mkConn (committed c) None)
      | None => Throw (SqliteError "cannot rollback - no transaction is active")
      end
  | AlterTableDropColumn col => write (drop_column col) c
  | AlterTableAddColumn col => write (add_column col) c
  | PragmaUserVersion v => write (set_user_version v) c
  end.

End Sqlite.

(** Decimal rendering of an integer, as in a template literal. *)
Definition string_of_Z (z : Z) : string :=
  DecimalString.NilZero.string_of_int (Z.to_int z).

(** ** migrate.js *)

Module Migrate.
Import Sqlite.

(** Lines written through [console.log] and [console.error]. *)
Inductive console_entry : Type :=
| ConsoleLog (text : string)
| ConsoleError (text : string) (err : exn).

(** The state [migrate] runs in: the database handle it is given and the
    console. *)
Record world : Type := mkWorld {
  db : conn;
  console : list console_entry
}.

(** Statements of the function: state passing with exceptions.  A [Throw]
    carries the state reached when the exception was raised, so that a
    [catch] block continues from there. *)
Definition JS (A : Type) : Type := world -> outcome A * world.

Definition ret {A : Type} (a : A) : JS A := fun w => (Ok a, w).

Definition seq {A B : Type} (m : JS A) (k : A -> JS B) : JS B :=
  fun w =>
    match m w with
    | (Ok a, w') => k a w'
    | (Throw e, w') => (Throw e, w')
    end.

Definition try_catch {A : Type} (body : JS A) (handler : exn -> JS A) : JS A :=
  fun w =>
    match body w with
    | (Ok a, w') => (Ok a, w')
    | (Throw e, w') => handler e w'
    end.

Declare Scope js_scope.
Delimit Scope js_scope with js.
Notation "x <- m ;; k" := (seq m (fun x => k))
  (at level 61, m at next level, right associativity) : js_scope.
Notation "m ;;; k" := (seq m (fun _ => k))
  (at level 61, right associativity) : js_scope.

Section WithFailures.

(** Statements that the engine does not carry out for a reason outside
    this model of the store (an index or a view on the column, a lock held
    by another process).  As SQLite does for a failed statement, such a
    statement throws, changes nothing, and leaves its transaction open.
    Errors after which SQLite ends the transaction by itself are not
    modelled. *)
Variable fails : stmt -> bool.

(** [db.exec(sql)] *)
Definition db_exec (s : stmt) : JS unit :=
  fun w =>
    if fails s then (Throw (SqliteError "statement failed"), w)
    else
      match exec s (db w) with
      | Ok c' => (Ok tt, mkWorld c' (console w))
      | Throw e => (Throw e, w)
      end.

(** [db.prepare('PRAGMA user_version').get()]: the pragma always yields
    its one row, and the row holds an integer, so that the fall-backs of
    [migrate] for a missing row and for NaN are never taken. *)
Definition get_user_version : JS (option Z) :=
  fun w => (Ok (Some (user_version (view (db w)))), w).

Definition console_log (text : string) : JS unit :=
  fun w => (Ok tt, mkWorld (db w) (console w ++ [ConsoleLog text])).

Definition console_error (text : string) (err : exn) : JS unit :=
  fun w => (Ok tt, mkWorld (db w) (console w ++ [ConsoleError text err])).

(** The body of the [try] block. *)
Definition migrate_v1_to_v2 : JS unit :=
  (db_exec BeginTransaction ;;;
   db_exec (AlterTableDropColumn "cancelled") ;;;
   db_exec (AlterTableAddColumn "cancelledAt") ;;;
   db_exec (PragmaUserVersion 2) ;;;
   db_exec Commit ;;;
   console_log "Schema updated successfully: cancelled -> cancelledAt")%js.

Definition migrate : JS unit :=
  (versionResult <- get_user_version ;;
   let currentVersion :=
     match versionResult with
     | Some v => v
     | None => 1
     end in
   let TARGET_VERSION := 2 in
   if currentVersion <? TARGET_VERSION then
     console_log ("Migrating DB from v" ++ string_of_Z currentVersion ++
                  " to v" ++ string_of_Z TARGET_VERSION ++ "...") ;;;
     if currentVersion <? 2 then
       try_catch migrate_v1_to_v2
         (fun err =>
            db_exec Rollback ;;;
            console_error "Migration failed, changes rolled back:" err)
     else ret tt
   else ret tt)%js.

End WithFailures.

(** An engine that carries out every statement. *)
Definition never_fails : stmt -> bool := fun _ => false.

End Migrate.

(** ** index.js *)

Module VineTracker.
Import JSDate Sqlite Sqlite.Row.

(** The host: its time zone and the clock reading that [new Date()]
    returns. *)
Record env : Type := mkEnv {
  tz : zone;
  now : Z
}.

(** The [Order] typedef, as [toOrder] fills it. *)
Module Order.
Record Order : Type := mk {
  number : option string;
  asin : option string;
  product : option string;
  orderedAt : Date;
  deliveredAt : Date;
  etv : option float;
  etvFactor : option float;
  cancelled : bool;
  etvReason : option string
}.
End Order.
Abbreviation Order := Order.Order.

(** The [GetOrdersOptions] typedef.  An option left out is [None]; the
    boolean options carry their default [false]. *)
Module Opt.
Record GetOrdersOptions : Type := mk {
  cancelled : bool;
  nonAdjustedOnly : bool;
  limit : option Z;                  (* a number without a fraction *)
  offset : option Z;                 (* a number without a fraction *)
  search : option string;
  year : option Z;
  countOnly : bool;
  sort : option string;
  dir : option string;
  byDelivered : bool
}.

(** [{}] *)
Definition none : GetOrdersOptions :=
  mk false false None None None None false None None false.

Definition with_cancelled (b : bool) (o : GetOrdersOptions) : GetOrdersOptions :=
  mk b (nonAdjustedOnly o) (limit o) (offset o) (search o) (year o)
     (countOnly o) (sort o) (dir o) (byDelivered o).

Definition with_countOnly (b : bool) (o : GetOrdersOptions) : GetOrdersOptions :=
  mk (cancelled o) (nonAdjustedOnly o) (limit o) (offset o) (search o) (year o)
     b (sort o) (dir o) (byDelivered o).

Definition with_year (y : option Z) (o : GetOrdersOptions) : GetOrdersOptions :=
  mk (cancelled o) (nonAdjustedOnly o) (limit o) (offset o) (search o) y
     (countOnly o) (sort o) (dir o) (byDelivered o).

Definition with_search (s : option string) (o : GetOrdersOptions) : GetOrdersOptions :=
  mk (cancelled o) (nonAdjustedOnly o) (limit o) (offset o) s (year o)
     (countOnly o) (sort o) (dir o) (byDelivered o).

Definition with_page (l k : option Z) (o : GetOrdersOptions) : GetOrdersOptions :=
  mk (cancelled o) (nonAdjustedOnly o) l k (search o) (year o)
     (countOnly o) (sort o) (dir o) (byDelivered o).

Definition with_sort (c d : option string) (o : GetOrdersOptions) : GetOrdersOptions :=
  mk (cancelled o) (nonAdjustedOnly o) (limit o) (offset o) (search o) (year o)
     (countOnly o) c d (byDelivered o).
End Opt.
Abbreviation GetOrdersOptions := Opt.GetOrdersOptions.

(** *** toOrder *)

Definition toOrder (r : row) : Order :=
  Order.mk (Row.number r) (Row.asin r) (Row.product r)
    (ofValue (Row.orderedAt r))
    (ofValue (Row.deliveredAt r))
    (Row.etv r) (Row.etvFactor r)
    (match Row.cancelled r with Some n => n =? 1 | None => false end)
    (Row.etvReason r).

(** *** safeParseInt *)

Definition is_space (c : ascii) : bool :=
  let n := N_of_ascii c in ((n =? 32) || ((9 <=? n) && (n <=? 13)))%N.

Fixpoint trim_start (s : string) : string :=
  match s with
  | EmptyString => s
  | String c s' => if is_space c then trim_start s' else s
  end.

(** Value of the longest prefix of decimal digits; [None] (NaN) when the
    string does not start with a digit. *)
Fixpoint digit_prefix (acc : option Z) (s : string) : option Z :=
  match s with
  | EmptyString => acc
  | String c s' =>
      if is_digit c then
        digit_prefix (Some (10 * match acc with Some a => a | None => 0 end
                            + digit_val c)) s'
      else acc
  end.

(** [parseInt(s, 10)] *)
Definition parseInt (s : string) : option Z :=
  match trim_start s with
  | String "-" s' => option_map Z.opp (digit_prefix None s')
  | String "+" s' => digit_prefix None s'
  | s' => digit_prefix None s'
  end.

Definition safeParseInt (value : option string) : option Z :=
  match value with
  | None => None
  | Some s => if String.eqb s "" then None else parseInt s
  end.

(** *** getOrders *)

(** [/^\d{4}-\d{2}-\d{2}$/.test(s)] *)
Definition is_date_pattern (s : string) : bool :=
  match list_ascii_of_string s with
  | [y1; y2; y3; y4; h1; m1; m2; h2; d1; d2] =>
      is_digit y1 && is_digit y2 && is_digit y3 && is_digit y4 &&
      Ascii.eqb h1 "-" && is_digit m1 && is_digit m2 &&
      Ascii.eqb h2 "-" && is_digit d1 && is_digit d2
  | _ => false
  end.

(** [s.split(sep)] for a one-character separator *)
Fixpoint split (sep : ascii) (s : string) : list string :=
  match s with
  | EmptyString => [EmptyString]
  | String c s' =>
      if Ascii.eqb c sep then EmptyString :: split sep s'
      else
        match split sep s' with
        | [] => [String c EmptyString]
        | part :: parts => String c part :: parts
        end
  end.

(** Truthiness of a number and of a string. *)
Definition truthy_number (n : option Z) : bool :=
  match n with
  | Some v => negb (v =? 0)
  | None => false
  end.

Definition truthy_string (s : option string) : bool :=
  match s with
  | Some v => negb (String.eqb v "")
  | None => false
  end.

(** The statement that [getOrders] assembles: the clauses that the
    template leaves out are [None] or [false], and the named parameters
    are held where the text mentions them. *)
Record select : Type := mkSelect {
  sel_count : bool;                  (* COUNT(1) as row_count, or the rows *)
  sel_cancelled : Z;                 (* :cancelled *)
  sel_keyword : option string;       (* :keyword *)
  sel_dateColumn : string;           (* deliveredAt or orderedAt *)
  sel_startDate : option string;     (* :startDate *)
  sel_endDate : option string;       (* :endDate *)
  sel_nonAdjustedOnly : bool;
  sel_sortCol : string;
  sel_ascending : bool;
  sel_limit : option Z;              (* :limit *)
  sel_offset : option Z              (* :offset *)
}.

(** [etv * COALESCE(etvFactor, 0) AS adjustedEtv] *)
Definition adjustedEtv (r : row) : option float :=
  match Row.etv r with
  | None => None
  | Some e =>
      real (e * match Row.etvFactor r with Some f => f | None => 0 end)%float
  end.

(** The [WHERE] clause. *)
Definition where_ (q : select) (r : row) : tri :=
  let c := int_eq (Row.cancelled r) (sel_cancelled q) in
  let c :=
    match sel_keyword q with
    | Some keyword =>
        sql_and c (sql_or (sql_or (sql_like (Row.number r) keyword)
                                  (sql_like (Row.asin r) keyword))
                          (sql_like (Row.product r) keyword))
    | None => c
    end in
  let c :=
    match sel_startDate q with
    | Some startDate =>
        sql_and c (text_ge (get_text (sel_dateColumn q) r) startDate)
    | None => c
    end in
  let c :=
    match sel_endDate q with
    | Some endDate =>
        sql_and c (text_le (get_text (sel_dateColumn q) r) endDate)
    | None => c
    end in
  if sel_nonAdjustedOnly q then
    sql_and (sql_and c (real_ne (Row.etv r) 0))
      (sql_or (is_null (Row.etvFactor r))
         (sql_and
            (sql_and
               (sql_and (is_not_null (Row.etvFactor r))
                        (real_ne (Row.etvFactor r) 0x1.999999999999ap-3))
               (real_ne (Row.etvFactor r) 1))
            (is_null (Row.etvReason r))))
  else c.

(** The key of [ORDER BY sortCol]. *)
Definition order_key (sortCol : string) (r : row) : sqlkey :=
  let of_real (v : option float) :=
    match v with Some f => KReal f | None => KNull end in
  if String.eqb sortCol "etv" then of_real (Row.etv r)
  else if String.eqb sortCol "etvFactor" then of_real (Row.etvFactor r)
  else if String.eqb sortCol "adjustedEtv" then of_real (adjustedEtv r)
  else match Row.orderedAt r with Some s => KText s | None => KNull end.

(** Columns the statement names, in the order SQLite resolves them. *)
Definition referenced (q : select) : list string :=
  (if sel_count q then [] else ["etv"; "etvFactor"]) ++
  ["cancelled"] ++
  (match sel_keyword q with Some _ => ["number"; "asin"; "product"] | None => [] end) ++
  (match sel_startDate q with Some _ => [sel_dateColumn q] | None => [] end) ++
  (match sel_endDate q with Some _ => [sel_dateColumn q] | None => [] end) ++
  (if sel_nonAdjustedOnly q then ["etv"; "etvFactor"; "etvReason"] else []) ++
  (if String.eqb (sel_sortCol q) "adjustedEtv" then [] else [sel_sortCol q]).

(** [db.prepare(sql)]: the statement must parse (SQLite has no [OFFSET]
    without [LIMIT]) and every name must resolve. *)
Definition prepare (db : conn) (q : select) : outcome table :=
  match sel_limit q, sel_offset q with
  | None, Some _ => Throw (SqliteError "near OFFSET: syntax error")
  | _, _ =>
      match orders (view db) with
      | None => Throw (SqliteError "no such table: orders")
      | Some t =>
          match missing_column t (referenced q) with
          | Some c => Throw (SqliteError ("no such column: " ++ c))
          | None => Ok t
          end
      end
  end.

(** [query.get(variables)] and [query.all(variables)] start the
    statement: [:limit], then [:offset], must be integers before a row is
    read, in count mode as in row mode. *)
Definition start (q : select) : outcome unit :=
  (_ <- must_be_int (sel_limit q) ;;
   must_be_int (sel_offset q))%outcome.

(** The rows of the row-mode statement: filter, sort, paginate. *)
Definition select_rows (t : table) (q : select) : list row :=
  limit_offset (sel_limit q) (sel_offset q)
    (order_by (order_key (sel_sortCol q)) (sel_ascending q)
       (filter (fun r => is_true (where_ q r)) (rows t))).

(** The rows of the count-mode statement: the aggregate makes one row,
    and [ORDER BY], [LIMIT] and [OFFSET] then apply to that one row. *)
Definition select_count (t : table) (q : select) : list Z :=
  limit_offset (sel_limit q) (sel_offset q)
    [Z.of_nat (List.length (filter (fun r => is_true (where_ q r)) (rows t)))].

(** What [getOrders] returns: a list of orders, or a count. *)
Inductive result : Type :=
| Rows (l : list Order)
| Count (n : Z).

(** Lines 826-832: the bound of a [year]. *)
Definition yearBounds (e : env) (year : option Z)
    : outcome (option string * option string) :=
  (match year with
   | Some y =>
       if truthy_number year then
         let dt := construct (tz e) y 0 1 0 0 0 0 in
         startDate <- toISOString dt ;;
         let dt := setMonth (tz e) dt 11 31 in
         let dt := setHours (tz e) dt 11 59 59 999 in
         endDate <- toISOString dt ;;
         Ok (Some startDate, Some endDate)
       else Ok (None, None)
   | None => Ok (None, None)
   end)%outcome.

(** Lines 833-849: a [search] is a day or a keyword.  The result is
    [(keyword, startDate, endDate)]; [bounds] is what the [year] left in
    [startDate] and [endDate]. *)
Definition searchBounds (e : env) (search : option string)
    (bounds : option string * option string)
    : outcome (option string * option string * option string) :=
  (match search with
   | Some s =>
       if truthy_string search then
         if is_date_pattern s then
           let dt := TimeValue (now e) in
           let parts := split "-" s in
           let year := safeParseInt (nth_error parts 0) in
           let month := safeParseInt (nth_error parts 1) in
           let day := safeParseInt (nth_error parts 2) in
           match year, month, day with
           | Some year, Some month, Some day =>
               if (year =? 0) || (month =? 0) || (day =? 0) then
                 Throw (Error "Invalid date")
               else
                 let dt := setFullYear (tz e) dt year (month - 1) day in
                 let dt := setHours (tz e) dt 0 0 0 0 in
                 startDate <- toISOString dt ;;
                 let dt := setHours (tz e) dt 23 59 59 999 in
                 endDate <- toISOString dt ;;
                 Ok (None, Some startDate, Some endDate)
           | _, _, _ => Throw (Error "Invalid date")
           end
         else Ok (Some ("%" ++ s ++ "%")%string, fst bounds, snd bounds)
       else Ok (None, fst bounds, snd bounds)
   | None => Ok (None, fst bounds, snd bounds)
   end)%outcome.

(** Lines 850-869: the statement text and its parameters. *)
Definition buildSelect (o : GetOrdersOptions)
    (keyword startDate endDate : option string) : select :=
  let countOnly := Opt.countOnly o in
  let sortCol :=
    match Opt.sort o with
    | Some sort =>
        if negb countOnly && truthy_string (Opt.sort o) &&
           existsb (String.eqb sort) ["etv"; "etvFactor"; "adjustedEtv"]
        then sort else "orderedAt"
    | None => "orderedAt"
    end in
  let ascending :=
    if countOnly then true
    else match Opt.dir o with
         | Some d => String.eqb d "asc"
         | None => false
         end in
  mkSelect countOnly
    (if Opt.cancelled o then 1 else 0)
    (if truthy_string keyword then keyword else None)
    (if Opt.byDelivered o then "deliveredAt" else "orderedAt")
    (if truthy_string startDate then startDate else None)
    (if truthy_string endDate then endDate else None)
    (Opt.nonAdjustedOnly o)
    sortCol ascending
    (Opt.limit o) (Opt.offset o).

Definition getOrders (e : env) (db : conn) (o : GetOrdersOptions)
    : outcome result :=
  (bounds <- yearBounds e (Opt.year o) ;;
   found <- searchBounds e (Opt.search o) bounds ;;
   let '(keyword, startDate, endDate) := found in
   let query := buildSelect o keyword startDate endDate in
   t <- prepare db query ;;
   _ <- start query ;;
   if Opt.countOnly o then
     (* query.get(variables); result?.row_count ?? 0 *)
     Ok (Count match select_count t query with
               | row_count :: _ => row_count
               | [] => 0
               end)
   else
     (* query.all(variables).map(toOrder) *)
     Ok (Rows (map toOrder (select_rows t query))))%outcome.

(** *** setETVReasonForOrder *)

Definition update_etvReason (number : string) (reason : option string)
    (s : store) : outcome store :=
  match orders s with
  | None => Throw (SqliteError "no such table: orders")
  | Some t =>
      match missing_column t ["etvReason"; "number"] with
      | Some c => Throw (SqliteError ("no such column: " ++ c))
      | None =>
          Ok (mkStore (user_version s)
                (Some (mkTable (columns t)
                   (map (fun r =>
                           if is_true (text_eq (Row.number r) number)
                           then set_etvReason reason r else r)
                        (rows t)))))
      end
  end.

Definition setETVReasonForOrder (db : conn) (number : string)
    (reason : option string) : outcome conn :=
  let reason :=
    match reason with
    | Some s => if String.eqb s "" then None else reason
    | None => reason
    end in
  (* UPDATE orders SET etvReason = ? WHERE number = ? *)
  write (update_etvReason number reason) db.

(** *** getMonthlyBreakdown *)

Record MonthlyBreakdown : Type := mkMonthly {
  month : Z;
  orderCount : Z;
  totalEtv : float;
  totalAdjustedEtv : float
}.

(** A [number | null] operand of [+] or [*]: [null] converts to 0. *)
Definition toNumber (v : option float) : float :=
  match v with
  | Some f => f
  | None => 0
  end.

(** [o.orderedAt.getMonth() === month] *)
Definition inMonth (e : env) (month : Z) (o : Order) : bool :=
  match getMonth (tz e) (Order.orderedAt o) with
  | Some m => m =? month
  | None => false
  end.

(** [o.etvFactor !== null ? o.etv * o.etvFactor : o.etv] *)
Definition adjusted (o : Order) : float :=
  match Order.etvFactor o with
  | Some f => (toNumber (Order.etv o) * f)%float
  | None => toNumber (Order.etv o)
  end.

Definition breakdownFor (e : env) (orders : list Order) (month : Z)
    : MonthlyBreakdown :=
  let ordersForMonth := filter (inMonth e month) orders in
  let totalEtv :=
    fold_left (fun sum o => (sum + toNumber (Order.etv o))%float) ordersForMonth 0%float in
  let totalAdjustedEtv :=
    fold_left (fun sum o => (sum + adjusted o)%float) ordersForMonth 0%float in
  mkMonthly (month + 1) (Z.of_nat (List.length ordersForMonth))
            totalEtv totalAdjustedEtv.

(** The loop [for (let month = 0; month < 12; month++)], pushing one
    bucket per round. *)
Fixpoint monthLoop (e : env) (orders : list Order) (rounds : nat) (month : Z)
    (monthly : list MonthlyBreakdown) : list MonthlyBreakdown :=
  match rounds with
  | O => monthly
  | S rounds' =>
      if month <? 12 then
        monthLoop e orders rounds' (month + 1)
                  (monthly ++ [breakdownFor e orders month])
      else monthly
  end.

Definition getMonthlyBreakdown (e : env) (orders : list Order)
    : list MonthlyBreakdown :=
  monthLoop e orders 12 0 [].

(** *** Startup *)

(** The columns of the [CREATE TABLE] statement, in its order. *)
Definition orders_columns : list string :=
  ["number"; "asin"; "product"; "orderedAt"; "deliveredAt"; "etv";
   "etvFactor"; "cancelled"; "etvReason"; "notes"].

(** [CREATE TABLE IF NOT EXISTS orders (...)] *)
Definition create_table_if_not_exists (s : store) : outcome store :=
  match orders s with
  | Some _ => Ok s
  | None => Ok (mkStore (user_version s) (Some (mkTable orders_columns [])))
  end.

(** The [db.exec] of the [listen] callback. *)
Definition createOrdersTable (db : conn) : outcome conn :=
  write create_table_if_not_exists db.

(** *** Statements that write to [orders] *)

(** Name resolution of a statement on [orders] that mentions the columns
    [cols]; [complaint] is the text SQLite puts before the first name it
    cannot resolve. *)
Definition resolve (complaint : string) (cols : list string) (s : store)
    : outcome table :=
  match orders s with
  | None => Throw (SqliteError "no such table: orders")
  | Some t =>
      match missing_column t cols with
      | Some c => Throw (SqliteError (complaint ++ c))
      | None => Ok t
      end
  end.

(** A [number | null] bound to a [REAL] column. *)
Definition bind_real (v : option float) : option float :=
  match v with
  | Some f => real f
  | None => None
  end.

Definition set_etvFactor (v : option float) (r : row) : row :=
  Row.mk (number r) (asin r) (product r) (orderedAt r) (deliveredAt r) (etv r)
         v (cancelled r) (etvReason r) (notes r) (cancelledAt r).

Definition set_notes (v : option string) (r : row) : row :=
  Row.mk (number r) (asin r) (product r) (orderedAt r) (deliveredAt r) (etv r)
         (etvFactor r) (cancelled r) (etvReason r) v (cancelledAt r).

Definition set_cancelled (v : option Z) (r : row) : row :=
  Row.mk (number r) (asin r) (product r) (orderedAt r) (deliveredAt r) (etv r)
         (etvFactor r) v (etvReason r) (notes r) (cancelledAt r).

(** [UPDATE orders SET col = ? WHERE number = ?], where [set] writes the
    bound value into column [col]. *)
Definition update_where_number (col : string) (set : row -> row)
    (number : string) (s : store) : outcome store :=
  (t <- resolve "no such column: " [col; "number"] s ;;
   Ok (mkStore (user_version s)
         (Some (mkTable (columns t)
            (map (fun r =>
                    if is_true (text_eq (Row.number r) number) then set r else r)
                 (rows t))))))%outcome.

(** The columns that the [INSERT] of [maybeInsertOrder] lists. *)
Definition inserted_columns : list string :=
  ["number"; "asin"; "product"; "orderedAt"; "deliveredAt"; "etv";
   "etvFactor"; "cancelled"; "etvReason"].

(** [INSERT OR IGNORE INTO orders (...) VALUES (...)] of the row [r]: the
    row is added after the others, unless a row with its [number] is
    there already ([number] is the primary key), in which case nothing
    happens. *)
Definition insert_or_ignore (r : row) (s : store) : outcome store :=
  (t <- resolve "table orders has no column named " inserted_columns s ;;
   let conflict :=
     match Row.number r with
     | Some n => existsb (fun r' => is_true (text_eq (Row.number r') n)) (rows t)
     | None => false
     end in
   if conflict then Ok s
   else Ok (mkStore (user_version s)
              (Some (mkTable (columns t) (rows t ++ [r])))))%outcome.

(** *** maybeInsertOrder *)

(** The [Order] typedef as the caller of [maybeInsertOrder] fills it:
    [deliveredAt] may be left out, [etvFactor] may be [null]. *)
Module NewOrder.
Record NewOrder : Type := mk {
  number : string;
  asin : string;
  product : string;
  orderedAt : Date;
  deliveredAt : option Date;
  etv : float;
  etvFactor : option float
}.
End NewOrder.
Abbreviation NewOrder := NewOrder.NewOrder.

(** The row that the statement of [maybeInsertOrder] writes, once the two
    dates are rendered. *)
Definition insertedRow (order : NewOrder) (orderedAt : string)
    (deliveredAt : option string) : row :=
  Row.mk (Some (NewOrder.number order)) (Some (NewOrder.asin order))
         (Some (NewOrder.product order)) (Some orderedAt) deliveredAt
         (real (NewOrder.etv order)) (bind_real (NewOrder.etvFactor order))
         (Some 0) None None None.

Definition maybeInsertOrder (db : conn) (order : NewOrder) : outcome conn :=
  ((* db.prepare(...) *)
   _ <- resolve "table orders has no column named " inserted_columns (view db) ;;
   (* the arguments of stmt.run, left to right *)
   orderedAt <- toISOString (NewOrder.orderedAt order) ;;
   deliveredAt <- match NewOrder.deliveredAt order with
                  | Some dt => s <- toISOString dt ;; Ok (Some s)
                  | None => Ok None
                  end ;;
   write (insert_or_ignore (insertedRow order orderedAt deliveredAt)) db)%outcome.

(** *** setETVFactorForOrder, setNotesForOrder *)

Definition setETVFactorForOrder (db : conn) (number : string)
    (etvFactor : option float) : outcome conn :=
  (* UPDATE orders SET etvFactor = ? WHERE number = ? *)
  write (update_where_number "etvFactor" (set_etvFactor (bind_real etvFactor))
                             number) db.

Definition setNotesForOrder (db : conn) (number notes : string) : outcome conn :=
  (* UPDATE orders SET notes = ? WHERE number = ? *)
  write (update_where_number "notes" (set_notes (Some notes)) number) db.

(** *** safeQsString *)

(** A value of [req.query]: a string, a nested object, an array, or
    nothing. *)
Inductive qsvalue : Type :=
| QsUndefined
| QsString (s : string)
| QsObject
| QsArray.

(** The string that a query value is, if it is one: what the [typeof] and
    [Array.isArray] tests of [safeParseInt] and [safeQsString] let
    through. *)
Definition qs_string (value : qsvalue) : option string :=
  match value with
  | QsString s => Some s
  | _ => None
  end.

Definition safeQsString (value : qsvalue) : option string :=
  match value with
  | QsString s => if String.eqb s "" then None else Some s
  | _ => None
  end.

(** *** Route handlers *)

(** What a handler leaves behind: the database, the lines it wrote to the
    console, and how it ended. *)
Inductive console_line : Type :=
| LogLine (text : string)      (* console.log *)
| ErrorLine (text : string).   (* console.error *)

Record Report : Type := mkReport {
  report_year : option Z;      (* NaN is [None] *)
  report_totalEtv : float;
  report_totalAdjustedEtv : float;
  report_orderCount : Z;
  report_monthly : list MonthlyBreakdown;
  report_orderCountByDate : list (string * Z);
  report_orderETVByDate : list (string * float)
}.

Inductive body : Type :=
| ErrorBody (error : string)                       (* { error } *)
| SuccessBody                                      (* { success: true } *)
| OrdersBody (orders total : result)               (* { orders, total } *)
| UploadBody (inserted failed cancellations : Z)
| ReportBody (report : Report).

Inductive ending : Type :=
| Responded (status : Z) (b : body)  (* res.status(status).json(b) *)
| Returned                           (* returned without a response *)
| Rejected (e : exn).                (* an exception left the handler *)

Record handled : Type := mkHandled {
  db_after : conn;
  printed : list console_line;
  ended : ending
}.

(** [err.message] *)
Definition message (err : exn) : string :=
  match err with
  | Error m => m
  | RangeError m => m
  | SqliteError m => m
  end.

(** The [catch] block of the handlers. *)
Definition server_error (db : conn) (err : exn) : handled :=
  let msg := message err in
  mkHandled db [ErrorLine msg] (Responded 500 (ErrorBody msg)).

(** The rejection of a request body. *)
Definition bad_request (db : conn) (error : string) : handled :=
  mkHandled db [ErrorLine error] (Responded 400 (ErrorBody error)).

(** [GET /orders] *)
Record Query : Type := mkQuery {
  query_filter : qsvalue;
  query_limit : qsvalue;
  query_offset : qsvalue;
  query_s : qsvalue;
  query_sort : qsvalue;
  query_dir : qsvalue
}.

(** [value === text] *)
Definition qs_is (value : qsvalue) (text : string) : bool :=
  match value with
  | QsString s => String.eqb s text
  | _ => false
  end.

Definition variablesOf (query : Query) : GetOrdersOptions :=
  Opt.mk (qs_is (query_filter query) "cancelled")
         (qs_is (query_filter query) "adjusted")
         (safeParseInt (qs_string (query_limit query)))
         (safeParseInt (qs_string (query_offset query)))
         (safeQsString (query_s query))
         None false
         (safeQsString (query_sort query))
         (safeQsString (query_dir query))
         false.

Definition get_orders (e : env) (query : Query) (db : conn) : handled :=
  let variables := variablesOf query in
  match (total <- getOrders e db
                    (Opt.with_countOnly true (Opt.with_page None None variables)) ;;
         orders <- getOrders e db variables ;;
         Ok (orders, total))%outcome with
  | Ok (orders, total) => mkHandled db [] (Responded 200 (OrdersBody orders total))
  | Throw err => server_error db err
  end.

(** A member of a parsed JSON request body. *)
Inductive json : Type :=
| JUndefined                (* no such member *)
| JNull
| JBool (b : bool)
| JNumber (f : float)
| JString (s : string)
| JArray
| JObject.

(** [s.length]: the number of UTF-16 code units of the text that the
    bytes [s] encode in UTF-8 (two for a four-byte sequence, one for any
    other). *)
Fixpoint js_length (s : string) : Z :=
  match s with
  | EmptyString => 0
  | String c s' =>
      (if is_continuation c then 0
       else if (240 <=? N_of_ascii c)%N then 2 else 1) + js_length s'
  end.

(** [POST /orders/:number/etv], from the test of [etvFactor] on. *)
Definition post_etv (number : string) (etvFactor : json) (db : conn) : handled :=
  let is_null := match etvFactor with JNull => true | _ => false end in
  let is_number := match etvFactor with JNumber _ => true | _ => false end in
  let negative :=
    match etvFactor with JNumber f => (f <? 0)%float | _ => false end in
  if negb is_null && (negb is_number || negative) then
    bad_request db
      "Invalid etvFactor. Must be a number greater than or equal to 0, or null"
  else
    match setETVFactorForOrder db number
            match etvFactor with JNumber f => Some f | _ => None end with
    | Ok db' => mkHandled db' [] (Responded 200 SuccessBody)
    | Throw err => server_error db err
    end.

(** [POST /orders/:number/etv-reason], from the test of [reason] on. *)
Definition post_etv_reason (number : string) (reason : json) (db : conn)
    : handled :=
  match reason with
  | JString s =>
      if 255 <? js_length s then
        bad_request db "Invalid reason. Must be a string up to 255 characters"
      else
        match setETVReasonForOrder db number (Some s) with
        | Ok db' => mkHandled db' [] (Responded 200 SuccessBody)
        | Throw err => server_error db err
        end
  | _ => bad_request db "Invalid reason. Must be a string up to 255 characters"
  end.

(** [POST /orders/:number/notes], from the test of [notes] on. *)
Definition post_notes (number : string) (notes : json) (db : conn) : handled :=
  match notes with
  | JString s =>
      if 2000 <? js_length s then
        bad_request db "Invalid notes. Must be a string up to 2000 characters"
      else
        match setNotesForOrder db number s with
        | Ok db' => mkHandled db' [] (Responded 200 SuccessBody)
        | Throw err => server_error db err
        end
  | _ => bad_request db "Invalid notes. Must be a string up to 2000 characters"
  end.

(** [GET /report-data/:year] *)

(** [parseInt(s)] with no radix: decimal, or hexadecimal after [0x]. *)
Definition hex_val (c : ascii) : option Z :=
  let n := N_of_ascii c in
  if ((48 <=? n) && (n <=? 57))%N then Some (Z.of_N n - 48)
  else if ((97 <=? n) && (n <=? 102))%N then Some (Z.of_N n - 87)
  else if ((65 <=? n) && (n <=? 70))%N then Some (Z.of_N n - 55)
  else None.

Fixpoint hex_prefix (acc : option Z) (s : string) : option Z :=
  match s with
  | EmptyString => acc
  | String c s' =>
      match hex_val c with
      | Some v =>
          hex_prefix (Some (16 * match acc with Some a => a | None => 0 end + v)) s'
      | None => acc
      end
  end.

Definition parseIntAnyRadix (s : string) : option Z :=
  let unsigned (s' : string) :=
    match s' with
    | String "0" (String x r) =>
        if Ascii.eqb x "x" || Ascii.eqb x "X" then hex_prefix None r
        else digit_prefix None s'
    | _ => digit_prefix None s'
    end in
  match trim_start s with
  | String "-" s' => option_map Z.opp (unsigned s')
  | String "+" s' => unsigned s'
  | s' => unsigned s'
  end.

(** [acc.get(key)] and [acc.set(key, value)] on a [Map], its entries in
    insertion order. *)
Fixpoint map_get {V : Type} (key : string) (acc : list (string * V)) : option V :=
  match acc with
  | [] => None
  | (k, v) :: acc' => if String.eqb k key then Some v else map_get key acc'
  end.

Fixpoint map_set {V : Type} (key : string) (value : V) (acc : list (string * V))
    : list (string * V) :=
  match acc with
  | [] => [(key, value)]
  | (k, v) :: acc' =>
      if String.eqb k key then (k, value) :: acc'
      else (k, v) :: map_set key value acc'
  end.

(** [o.orderedAt.toISOString().split('T')[0]] *)
Definition dateKey (o : Order) : outcome string :=
  (iso <- toISOString (Order.orderedAt o) ;;
   Ok (hd EmptyString (split "T" iso)))%outcome.

(** The two [reduce] calls over the [Map]s. *)
Fixpoint orderCountByDate (orders : list Order) (acc : list (string * Z))
    : outcome (list (string * Z)) :=
  match orders with
  | [] => Ok acc
  | o :: rest =>
      (key <- dateKey o ;;
       let count := match map_get key acc with Some c => c | None => 0 end in
       orderCountByDate rest (map_set key (count + 1) acc))%outcome
  end.

Fixpoint orderETVByDate (orders : list Order) (acc : list (string * float))
    : outcome (list (string * float)) :=
  match orders with
  | [] => Ok acc
  | o :: rest =>
      (key <- dateKey o ;;
       let prev := match map_get key acc with Some p => p | None => 0%float end in
       orderETVByDate rest
         (map_set key (prev + toNumber (Order.etv o))%float acc))%outcome
  end.

Definition get_report_data (e : env) (strYear : string) (db : conn) : handled :=
  let year := parseIntAnyRadix strYear in
  (* the test of the year only builds a text that nothing reads *)
  match getOrders e db
          (Opt.mk false false None None None year false None None true) with
  | Throw err => mkHandled db [] (Rejected err)
  | Ok (Count _) =>
      (* not reached: the call is in row mode *)
      mkHandled db [] (Rejected (Error "ordersForYear.reduce is not a function"))
  | Ok (Rows ordersForYear) =>
      let totalEtv :=
        fold_left (fun sum o => (sum + toNumber (Order.etv o))%float)
                  ordersForYear 0%float in
      let totalAdjustedEtv :=
        fold_left (fun sum o => (sum + adjusted o)%float) ordersForYear 0%float in
      match (counts <- orderCountByDate ordersForYear [] ;;
             values <- orderETVByDate ordersForYear [] ;;
             Ok (counts, values))%outcome with
      | Ok (counts, values) =>
          mkHandled db []
            (Responded 200
               (ReportBody
                  (mkReport year totalEtv totalAdjustedEtv
                     (Z.of_nat (List.length ordersForYear))
                     (getMonthlyBreakdown e ordersForYear)
                     counts values)))
      | Throw err => mkHandled db [] (Rejected err)
      end
  end.

(** [POST /upload] *)

(** A line of the spreadsheet, as [xlsxParse] returns it. *)
Record Line : Type := mkLine {
  line_number : string;
  line_asin : string;
  line_product : string;
  line_type : string;
  line_orderedAtStr : string;
  line_deliveredAtStr : string;
  line_cancelledDateStr : string;
  line_etvStr : string;
  line_etvFactor : option float
}.

(** [req.files.file] *)
Inductive upload : Type :=
| NoFile
| SeveralFiles
| OneFile (mimetype data : string).

(** How the loop over the lines ends. *)
Inductive loop_end : Type :=
| LoopDone (inserted : Z) (cancellations : list string)
| LoopReturn
| LoopThrow (e : exn).

(** The statement of the second loop of the handler:
    [UPDATE orders SET cancelled = 1 WHERE number = ?]. *)
Definition markCancelled (db : conn) (number : string) : outcome conn :=
  write (update_where_number "cancelled" (set_cancelled (Some 1)) number) db.

Section Upload.

(** The spreadsheet reader of [./xlsx], and the two conversions of the
    host that take the text of a cell: [new Date(text)] and
    [parseFloat(text)]. *)
Variable xlsxParse : string -> outcome (list (option Line)).
Variable newDate : string -> Date.
Variable parseFloat : string -> float.

(** The argument of [maybeInsertOrder]. *)
Definition orderOfLine (line : Line) : NewOrder :=
  NewOrder.mk (line_number line) (line_asin line) (line_product line)
    (newDate (line_orderedAtStr line))
    (if String.eqb (line_deliveredAtStr line) "" then None
     else Some (newDate (line_deliveredAtStr line)))
    (* parseFloat(etvStr) || 0 *)
    (let etv := parseFloat (line_etvStr line) in
     if PrimFloat.is_nan etv || PrimFloat.eqb etv 0 then 0%float else etv)
    (line_etvFactor line).

(** [for (const line of lines) { ... }] *)
Fixpoint insertLines (lines : list (option Line)) (db : conn) (inserted : Z)
    (cancellations : list string) : conn * loop_end :=
  match lines with
  | [] => (db, LoopDone inserted cancellations)
  | None :: _ => (db, LoopReturn)
  | Some line :: rest =>
      if String.eqb (line_type line) "CANCELLATION" then
        insertLines rest db inserted (cancellations ++ [line_number line])
      else
        match maybeInsertOrder db (orderOfLine line) with
        | Ok db' => insertLines rest db' (inserted + 1) cancellations
        | Throw err => (db, LoopThrow err)
        end
  end.

(** [for (const number of cancellations) { ... }] *)
Fixpoint applyCancellations (cancellations : list string) (db : conn)
    : conn * option exn :=
  match cancellations with
  | [] => (db, None)
  | number :: rest =>
      match markCancelled db number with
      | Ok db' => applyCancellations rest db'
      | Throw err => (db, Some err)
      end
  end.

Definition post_upload (file : upload) (db : conn) : handled :=
  match file with
  | NoFile => bad_request db "Missing file upload"
  | SeveralFiles =>
      bad_request db "Multiple files uploaded. Please upload only one file at a time."
  | OneFile mimetype data =>
      if negb (String.eqb mimetype
                 "application/vnd.openxmlformats-officedocument.spreadsheetml.sheet")
      then
        bad_request db ("Invalid file type '" ++ mimetype ++
                    "'. Please upload an Excel .xlsx file.")
      else
        match xlsxParse data with
        | Throw err => mkHandled db [] (Rejected err)
        | Ok lines =>
            match insertLines lines db 0 [] with
            | (db1, LoopReturn) => mkHandled db1 [] Returned
            | (db1, LoopThrow err) => mkHandled db1 [] (Rejected err)
            | (db1, LoopDone inserted cancellations) =>
                match applyCancellations cancellations db1 with
                | (db2, Some err) => mkHandled db2 [] (Rejected err)
                | (db2, None) =>
                    let failed := 0 in
                    let count := Z.of_nat (List.length cancellations) in
                    mkHandled db2
                      [LogLine ("Upload complete. Inserted: " ++
                                string_of_Z inserted ++ ", Failed: " ++
                                string_of_Z failed ++ ", Cancellations: " ++
                                string_of_Z count)]
                      (Responded 200 (UploadBody inserted failed count))
                end
            end
        end
  end.

End Upload.

End VineTracker.

Import Sqlite Sqlite.Row.

(** * Sample data *)

Module Samples.
Import Migrate VineTracker.

(** The column set that [index.js] creates. *)
Definition v1_columns : list string :=
  ["number"; "asin"; "product"; "orderedAt"; "deliveredAt"; "etv";
   "etvFactor"; "cancelled"; "etvReason"; "notes"].

Definition v2_columns : list string :=
  ["number"; "asin"; "product"; "orderedAt"; "deliveredAt"; "etv";
   "etvFactor"; "etvReason"; "notes"; "cancelledAt"].

(** The row [{number: "A1", cancelled: 1}] of a v1 table. *)
Definition rowA1 : row :=
  Row.mk (Some "A1") None None None None None None (Some 1) None None None.

Definition rowA1_migrated : row :=
  Row.mk (Some "A1") None None None None None None None None None None.

Definition storeA1 : store := mkStore 0 (Some (mkTable v1_columns [rowA1])).
Definition dbA1 : conn := mkConn storeA1 None.

(** A v1 table that has a [cancelledAt] column already. *)
Definition dbBoth : conn :=
  mkConn (mkStore 0 (Some (mkTable (v1_columns ++ ["cancelledAt"]) [rowA1]))) None.

(** An engine that fails the third step only. *)
Definition fails_on_pragma (s : stmt) : bool :=
  match s with
  | PragmaUserVersion _ => true
  | _ => false
  end.


(** An engine that fails the third step and then the [ROLLBACK]. *)
Definition fails_on_pragma_and_rollback (s : stmt) : bool :=
  match s with
  | PragmaUserVersion _ | Rollback => true
  | _ => false
  end.

(** The v1 table after an upload that reported a cancellation: one order
    standing, one cancelled. *)
Definition rowKept : row :=
  Row.mk (Some "111-1") (Some "B0AAA") (Some "Desk lamp")
         (Some "2024-03-05T08:00:00.000Z") (Some "2024-03-07T08:00:00.000Z")
         (Some 10%float) None (Some 0) None None None.

Definition rowCancelled : row :=
  Row.mk (Some "111-2") (Some "B0BBB") (Some "Kettle")
         (Some "2023-11-20T08:00:00.000Z") None
         (Some 20%float) (Some 0.5%float) (Some 1) None None None.

Definition dbTwo : conn :=
  mkConn (mkStore 0 (Some (mkTable v1_columns [rowKept; rowCancelled]))) None.

(** An order placed in the evening of 31 December 2024 (UTC). *)
Definition rowNewYearsEve : row :=
  Row.mk (Some "111-3") (Some "B0CCC") (Some "Sparklers")
         (Some "2024-12-31T20:00:00.000Z") None
         (Some 5%float) None (Some 0) None None None.

Definition dbEve : conn :=
  mkConn (mkStore 0 (Some (mkTable v1_columns [rowNewYearsEve]))) None.

(** An order placed on 2 March 2024. *)
Definition rowMarch2 : row :=
  Row.mk (Some "111-5") (Some "B0EEE") (Some "Umbrella")
         (Some "2024-03-02T09:00:00.000Z") None
         (Some 7%float) None (Some 0) None None None.

Definition dbMarch : conn :=
  mkConn (mkStore 0 (Some (mkTable v1_columns [rowMarch2]))) None.

(** A store at the second schema version, as [migrate] leaves it. *)
Definition dbMigrated : conn :=
  mkConn (mkStore 2 (Some (mkTable v2_columns
            [Row.mk (Some "111-1") (Some "B0AAA") (Some "Desk lamp")
                    (Some "2024-03-05T08:00:00.000Z")
                    (Some "2024-03-07T08:00:00.000Z")
                    (Some 10%float) None None None None None]))) None.

(** A host on UTC; the clock reading is of no consequence. *)
Definition utc : env := mkEnv (JSDate.fixed 0) 1700000000000.

(** A host on US Eastern time, as the clock went in 2024: five hours
    behind UTC, and four from 10 March 07:00 UTC to 3 November 06:00 UTC.
    The hour that the clock skipped on 10 March is read with the offset
    before the change, and so is the hour it showed twice on
    3 November. *)
Definition eastern : JSDate.zone :=
  JSDate.mkZone
    (fun t => if (t <? 1710054000000) || (1730613600000 <=? t)
              then -18000000 else -14400000)
    (fun l => if (l <? 1710039600000) || (1730599200000 <=? l)
              then -18000000 else -14400000).

Definition easternHost : env := mkEnv eastern 1700000000000.

(** Two orders around the end of 10 March 2024 on that host, the day
    that had 23 hours: one placed at 23:30 local time, one at 00:30 the
    next morning. *)
Definition rowLateEvening : row :=
  Row.mk (Some "111-6") (Some "B0FFF") (Some "Alarm clock")
         (Some "2024-03-11T03:30:00.000Z") None
         (Some 9%float) None (Some 0) None None None.

Definition rowAfterMidnight : row :=
  Row.mk (Some "111-10") (Some "B0JJJ") (Some "Compass")
         (Some "2024-03-11T04:30:00.000Z") None
         (Some 15%float) None (Some 0) None None None.

Definition dbSpring : conn :=
  mkConn (mkStore 0 (Some (mkTable v1_columns [rowLateEvening; rowAfterMidnight])))
         None.

(** A search for 10 March 2024, with the year 2023 given as well. *)
Definition optsSpring : GetOrdersOptions :=
  Opt.with_year (Some 2023) (Opt.with_search (Some "2024-03-10") Opt.none).

(** A search for 31 December 2024, with the year 2023 given as well. *)
Definition optsDayAndYear : GetOrdersOptions :=
  Opt.with_year (Some 2023) (Opt.with_search (Some "2024-12-31") Opt.none).

(** An order of January 2024 that has not been adjusted. *)
Definition orderUnadjusted : Order :=
  Order.mk (Some "111-4") (Some "B0DDD") (Some "Mug")
           (JSDate.TimeValue 1705312800000) (JSDate.TimeValue 0)
           (Some 10%float) None false None.

(** The order of [rowKept] as a later upload brings it again, with
    another product name and value. *)
Definition orderAgain : NewOrder :=
  NewOrder.mk "111-1" "B0AAA" "Desk lamp, black" (JSDate.TimeValue 1709625600000)
              None 99%float None.

(** An order that [dbTwo] does not have: placed 2024-03-05T08:00:00Z,
    not delivered yet. *)
Definition orderNew : NewOrder :=
  NewOrder.mk "111-9" "B0NEW" "Teapot" (JSDate.TimeValue 1709625600000)
              None 12.5%float (Some 0.5%float).

(** Two standing orders that nobody has looked at yet. *)
Definition dbReview : conn :=
  mkConn (mkStore 0 (Some (mkTable v1_columns [rowKept; rowMarch2]))) None.

(** The options of the review list. *)
Definition optsReview : GetOrdersOptions :=
  Opt.mk false true None None None None false None None false.


(** A database file that has no table yet, and the same after startup. *)
Definition dbBlank : conn := mkConn (mkStore 0 None) None.


(** A table as the first version of [index.js] made it: it has neither
    [etvReason] nor [notes]. *)
Definition tableFirstVersion : table :=
  mkTable ["number"; "asin"; "product"; "orderedAt"; "deliveredAt"; "etv";
           "etvFactor"; "cancelled"]
          [Row.mk (Some "111-1") (Some "B0AAA") (Some "Desk lamp")
                  (Some "2024-03-05T08:00:00.000Z") None
                  (Some 10%float) None (Some 0) None None None].

Definition dbFirstVersion : conn :=
  mkConn (mkStore 0 (Some tableFirstVersion)) None.

(** The report of 2024 on [dbTwo]: one standing order, delivered in
    March. *)
Definition reportTwo : Report :=
  mkReport (Some 2024) 10%float 10%float 1
           (getMonthlyBreakdown utc [toOrder rowKept])
           [("2024-03-05", 1)] [("2024-03-05", 10%float)].

(** An upload of one spreadsheet in which the cancellation of an order
    comes before the order.  The three conversions stand for those of
    the host: this reader gives the same two lines for any file, the
    dates are in the one format that [parse] reads, and every value
    reads as 15. *)
Definition xlsxType : string :=
  "application/vnd.openxmlformats-officedocument.spreadsheetml.sheet".

Definition lineCancelled : Line :=
  mkLine "111-7" "B0GGG" "Kite" "CANCELLATION" "2024-05-01T00:00:00.000Z"
         EmptyString "2024-05-03T00:00:00.000Z" "15.00" None.

Definition lineOrdered : Line :=
  mkLine "111-7" "B0GGG" "Kite" "ORDER" "2024-05-01T00:00:00.000Z"
         EmptyString EmptyString "15.00" None.

Definition readSample (data : string) : outcome (list (option Line)) :=
  Ok [Some lineCancelled; Some lineOrdered].

Definition floatSample (text : string) : float := 15%float.

(** A line whose order date no parser reads. *)
Definition lineUndated : Line :=
  mkLine "111-8" "B0HHH" "Lantern" "ORDER" "soon" EmptyString EmptyString
         "15.00" None.

Definition readUndated (data : string) : outcome (list (option Line)) :=
  Ok [Some lineOrdered; Some lineUndated; Some lineCancelled].

End Samples.

(** * Notions used in the statements *)

Section Notions.
Import Migrate VineTracker.

(** The state between [BEGIN] and [COMMIT]: the file as it was, a working
    copy, the console as it was. *)
Definition in_transaction (c0 : conn) (log : list console_entry) (w : world) : Prop :=
  committed (db w) = committed c0 /\ txn (db w) <> None /\ console w = log.

(** The [WHERE] clause of [getOrders] without its first condition, the
    one on [cancelled]. *)
Definition remaining (q : select) (r : row) : bool :=
  match sel_keyword q with
  | Some keyword =>
      is_true (sql_or (sql_or (sql_like (Row.number r) keyword)
                              (sql_like (Row.asin r) keyword))
                      (sql_like (Row.product r) keyword))
  | None => true
  end &&
  match sel_startDate q with
  | Some startDate => is_true (text_ge (get_text (sel_dateColumn q) r) startDate)
  | None => true
  end &&
  match sel_endDate q with
  | Some endDate => is_true (text_le (get_text (sel_dateColumn q) r) endDate)
  | None => true
  end &&
  (if sel_nonAdjustedOnly q then
     is_true (real_ne (Row.etv r) 0) &&
     is_true (sql_or (is_null (Row.etvFactor r))
                (sql_and
                   (sql_and
                      (sql_and (is_not_null (Row.etvFactor r))
                               (real_ne (Row.etvFactor r) 0x1.999999999999ap-3))
                      (real_ne (Row.etvFactor r) 1))
                   (is_null (Row.etvReason r))))
   else true).

(** The [limit] and the [offset] of [o], where given, are 64-bit
    integers. *)
Definition int64_page (o : GetOrdersOptions) : bool :=
  match Opt.limit o with Some n => is_int64 n | None => true end
  && match Opt.offset o with Some k => is_int64 k | None => true end.

(** The offsets of a zone stay within a day of UTC. *)
Definition bounded_zone (z : JSDate.zone) : Prop :=
  forall t,
    - JSDate.msPerDay <= JSDate.offsetAt z t <= JSDate.msPerDay
    /\ - JSDate.msPerDay <= JSDate.offsetFor z t <= JSDate.msPerDay.

(** The clock of the zone runs through the local day [day] in order: a
    local time of that day, taken to UTC and back, is a time of that
    day, and the instants of the day are those from the instant of its
    00:00:00.000 to the instant of its 23:59:59.999.  A change of the
    clock within the day leaves this as it is; a change over midnight
    does not. *)
Definition regular_day (z : JSDate.zone) (day : Z) : Prop :=
  (forall l, JSDate.Day l = day ->
             JSDate.Day (JSDate.LocalTime z (JSDate.UTC z l)) = day)
  /\ (forall t,
        JSDate.UTC z (JSDate.MakeDate day 0) <= t
        <= JSDate.UTC z (JSDate.MakeDate day 86399999)
        <-> JSDate.Day (JSDate.LocalTime z t) = day).

(** The zone has the offset [c] from the day before [day] to the second
    day after it. *)
Definition steady (z : JSDate.zone) (c day : Z) : Prop :=
  forall t,
    (day - 1) * JSDate.msPerDay <= t <= (day + 3) * JSDate.msPerDay ->
    JSDate.offsetAt z t = c /\ JSDate.offsetFor z t = c.

(** The numbers [y], [m], [d] name a date of the calendar: a year from 1
    on, a month from 1 to 12 and a day that the month has in that year. *)
Definition calendar_date (y m d : Z) : bool :=
  let leap := if JSDate.DaysInYear y =? 366 then 1 else 0 in
  (1 <=? y) && (1 <=? m) && (m <=? 12) && (1 <=? d)
  && (d <=? JSDate.DaysBeforeMonth leap m - JSDate.DaysBeforeMonth leap (m - 1)).

(** Time values whose year has four digits, 0000 to 9999: the ones that
    [toISOString] renders in the 24-character form. *)
Definition iso_range (t : Z) : Prop :=
  -62167219200000 <= t < 253402300800000.

(** The adjusted value of an order in the words of the specification:
    [etv * (etvFactor ?? 0)]. *)
Definition spec_adjustedEtv (o : Order) : float :=
  (toNumber (Order.etv o)
   * match Order.etvFactor o with Some f => f | None => 0 end)%float.

Definition spec_totalAdjustedEtv (bucket : list Order) : float :=
  fold_left (fun sum o => (sum + spec_adjustedEtv o)%float) bucket 0%float.

(** The connection after a write that has left the store [s']: in a
    transaction the working copy is [s'], otherwise the file is. *)
Definition written (db : conn) (s' : store) : conn :=
  match txn db with
  | Some _ => mkConn (committed db) (Some s')
  | None => mkConn s' None
  end.

(** Whether some row of the table has the order number [n]. *)
Definition has_number (t : table) (n : string) : bool :=
  existsb (fun r => is_true (text_eq (Row.number r) n)) (rows t).

(** The table with other rows. *)
Definition with_rows (t : table) (rs : list row) : table :=
  mkTable (columns t) rs.

(** The store with another table. *)
Definition with_table (s : store) (t : table) : store :=
  mkStore (user_version s) (Some t).

(** No two rows have the same order number, the primary key; [NULL] is
    equal to nothing. *)
Fixpoint distinct_numbers (rs : list row) : bool :=
  match rs with
  | [] => true
  | r :: rs' =>
      negb match Row.number r with
           | Some n => existsb (fun r' => is_true (text_eq (Row.number r') n)) rs'
           | None => false
           end
      && distinct_numbers rs'
  end.

(** An order of a listing with another factor. *)
Definition with_etvFactor (v : option float) (o : Order) : Order :=
  Order.mk (Order.number o) (Order.asin o) (Order.product o) (Order.orderedAt o)
           (Order.deliveredAt o) (Order.etv o) v (Order.cancelled o)
           (Order.etvReason o).

(** Whether an order of a listing has the number [n]. *)
Definition numbered (n : string) (o : Order) : bool :=
  match Order.number o with
  | Some m => String.eqb m n
  | None => false
  end.

(** A result of [getOrders] with [f] applied to each order of a
    listing; a count stays. *)
Definition map_result (f : Order -> Order) (res : outcome result) : outcome result :=
  match res with
  | Ok (Rows l) => Ok (Rows (map f l))
  | other => other
  end.

(** The time value of the order date of a listed order. *)
Definition orderedAt_time (o : Order) : Z :=
  match Order.orderedAt o with
  | JSDate.TimeValue t => t
  | JSDate.InvalidDate => 0
  end.

(** The row holds an order date as [maybeInsertOrder] writes one: the
    rendering of a time value of the years 0000 to 9999. *)
Definition iso_stored (r : row) : bool :=
  match Row.orderedAt r with
  | Some s =>
      match JSDate.parse s with
      | JSDate.TimeValue t =>
          String.eqb (JSDate.isoString t) s
          && (-62167219200000 <=? t) && (t <? 253402300800000)
      | JSDate.InvalidDate => false
      end
  | None => false
  end.






(** The sum of a list of counts. *)
Definition total (counts : list Z) : Z := fold_right Z.add 0 counts.

(** The rows that the connection sees; none without the table. *)
Definition rows_of (db : conn) : list row :=
  match orders (view db) with
  | Some t => rows t
  | None => []
  end.

(** The factor of the row is [NULL] or passes the test of the route:
    it is not below zero. *)
Definition factor_not_negative (r : row) : bool :=
  match Row.etvFactor r with
  | Some f => negb (f <? 0)%float
  | None => true
  end.

(** The reason of the row is [NULL], or a text that is not empty and
    has no more than 255 UTF-16 code units. *)
Definition reason_in_bounds (r : row) : bool :=
  match Row.etvReason r with
  | Some s => negb (String.eqb s EmptyString) && (VineTracker.js_length s <=? 255)
  | None => true
  end.

(** The notes of the row are [NULL], or a text of no more than 2000
    UTF-16 code units. *)
Definition notes_in_bounds (r : row) : bool :=
  match Row.notes r with
  | Some s => VineTracker.js_length s <=? 2000
  | None => true
  end.

(** Whether some row that the connection sees has the order number
    [n], and whether every such row is marked cancelled. *)
Definition stores (db : conn) (n : string) : bool :=
  existsb (fun r => is_true (text_eq (Row.number r) n)) (rows_of db).

Definition cancelled_in (db : conn) (n : string) : bool :=
  forallb (fun r => negb (is_true (text_eq (Row.number r) n))
                    || is_true (int_eq (Row.cancelled r) 1))
          (rows_of db).

(** Between [db] and [db'] no stored order has been lost or altered,
    except for being marked cancelled: the table has its columns, each
    row is there as it was or with [cancelled] set to 1, and rows may
    have been added. *)
Definition carried_over (db db' : conn) : Prop :=
  exists t t',
    orders (view db) = Some t /\ orders (view db') = Some t'
    /\ columns t' = columns t
    /\ (List.length (rows t) <= List.length (rows t'))%nat
    /\ (forall r, In r (rows t) ->
          In r (rows t') \/ In (VineTracker.set_cancelled (Some 1) r) (rows t'))
    /\ (forall n, stores db n = true -> stores db' n = true).

(** A date that [toISOString] renders: a valid one. *)
Definition valid (dt : JSDate.Date) : bool :=
  match dt with
  | JSDate.TimeValue _ => true
  | JSDate.InvalidDate => false
  end.

(** The text that [toISOString] gives for a valid date. *)
Definition rendered (dt : JSDate.Date) : string :=
  match dt with
  | JSDate.TimeValue t => JSDate.isoString t
  | JSDate.InvalidDate => EmptyString
  end.

(** The dates of an order handed to [maybeInsertOrder] can be rendered. *)
Definition valid_dates (order : NewOrder) : bool :=
  valid (NewOrder.orderedAt order)
  && match NewOrder.deliveredAt order with
     | Some dt => valid dt
     | None => true
     end.

(** The row that [maybeInsertOrder] writes for an order with valid
    dates. *)
Definition rowOf (order : NewOrder) : row :=
  insertedRow order (rendered (NewOrder.orderedAt order))
              (option_map rendered (NewOrder.deliveredAt order)).

End Notions.

(** * Properties *)

(** Case analysis on every comparison of the goal, for the month tables. *)
Ltac month_cases :=
  repeat match goal with
         | |- context [?a <? ?b] => destruct (Z.ltb_spec a b)
         end.

Ltac month_literal :=
  repeat match goal with
         | H : context [Z.pos ?p - 1] |- _ =>
             let v := eval compute in (Z.pos p - 1) in
             change (Z.pos p - 1) with v in H
         | |- context [Z.pos ?p - 1] =>
             let v := eval compute in (Z.pos p - 1) in
             change (Z.pos p - 1) with v
         end;
  unfold JSDate.DaysBeforeMonth in *.

(** ** Dates *)

Section DateProperties.
Import JSDate.

Lemma DayFromYear_step (y : Z) : DayFromYear (y + 1) = DayFromYear y + DaysInYear y.
Proof.
  unfold DayFromYear, DaysInYear.
  destruct (Z.eqb_spec (y mod 4) 0); destruct (Z.eqb_spec (y mod 100) 0);
    destruct (Z.eqb_spec (y mod 400) 0); cbn [negb];
    Z.div_mod_to_equations; lia.
Qed.

(** [YearFromDay] meets its definition in the language standard: the
    largest year that starts on or before the day. *)
Lemma YearFromDay_spec (d : Z) :
  DayFromYear (YearFromDay d) <= d < DayFromYear (YearFromDay d + 1).
Proof.
  unfold YearFromDay.
  set (y := 1970 + 400 * d / 146097).
  destruct (Z.ltb_spec d (DayFromYear y)) as [H1|H1].
  - replace (y - 1 + 1) with y by lia. split; [|exact H1].
    unfold DayFromYear in *. subst y. Z.div_mod_to_equations. lia.
  - destruct (Z.leb_spec (DayFromYear (y + 1)) d) as [H2|H2].
    + split; [exact H2|]. unfold DayFromYear in *. subst y. Z.div_mod_to_equations. lia.
    + split; assumption.
Qed.

End DateProperties.

Section IsoOrder.
Import JSDate.

Lemma append_assoc (s1 s2 s3 : string) :
  ((s1 ++ s2) ++ s3 = s1 ++ (s2 ++ s3))%string.
Proof. induction s1 as [|c s1 IH]; simpl; [reflexivity | now rewrite IH]. Qed.

Lemma ascii_compare_refl (c : ascii) : Ascii.compare c c = Eq.
Proof. unfold Ascii.compare. apply N.compare_refl. Qed.

Lemma string_compare_refl (s : string) : String.compare s s = Eq.
Proof.
  induction s as [|c s IH]; simpl; [reflexivity|].
  now rewrite ascii_compare_refl.
Qed.

(** A common prefix does not decide a comparison. *)
Lemma compare_app (p r1 r2 : string) :
  String.compare (p ++ r1) (p ++ r2) = String.compare r1 r2.
Proof.
  induction p as [|c p IH]; simpl; [reflexivity|].
  now rewrite ascii_compare_refl.
Qed.

Lemma digit_compare (a b : Z) :
  a mod 10 < b mod 10 -> Ascii.compare (digit a) (digit b) = Lt.
Proof.
  intros H. unfold Ascii.compare, digit.
  rewrite !N_ascii_embedding by (Z.div_mod_to_equations; lia).
  apply N.compare_lt_iff. Z.div_mod_to_equations. lia.
Qed.

(** Numbers padded to the same width compare as numbers. *)
Lemma pad_lt (w : nat) : forall (a b : Z) (r1 r2 : string),
  0 <= a -> a < b -> b < 10 ^ Z.of_nat w ->
  String.compare (pad w a ++ r1) (pad w b ++ r2) = Lt.
Proof.
  induction w as [|w IH]; intros a b r1 r2 Ha Hab Hb.
  - simpl in Hb. lia.
  - simpl pad. rewrite !append_assoc. simpl.
    assert (Hpow : 10 ^ Z.of_nat (S w) = 10 * 10 ^ Z.of_nat w).
    { rewrite Nat2Z.inj_succ, Z.pow_succ_r by lia. reflexivity. }
    rewrite Hpow in Hb.
    destruct (Z.lt_trichotomy (a / 10) (b / 10)) as [Hlt|[Heq|Hgt]].
    + apply IH; [ | exact Hlt | ]; Z.div_mod_to_equations; lia.
    + rewrite Heq, compare_app. simpl.
      rewrite digit_compare; [reflexivity|]. Z.div_mod_to_equations. lia.
    + Z.div_mod_to_equations. lia.
Qed.

(** One field of a rendering: it decides the comparison when it
    differs, and passes it on when it does not. *)
Lemma field_lt (w : nat) (a b : Z) (r1 r2 : string) :
  0 <= a -> 0 <= b -> a < 10 ^ Z.of_nat w -> b < 10 ^ Z.of_nat w ->
  a < b \/ (a = b /\ String.compare r1 r2 = Lt) ->
  String.compare (pad w a ++ r1) (pad w b ++ r2) = Lt.
Proof.
  intros Ha Hb Ha' Hb' [Hlt|[-> Hr]].
  - now apply pad_lt.
  - now rewrite compare_app.
Qed.

End IsoOrder.

Section DateFields.
Import JSDate.

Lemma DayFromYear_mono (a b : Z) : a <= b -> DayFromYear a <= DayFromYear b.
Proof. unfold DayFromYear. intros H. Z.div_mod_to_equations. lia. Qed.

Lemma YearFromDay_mono (d1 d2 : Z) : d1 <= d2 -> YearFromDay d1 <= YearFromDay d2.
Proof.
  intros H.
  pose proof (YearFromDay_spec d1) as [L1 _].
  pose proof (YearFromDay_spec d2) as [_ U2].
  destruct (Z.le_gt_cases (YearFromDay d1) (YearFromDay d2)) as [Hle|Hgt];
    [exact Hle|].
  pose proof (DayFromYear_mono (YearFromDay d2 + 1) (YearFromDay d1) ltac:(lia)).
  lia.
Qed.

Lemma DaysInYear_cases (y : Z) : DaysInYear y = 365 \/ DaysInYear y = 366.
Proof.
  unfold DaysInYear.
  destruct (negb _); [now left|]. destruct (negb _); [now right|].
  destruct (negb _); [now left | now right].
Qed.

Lemma DayWithinYear_range (t : Z) :
  0 <= DayWithinYear t < DaysInYear (YearFromTime t).
Proof.
  unfold DayWithinYear, YearFromTime.
  pose proof (YearFromDay_spec (Day t)) as [L U].
  rewrite DayFromYear_step in U. lia.
Qed.

Lemma InLeapYear_cases (t : Z) :
  (InLeapYear t = 0 /\ DaysInYear (YearFromTime t) = 365)
  \/ (InLeapYear t = 1 /\ DaysInYear (YearFromTime t) = 366).
Proof.
  unfold InLeapYear. destruct (DaysInYear_cases (YearFromTime t)) as [H|H];
    rewrite H; simpl; [left | right]; split; reflexivity.
Qed.

Lemma MonthFromTime_range (t : Z) : 0 <= MonthFromTime t <= 11.
Proof. unfold MonthFromTime. month_cases; lia. Qed.

Lemma DateFromTime_range (t : Z) : 1 <= DateFromTime t <= 31.
Proof.
  pose proof (DayWithinYear_range t) as Hd.
  destruct (InLeapYear_cases t) as [[Hl Hy]|[Hl Hy]];
    unfold DateFromTime, MonthFromTime; rewrite Hl, Hy in *;
    month_cases; simpl; lia.
Qed.

Lemma DateFromTime_in_month (t : Z) :
  DateFromTime t
  <= DaysBeforeMonth (InLeapYear t) (MonthFromTime t + 1)
     - DaysBeforeMonth (InLeapYear t) (MonthFromTime t + 1 - 1).
Proof.
  pose proof (DayWithinYear_range t) as Hd.
  replace (MonthFromTime t + 1 - 1) with (MonthFromTime t) by lia.
  destruct (InLeapYear_cases t) as [[Hl Hy]|[Hl Hy]];
    unfold DateFromTime, MonthFromTime; rewrite Hl, Hy in *;
    month_cases; simpl; lia.
Qed.

(** The calendar fields of a time value depend on its day alone, and
    grow with it in lexicographic order. *)
Lemma date_fields_eq (t1 t2 : Z) :
  Day t1 = Day t2 ->
  YearFromTime t1 = YearFromTime t2
  /\ MonthFromTime t1 = MonthFromTime t2
  /\ DateFromTime t1 = DateFromTime t2.
Proof.
  intros H.
  unfold DateFromTime, MonthFromTime, InLeapYear, DayWithinYear, YearFromTime.
  rewrite H. repeat split.
Qed.

Lemma date_fields_lt (t1 t2 : Z) :
  Day t1 < Day t2 ->
  YearFromTime t1 < YearFromTime t2
  \/ (YearFromTime t1 = YearFromTime t2
      /\ (MonthFromTime t1 < MonthFromTime t2
          \/ (MonthFromTime t1 = MonthFromTime t2
              /\ DateFromTime t1 < DateFromTime t2))).
Proof.
  intros H.
  pose proof (YearFromDay_mono (Day t1) (Day t2) ltac:(lia)) as Hy.
  fold (YearFromTime t1) in Hy. fold (YearFromTime t2) in Hy.
  destruct (Z.eq_dec (YearFromTime t1) (YearFromTime t2)) as [Heq|Hne];
    [right; split; [exact Heq|] | left; lia].
  pose proof (DayWithinYear_range t1) as R1.
  pose proof (DayWithinYear_range t2) as R2.
  assert (Hd : DayWithinYear t1 < DayWithinYear t2).
  { unfold DayWithinYear. rewrite Heq. lia. }
  assert (Hl : InLeapYear t1 = InLeapYear t2).
  { unfold InLeapYear. now rewrite Heq. }
  destruct (InLeapYear_cases t2) as [[Hl2 Hy2]|[Hl2 Hy2]];
    unfold DateFromTime, MonthFromTime; rewrite Hl, Hl2;
    month_cases; simpl; lia.
Qed.

Lemma time_fields_range (t : Z) :
  0 <= HourFromTime t < 24 /\ 0 <= MinFromTime t < 60
  /\ 0 <= SecFromTime t < 60 /\ 0 <= msFromTime t < 1000.
Proof.
  unfold HourFromTime, MinFromTime, SecFromTime, msFromTime,
    msPerHour, msPerMinute, msPerSecond.
  Z.div_mod_to_equations. lia.
Qed.

(** Within one day the clock fields grow with the time value. *)
Lemma time_fields_lt (t1 t2 : Z) :
  Day t1 = Day t2 -> t1 < t2 ->
  HourFromTime t1 < HourFromTime t2
  \/ (HourFromTime t1 = HourFromTime t2
      /\ (MinFromTime t1 < MinFromTime t2
          \/ (MinFromTime t1 = MinFromTime t2
              /\ (SecFromTime t1 < SecFromTime t2
                  \/ (SecFromTime t1 = SecFromTime t2
                      /\ msFromTime t1 < msFromTime t2))))).
Proof.
  unfold Day, HourFromTime, MinFromTime, SecFromTime, msFromTime,
    msPerDay, msPerHour, msPerMinute, msPerSecond.
  intros Hd Hlt. Z.div_mod_to_equations. lia.
Qed.

End DateFields.

Section IsoMonotone.
Import JSDate.

Lemma iso_range_year (t : Z) : iso_range t -> 0 <= YearFromTime t <= 9999.
Proof.
  unfold iso_range, YearFromTime. intros [L U].
  pose proof (YearFromDay_spec (Day t)) as [Ly Uy].
  assert (Hd : -719528 <= Day t < 2932897).
  { unfold Day, msPerDay. Z.div_mod_to_equations. lia. }
  split.
  - destruct (Z.le_gt_cases 0 (YearFromDay (Day t))) as [H|H]; [exact H|].
    pose proof (DayFromYear_mono (YearFromDay (Day t) + 1) 0 ltac:(lia)) as Hm.
    change (DayFromYear 0) with (-719528) in Hm. lia.
  - destruct (Z.le_gt_cases (YearFromDay (Day t)) 9999) as [H|H]; [exact H|].
    pose proof (DayFromYear_mono 10000 (YearFromDay (Day t)) ltac:(lia)) as Hm.
    change (DayFromYear 10000) with 2932897 in Hm. lia.
Qed.

Lemma Day_mono (t1 t2 : Z) : t1 <= t2 -> Day t1 <= Day t2.
Proof. unfold Day, msPerDay. intros H. Z.div_mod_to_equations. lia. Qed.

(** All seven fields, in the order in which the rendering writes them. *)
Lemma fields_lt (t1 t2 : Z) :
  t1 < t2 ->
  YearFromTime t1 < YearFromTime t2
  \/ (YearFromTime t1 = YearFromTime t2
  /\ (MonthFromTime t1 < MonthFromTime t2
  \/ (MonthFromTime t1 = MonthFromTime t2
  /\ (DateFromTime t1 < DateFromTime t2
  \/ (DateFromTime t1 = DateFromTime t2
  /\ (HourFromTime t1 < HourFromTime t2
  \/ (HourFromTime t1 = HourFromTime t2
  /\ (MinFromTime t1 < MinFromTime t2
  \/ (MinFromTime t1 = MinFromTime t2
  /\ (SecFromTime t1 < SecFromTime t2
  \/ (SecFromTime t1 = SecFromTime t2
  /\ msFromTime t1 < msFromTime t2))))))))))).
Proof.
  intros Hlt.
  pose proof (Day_mono t1 t2 ltac:(lia)) as Hd.
  destruct (Z.eq_dec (Day t1) (Day t2)) as [Heq|Hne].
  - destruct (date_fields_eq t1 t2 Heq) as (Hy & Hm & Hdt).
    right. split; [exact Hy|]. right. split; [exact Hm|].
    right. split; [exact Hdt|]. apply time_fields_lt; assumption.
  - destruct (date_fields_lt t1 t2 ltac:(lia)) as [Hy|[Hy [Hm|[Hm Hdt]]]].
    + left. exact Hy.
    + right. split; [exact Hy|]. left. exact Hm.
    + right. split; [exact Hy|]. right. split; [exact Hm|]. left. exact Hdt.
Qed.

Lemma field_sep_lt (w : nat) (a b : Z) (sep r1 r2 : string) :
  0 <= a -> 0 <= b -> a < 10 ^ Z.of_nat w -> b < 10 ^ Z.of_nat w ->
  a < b \/ (a = b /\ String.compare r1 r2 = Lt) ->
  String.compare (pad w a ++ sep ++ r1) (pad w b ++ sep ++ r2) = Lt.
Proof.
  intros Ha Hb Ha' Hb' H. apply field_lt; try assumption.
  destruct H as [H|[H Hr]]; [now left | right]. split; [exact H|].
  now rewrite compare_app.
Qed.

(** On four-digit years the renderings of [toISOString] are ordered, as
    texts, the way the instants are ordered in time. *)
Theorem isoString_lt (t1 t2 : Z) :
  iso_range t1 -> iso_range t2 -> t1 < t2 ->
  String.compare (isoString t1) (isoString t2) = Lt.
Proof.
  intros R1 R2 Hlt.
  pose proof (iso_range_year t1 R1) as Y1.
  pose proof (iso_range_year t2 R2) as Y2.
  pose proof (MonthFromTime_range t1) as M1.
  pose proof (MonthFromTime_range t2) as M2.
  pose proof (DateFromTime_range t1) as D1.
  pose proof (DateFromTime_range t2) as D2.
  pose proof (time_fields_range t1) as (h1 & m1 & s1 & x1).
  pose proof (time_fields_range t2) as (h2 & m2 & s2 & x2).
  pose proof (fields_lt t1 t2 Hlt) as H.
  unfold isoString, isoYear.
  replace ((0 <=? YearFromTime t1) && (YearFromTime t1 <=? 9999)) with true
    by (symmetry; apply andb_true_iff; split; [apply Z.leb_le | apply Z.leb_le]; lia).
  replace ((0 <=? YearFromTime t2) && (YearFromTime t2 <=? 9999)) with true
    by (symmetry; apply andb_true_iff; split; [apply Z.leb_le | apply Z.leb_le]; lia).
  do 6 (apply field_sep_lt; [lia | lia | cbn; lia | cbn; lia |];
        destruct H as [H|[? H]]; [left; lia | right; split; [lia|]]).
  apply pad_lt; [lia | exact H | cbn; lia].
Qed.

(** [col >= :p] and [col <= :p] between two such renderings. *)
Theorem isoString_leb (t1 t2 : Z) :
  iso_range t1 -> iso_range t2 ->
  String.leb (isoString t1) (isoString t2) = true <-> t1 <= t2.
Proof.
  intros R1 R2. unfold String.leb.
  destruct (Z.lt_trichotomy t1 t2) as [Hlt|[Heq|Hgt]].
  - rewrite (isoString_lt t1 t2 R1 R2 Hlt). split; [lia | reflexivity].
  - subst t2. rewrite string_compare_refl. split; [lia | reflexivity].
  - rewrite String.compare_antisym, (isoString_lt t2 t1 R2 R1 Hgt). simpl.
    split; [discriminate | lia].
Qed.

End IsoMonotone.

Section DateSetters.
Import JSDate.

Lemma YearFromDay_unique (y d : Z) :
  DayFromYear y <= d < DayFromYear (y + 1) -> YearFromDay d = y.
Proof.
  intros [L U]. pose proof (YearFromDay_spec d) as [L' U'].
  destruct (Z.lt_trichotomy (YearFromDay d) y) as [H|[H|H]]; [|exact H|].
  - pose proof (DayFromYear_mono (YearFromDay d + 1) y ltac:(lia)). lia.
  - pose proof (DayFromYear_mono (y + 1) (YearFromDay d) ltac:(lia)). lia.
Qed.

Lemma TimeWithinDay_range (t : Z) : 0 <= TimeWithinDay t < msPerDay.
Proof. unfold TimeWithinDay, msPerDay. Z.div_mod_to_equations. lia. Qed.

Lemma Day_MakeDate (day time : Z) :
  0 <= time < msPerDay -> Day (MakeDate day time) = day.
Proof.
  unfold Day, MakeDate, msPerDay. intros H. Z.div_mod_to_equations. lia.
Qed.

Lemma TimeWithinDay_MakeDate (day time : Z) :
  0 <= time < msPerDay -> TimeWithinDay (MakeDate day time) = time.
Proof.
  unfold TimeWithinDay, MakeDate, msPerDay. intros H.
  Z.div_mod_to_equations. lia.
Qed.

Lemma TimeClip_ok (t : Z) :
  - 8640000000000000 <= t <= 8640000000000000 -> TimeClip t = TimeValue t.
Proof.
  intros H. unfold TimeClip.
  destruct (Z.leb_spec (Z.abs t) 8640000000000000); [reflexivity | lia].
Qed.

Lemma DaysBeforeMonth_range (leap m : Z) :
  0 <= leap <= 1 -> 0 <= DaysBeforeMonth leap m <= 366.
Proof.
  intros H. unfold DaysBeforeMonth.
  destruct m as [|p|p]; try lia.
  do 4 (try destruct p as [p|p|]); lia.
Qed.

Lemma DayFromYear_bound (y : Z) :
  -210000 <= y <= 210000 -> -80000000 <= DayFromYear y <= 80000000.
Proof. unfold DayFromYear. intros H. Z.div_mod_to_equations. lia. Qed.

Lemma MakeDay_bound (y mo d : Z) :
  -200001 <= y <= 200001 -> 0 <= mo <= 99 -> 0 <= d <= 99 ->
  -80001000 <= MakeDay y mo d <= 80001000.
Proof.
  intros Hy Hmo Hd. unfold MakeDay.
  assert (Hq : 0 <= mo / 12 <= 8) by (Z.div_mod_to_equations; lia).
  pose proof (DayFromYear_bound (y + mo / 12) ltac:(lia)).
  assert (Hl : 0 <= (if DaysInYear (y + mo / 12) =? 366 then 1 else 0) <= 1)
    by (destruct (_ =? _); lia).
  pose proof (DaysBeforeMonth_range _ (mo mod 12) Hl). lia.
Qed.

(** Local time and UTC are less than a day apart. *)
Lemma LocalTime_near (z : zone) (t : Z) :
  bounded_zone z -> t - msPerDay <= LocalTime z t <= t + msPerDay.
Proof. intros Hz. unfold LocalTime. destruct (Hz t) as [H _]. lia. Qed.

Lemma UTC_near (z : zone) (t : Z) :
  bounded_zone z -> t - msPerDay <= UTC z t <= t + msPerDay.
Proof. intros Hz. unfold UTC. destruct (Hz t) as [_ H]. lia. Qed.

Lemma Day_near (t : Z) : Day t * msPerDay <= t < Day t * msPerDay + msPerDay.
Proof. unfold Day, msPerDay. Z.div_mod_to_equations. lia. Qed.

(** [setHours] on a date well inside the range of time values. *)
Lemma setHours_value (z : zone) (tv time : Z) :
  bounded_zone z ->
  - 8000000000000000 <= tv <= 8000000000000000 ->
  0 <= time < msPerDay ->
  TimeClip (UTC z (MakeDate (Day (LocalTime z tv)) time))
  = TimeValue (UTC z (MakeDate (Day (LocalTime z tv)) time)).
Proof.
  intros Hz Htv Htime. apply TimeClip_ok.
  pose proof (LocalTime_near z tv Hz) as Hl.
  pose proof (Day_near (LocalTime z tv)) as Hd.
  pose proof (UTC_near z (MakeDate (Day (LocalTime z tv)) time) Hz) as Hu.
  unfold MakeDate, msPerDay in *. lia.
Qed.

(** Midnight and the last millisecond of the local day that
    [setFullYear] and [setHours] select. *)
Lemma day_start (z : zone) (now y mo d : Z) :
  bounded_zone z -> regular_day z (MakeDay y mo d) ->
  -200000 <= y <= 200000 -> 0 <= mo <= 99 -> 0 <= d <= 99 ->
  setHours z (setFullYear z (TimeValue now) y mo d) 0 0 0 0
  = TimeValue (UTC z (MakeDate (MakeDay y mo d) 0)).
Proof.
  intros Hz [Hback _] Hy Hmo Hd.
  pose proof (MakeDay_bound y mo d ltac:(lia) Hmo Hd) as Hb.
  pose proof (TimeWithinDay_range (LocalTime z now)) as Hw.
  set (l := MakeDate (MakeDay y mo d) (TimeWithinDay (LocalTime z now))).
  assert (Hl : Day l = MakeDay y mo d) by (apply Day_MakeDate; exact Hw).
  pose proof (UTC_near z l Hz) as Hu.
  assert (Hrange : - 8000000000000000 <= UTC z l <= 8000000000000000)
    by (unfold l, MakeDate, msPerDay in *; lia).
  unfold setFullYear. fold l.
  rewrite TimeClip_ok by lia.
  unfold setHours. change (MakeTime 0 0 0 0) with 0.
  rewrite setHours_value by (assumption || (unfold msPerDay; lia)).
  rewrite (Hback l Hl). reflexivity.
Qed.

Lemma day_end (z : zone) (day : Z) :
  bounded_zone z -> regular_day z day -> -80001000 <= day <= 80001000 ->
  setHours z (TimeValue (UTC z (MakeDate day 0))) 23 59 59 999
  = TimeValue (UTC z (MakeDate day 86399999)).
Proof.
  intros Hz [Hback _] Hb.
  pose proof (UTC_near z (MakeDate day 0) Hz) as Hu.
  assert (Hrange : - 8000000000000000 <= UTC z (MakeDate day 0) <= 8000000000000000)
    by (unfold MakeDate, msPerDay in *; lia).
  unfold setHours. change (MakeTime 23 59 59 999) with 86399999.
  rewrite setHours_value by (assumption || (unfold msPerDay; lia)).
  rewrite (Hback (MakeDate day 0)) by (apply Day_MakeDate; unfold msPerDay; lia).
  reflexivity.
Qed.

(** Every day of a zone that keeps one offset is regular, and so is a
    day around which a zone with daylight saving does not change its
    clock. *)
Lemma fixed_bounded (c : Z) :
  - msPerDay <= c <= msPerDay -> bounded_zone (fixed c).
Proof. intros H t. cbn. split; exact H. Qed.

Lemma fixed_regular (c day : Z) : regular_day (fixed c) day.
Proof.
  split.
  - intros l Hl. unfold LocalTime, UTC. cbn.
    replace (l - c + c) with l by lia. exact Hl.
  - intros t. unfold LocalTime, UTC, MakeDate, Day, msPerDay. cbn.
    split; intros H; Z.div_mod_to_equations; lia.
Qed.

Lemma steady_regular (z : zone) (c day : Z) :
  bounded_zone z -> steady z c day -> regular_day z day.
Proof.
  intros Hz Hs.
  assert (Hc : - msPerDay <= c <= msPerDay).
  { destruct (Hs (day * msPerDay) ltac:(unfold msPerDay; lia)) as [<- _].
    apply Hz. }
  split.
  - intros l Hl. pose proof (Day_near l) as Hd. rewrite Hl in Hd.
    unfold UTC.
    destruct (Hs l ltac:(unfold msPerDay in *; lia)) as [_ ->].
    unfold LocalTime.
    destruct (Hs (l - c) ltac:(unfold msPerDay in *; lia)) as [-> _].
    replace (l - c + c) with l by lia. exact Hl.
  - intros t. unfold UTC.
    destruct (Hs (MakeDate day 0) ltac:(unfold MakeDate, msPerDay; lia)) as [_ ->].
    destruct (Hs (MakeDate day 86399999) ltac:(unfold MakeDate, msPerDay; lia))
      as [_ ->].
    split.
    + intros Ht. unfold LocalTime.
      destruct (Hs t ltac:(unfold MakeDate, msPerDay in *; lia)) as [-> _].
      unfold MakeDate, Day, msPerDay in *. Z.div_mod_to_equations. lia.
    + intros Ht. pose proof (Day_near (LocalTime z t)) as Hd. rewrite Ht in Hd.
      pose proof (LocalTime_near z t Hz) as Hn.
      unfold LocalTime in Hd, Hn.
      destruct (Hs t ltac:(unfold msPerDay in *; lia)) as [Ho _].
      rewrite Ho in Hd. unfold MakeDate, msPerDay in *. lia.
Qed.

End DateSetters.

Section Bounds.
Import JSDate VineTracker.

(** The bound of a [year] on a host that keeps one offset: from the
    first instant of 1 January, local time, to 11:59:59.999 in the
    morning of 31 December. *)
Lemma yearBounds_value (e : env) (c y : Z) :
  tz e = fixed c ->
  - msPerDay <= c <= msPerDay -> -200000 <= y <= 200000 -> y <> 0 ->
  let yr := if (0 <=? y) && (y <=? 99) then 1900 + y else y in
  yearBounds e (Some y)
  = Ok (Some (isoString (DayFromYear yr * msPerDay - c)),
        Some (isoString ((DayFromYear (yr + 1) - 1) * msPerDay
                         + 43199999 - c))).
Proof.
  intros Hfixed Htz Hy Hnz yr.
  assert (Hyr : -200000 <= yr <= 200000).
  { unfold yr. destruct ((0 <=? y) && (y <=? 99)) eqn:Hc; [|lia].
    apply andb_true_iff in Hc. destruct Hc as [H1 H2].
    apply Z.leb_le in H1. apply Z.leb_le in H2. lia. }
  pose proof (DayFromYear_bound yr ltac:(lia)) as Hb.
  pose proof (DayFromYear_step yr) as Hstep.
  pose proof (DaysInYear_cases yr) as Hdays.
  unfold yearBounds, truthy_number. rewrite Hfixed.
  destruct (Z.eqb_spec y 0) as [|_]; [contradiction|]. cbn [negb].
  unfold construct. fold yr.
  assert (Hmd : MakeDay yr 0 1 = DayFromYear yr).
  { unfold MakeDay. cbn. replace (yr + 0) with yr by lia. lia. }
  rewrite Hmd. change (MakeTime 0 0 0 0) with 0.
  unfold msPerDay in *.
  unfold UTC, LocalTime, fixed. cbn [offsetAt offsetFor].
  rewrite TimeClip_ok by (unfold MakeDate, msPerDay; lia).
  cbn [toISOString bind].
  unfold setMonth, LocalTime, UTC. cbn [offsetAt offsetFor].
  replace (MakeDate (DayFromYear yr) 0 - c + c)
    with (MakeDate (DayFromYear yr) 0) by lia.
  unfold YearFromTime.
  rewrite Day_MakeDate, TimeWithinDay_MakeDate by (unfold msPerDay; lia).
  rewrite (YearFromDay_unique yr) by lia.
  assert (Hlast : MakeDay yr 11 31 = DayFromYear (yr + 1) - 1).
  { unfold MakeDay. cbn. replace (yr + 0) with yr by lia.
    destruct Hdays as [Hd|Hd]; rewrite Hd in *; cbn; lia. }
  rewrite Hlast.
  rewrite TimeClip_ok by (unfold MakeDate, msPerDay; lia).
  unfold setHours, LocalTime, UTC. cbn [offsetAt offsetFor].
  replace (MakeDate (DayFromYear (yr + 1) - 1) 0 - c + c)
    with (MakeDate (DayFromYear (yr + 1) - 1) 0) by lia.
  rewrite Day_MakeDate by (unfold msPerDay; lia).
  rewrite TimeClip_ok
    by (unfold MakeDate, MakeTime, msPerDay, msPerHour, msPerMinute,
          msPerSecond; lia).
  cbn [toISOString bind].
  unfold MakeDate, MakeTime, msPerDay, msPerHour, msPerMinute, msPerSecond.
  do 4 f_equal; lia.
Qed.

(** The year of a day close to the first day of year [y]. *)
Lemma YearFromDay_near (y d : Z) :
  DayFromYear (y - 1) <= d < DayFromYear (y + 2) -> y - 1 <= YearFromDay d <= y + 1.
Proof.
  intros [L U]. pose proof (YearFromDay_spec d) as [L' U'].
  split.
  - destruct (Z.lt_ge_cases (YearFromDay d) (y - 1)) as [H|H]; [|lia].
    pose proof (DayFromYear_mono (YearFromDay d + 1) (y - 1) ltac:(lia)). lia.
  - destruct (Z.lt_ge_cases (y + 1) (YearFromDay d)) as [H|H]; [|lia].
    pose proof (DayFromYear_mono (y + 2) (YearFromDay d) ltac:(lia)). lia.
Qed.

(** [new Date(year, 0, 1, 0, 0, 0, 0)] for a year that a [Date] can
    hold. *)
Lemma construct_value (z : zone) (y : Z) :
  bounded_zone z -> -200000 <= y <= 200000 ->
  exists yr u,
    construct z y 0 1 0 0 0 0 = TimeValue u
    /\ -200000 <= yr <= 200000
    /\ DayFromYear yr * msPerDay - msPerDay <= u <= DayFromYear yr * msPerDay + msPerDay.
Proof.
  intros Hz Hy.
  set (yr := if (0 <=? y) && (y <=? 99) then 1900 + y else y).
  assert (Hyr : -200000 <= yr <= 200000).
  { unfold yr. destruct ((0 <=? y) && (y <=? 99)) eqn:Hc; [|lia].
    apply andb_true_iff in Hc. destruct Hc as [H1 H2].
    apply Z.leb_le in H1. apply Z.leb_le in H2. lia. }
  exists yr, (UTC z (MakeDate (DayFromYear yr) 0)).
  pose proof (DayFromYear_bound yr ltac:(lia)) as Hb.
  pose proof (UTC_near z (MakeDate (DayFromYear yr) 0) Hz) as Hu.
  assert (Hmd : MakeDay yr 0 1 = DayFromYear yr).
  { unfold MakeDay. cbn. replace (yr + 0) with yr by lia. lia. }
  unfold construct. fold yr. rewrite Hmd. change (MakeTime 0 0 0 0) with 0.
  split; [apply TimeClip_ok|split; [exact Hyr|]];
    generalize dependent (UTC z (MakeDate (DayFromYear yr) 0));
    unfold MakeDate; generalize dependent (DayFromYear yr);
    intros; unfold msPerDay in *; lia.
Qed.

(** [dt.setMonth(11, 31)] on a date within a day of the start of a
    year. *)
Lemma setMonth_value (z : zone) (yr u : Z) :
  bounded_zone z -> -200000 <= yr <= 200000 ->
  DayFromYear yr * msPerDay - msPerDay <= u <= DayFromYear yr * msPerDay + msPerDay ->
  exists u',
    setMonth z (TimeValue u) 11 31 = TimeValue u'
    /\ - 8000000000000000 <= u' <= 8000000000000000.
Proof.
  intros Hz Hyr Hu.
  pose proof (DayFromYear_bound yr ltac:(lia)) as Hb.
  pose proof (DayFromYear_step (yr - 1)) as Hprev.
  pose proof (DayFromYear_step yr) as Hstep.
  pose proof (DayFromYear_step (yr + 1)) as Hnext.
  replace (yr - 1 + 1) with yr in Hprev by lia.
  replace (yr + 1 + 1) with (yr + 2) in Hnext by lia.
  pose proof (DaysInYear_cases (yr - 1)) as Hd0.
  pose proof (DaysInYear_cases yr) as Hd1.
  pose proof (DaysInYear_cases (yr + 1)) as Hd2.
  unfold setMonth.
  pose proof (LocalTime_near z u Hz) as Ht.
  pose proof (Day_near (LocalTime z u)) as Hdt.
  pose proof (TimeWithinDay_range (LocalTime z u)) as Hw.
  generalize dependent (LocalTime z u). intros t Ht Hdt Hw.
  assert (Hday : DayFromYear (yr - 1) <= Day t < DayFromYear (yr + 2)).
  { generalize dependent (Day t). intros. unfold msPerDay in *. lia. }
  pose proof (YearFromDay_near yr (Day t) Hday) as Hyt.
  fold (YearFromTime t) in Hyt.
  pose proof (MakeDay_bound (YearFromTime t) 11 31 ltac:(lia) ltac:(lia) ltac:(lia))
    as Hmk.
  pose proof (UTC_near z (MakeDate (MakeDay (YearFromTime t) 11 31)
                                   (TimeWithinDay t)) Hz) as Hu1.
  eexists. split; [apply TimeClip_ok|];
    generalize dependent (UTC z (MakeDate (MakeDay (YearFromTime t) 11 31)
                                          (TimeWithinDay t)));
    unfold MakeDate;
    generalize dependent (MakeDay (YearFromTime t) 11 31);
    generalize dependent (TimeWithinDay t); intros; unfold msPerDay in *; lia.
Qed.

(** On any host whose offsets stay within a day, the bound of a year
    that a [Date] can hold is computed without an exception. *)
Lemma yearBounds_ok (e : env) (year : option Z) :
  bounded_zone (tz e) ->
  match year with Some y => -200000 <= y <= 200000 | None => True end ->
  exists bounds, yearBounds e year = Ok bounds.
Proof.
  intros Hz Hy. destruct year as [y|]; [|eexists; reflexivity].
  destruct (Z.eq_dec y 0) as [->|Hnz]; [eexists; reflexivity|].
  destruct (construct_value (tz e) y Hz Hy) as (yr & u & Hc & Hyr & Hu).
  destruct (setMonth_value (tz e) yr u Hz Hyr Hu) as (u' & Hm & Hu').
  unfold yearBounds, truthy_number.
  destruct (Z.eqb_spec y 0) as [|_]; [contradiction|]. cbn [negb].
  rewrite Hc. cbn [toISOString bind]. rewrite Hm.
  unfold setHours.
  rewrite setHours_value
    by (assumption
        || (unfold MakeTime, msPerDay, msPerHour, msPerMinute, msPerSecond; lia)).
  cbn [toISOString bind]. eexists. reflexivity.
Qed.

(** *** The pattern of a day search *)

Lemma digit_not_dash (c : ascii) : is_digit c = true -> Ascii.eqb c "-" = false.
Proof.
  destruct c as [[] [] [] [] [] [] [] []]; intros H; try reflexivity;
    discriminate H.
Qed.

Lemma digit_val_range (c : ascii) : is_digit c = true -> 0 <= digit_val c <= 9.
Proof.
  destruct c as [[] [] [] [] [] [] [] []]; intros H; try discriminate H;
    vm_compute; split; discriminate.
Qed.

Lemma parseInt_digit (c : ascii) (s : string) :
  is_digit c = true ->
  parseInt (String c s) = digit_prefix (Some (digit_val c)) s.
Proof.
  destruct c as [[] [] [] [] [] [] [] []]; intros H; try discriminate H;
    reflexivity.
Qed.

Lemma split_digit (c : ascii) (s : string) :
  is_digit c = true ->
  split "-" (String c s)
  = match split "-" s with
    | [] => [String c EmptyString]
    | part :: parts => String c part :: parts
    end.
Proof. intros H. cbn [split]. now rewrite (digit_not_dash c H). Qed.

(** A text of the form [YYYY-MM-DD] splits into three numbers of at most
    four, two and two digits. *)
Lemma date_pattern_parts (s : string) :
  is_date_pattern s = true ->
  exists y m d : Z,
    safeParseInt (nth_error (split "-" s) 0) = Some y
    /\ safeParseInt (nth_error (split "-" s) 1) = Some m
    /\ safeParseInt (nth_error (split "-" s) 2) = Some d
    /\ 0 <= y <= 9999 /\ 0 <= m <= 99 /\ 0 <= d <= 99.
Proof.
  unfold is_date_pattern.
  destruct s as [|y1 [|y2 [|y3 [|y4 [|h1 [|m1 [|m2 [|h2 [|d1 [|d2 [|x s]]]]]]]]]]];
    try discriminate.
  cbn [list_ascii_of_string]. intros H.
  apply andb_true_iff in H as [H Dd2]. apply andb_true_iff in H as [H Dd1].
  apply andb_true_iff in H as [H Hh2]. apply andb_true_iff in H as [H Dm2].
  apply andb_true_iff in H as [H Dm1]. apply andb_true_iff in H as [H Hh1].
  apply andb_true_iff in H as [H Dy4]. apply andb_true_iff in H as [H Dy3].
  apply andb_true_iff in H as [Dy1 Dy2].
  apply Ascii.eqb_eq in Hh1, Hh2. subst h1 h2.
  pose proof (digit_val_range _ Dy1). pose proof (digit_val_range _ Dy2).
  pose proof (digit_val_range _ Dy3). pose proof (digit_val_range _ Dy4).
  pose proof (digit_val_range _ Dm1). pose proof (digit_val_range _ Dm2).
  pose proof (digit_val_range _ Dd1). pose proof (digit_val_range _ Dd2).
  assert (Hsplit :
    split "-" (String y1 (String y2 (String y3 (String y4 (String "-"
                (String m1 (String m2 (String "-"
                (String d1 (String d2 EmptyString))))))))))
    = [String y1 (String y2 (String y3 (String y4 EmptyString)));
       String m1 (String m2 EmptyString);
       String d1 (String d2 EmptyString)]).
  { rewrite (split_digit y1), (split_digit y2), (split_digit y3),
      (split_digit y4) by assumption.
    change (split "-" (String "-" ?s)) with (EmptyString :: split "-" s).
    rewrite (split_digit m1), (split_digit m2) by assumption.
    change (split "-" (String "-" ?s)) with (EmptyString :: split "-" s).
    rewrite (split_digit d1), (split_digit d2) by assumption.
    reflexivity. }
  rewrite Hsplit. cbn [nth_error safeParseInt String.eqb].
  exists (10 * (10 * (10 * digit_val y1 + digit_val y2) + digit_val y3)
          + digit_val y4),
         (10 * digit_val m1 + digit_val m2),
         (10 * digit_val d1 + digit_val d2).
  rewrite (parseInt_digit y1), (parseInt_digit m1), (parseInt_digit d1)
    by assumption.
  cbn [digit_prefix]. rewrite Dy2, Dy3, Dy4, Dm2, Dd2.
  repeat split; lia.
Qed.

End Bounds.

Section ParseRoundTrip.
Import JSDate.

Lemma is_digit_digit (n : Z) : is_digit (digit n) = true.
Proof.
  unfold is_digit, digit.
  rewrite N_ascii_embedding by (Z.div_mod_to_equations; lia).
  apply andb_true_iff. split; apply N.leb_le; Z.div_mod_to_equations; lia.
Qed.

Lemma digit_val_digit (n : Z) : digit_val (digit n) = n mod 10.
Proof.
  unfold digit_val, digit.
  rewrite N_ascii_embedding by (Z.div_mod_to_equations; lia).
  rewrite Z2N.id by (Z.div_mod_to_equations; lia). lia.
Qed.

Lemma digits2 (n : Z) :
  0 <= n < 100 -> 10 * (10 * 0 + (n / 10) mod 10) + n mod 10 = n.
Proof. intros H. Z.div_mod_to_equations. lia. Qed.

Lemma digits3 (n : Z) :
  0 <= n < 1000 ->
  10 * (10 * (10 * 0 + (n / 10 / 10) mod 10) + (n / 10) mod 10) + n mod 10 = n.
Proof. intros H. Z.div_mod_to_equations. lia. Qed.

Lemma digits4 (n : Z) :
  0 <= n < 10000 ->
  10 * (10 * (10 * (10 * 0 + (n / 10 / 10 / 10) mod 10) + (n / 10 / 10) mod 10)
        + (n / 10) mod 10) + n mod 10 = n.
Proof. intros H. Z.div_mod_to_equations. lia. Qed.

(** A time value is made of its own fields. *)
Lemma MakeDay_fields (t : Z) :
  MakeDay (YearFromTime t) (MonthFromTime t) (DateFromTime t) = Day t.
Proof.
  pose proof (MonthFromTime_range t) as Hm.
  unfold MakeDay.
  replace (MonthFromTime t / 12) with 0 by (Z.div_mod_to_equations; lia).
  replace (MonthFromTime t mod 12) with (MonthFromTime t)
    by (Z.div_mod_to_equations; lia).
  replace (YearFromTime t + 0) with (YearFromTime t) by lia.
  fold (InLeapYear t). unfold DateFromTime, DayWithinYear. lia.
Qed.

Lemma MakeTime_fields (t : Z) :
  MakeTime (HourFromTime t) (MinFromTime t) (SecFromTime t) (msFromTime t)
  = TimeWithinDay t.
Proof.
  unfold MakeTime, HourFromTime, MinFromTime, SecFromTime, msFromTime,
    TimeWithinDay, msPerDay, msPerHour, msPerMinute, msPerSecond.
  Z.div_mod_to_equations. lia.
Qed.

(** Parsing the rendering of an instant of a four-digit year gives the
    instant back: what [maybeInsertOrder] stores, [toOrder] reads. *)
Theorem parse_isoString (t : Z) : iso_range t -> parse (isoString t) = TimeValue t.
Proof.
  intros R.
  pose proof (iso_range_year t R) as Y.
  pose proof (MonthFromTime_range t) as M.
  pose proof (DateFromTime_range t) as D.
  pose proof (DateFromTime_in_month t) as Dm.
  pose proof (time_fields_range t) as (Hh & Hmi & Hs & Hms).
  unfold parse, isoString, isoYear.
  replace ((0 <=? YearFromTime t) && (YearFromTime t <=? 9999)) with true
    by (symmetry; apply andb_true_iff; split; apply Z.leb_le; lia).
  cbn [pad String.append String.length Nat.eqb negb substring String.eqb
       Ascii.eqb Bool.eqb andb digits digits_from].
  rewrite !is_digit_digit, !digit_val_digit.
  rewrite (digits4 (YearFromTime t)), (digits2 (MonthFromTime t + 1)),
    (digits2 (DateFromTime t)), (digits2 (HourFromTime t)),
    (digits2 (MinFromTime t)), (digits2 (SecFromTime t)),
    (digits3 (msFromTime t)) by lia.
  fold (InLeapYear t).
  assert (Hvalid :
    (1 <=? MonthFromTime t + 1) && (MonthFromTime t + 1 <=? 12)
    && (1 <=? DateFromTime t)
    && (DateFromTime t <=? DaysBeforeMonth (InLeapYear t) (MonthFromTime t + 1)
                           - DaysBeforeMonth (InLeapYear t) (MonthFromTime t + 1 - 1))
    && (HourFromTime t <=? 23) && (MinFromTime t <=? 59)
    && (SecFromTime t <=? 59) = true).
  { repeat (apply andb_true_iff; split); apply Z.leb_le; lia. }
  rewrite Hvalid.
  replace (MonthFromTime t + 1 - 1) with (MonthFromTime t) by lia.
  rewrite MakeDay_fields, MakeTime_fields.
  unfold MakeDate, Day, TimeWithinDay, msPerDay.
  replace (t / 86400000 * 86400000 + t mod 86400000) with t
    by (Z.div_mod_to_equations; lia).
  apply TimeClip_ok. unfold iso_range in R. lia.
Qed.

(** The day number that [MakeDay] gives for a date of the calendar is
    the day with that year, month and day of the month, and no other. *)
Lemma calendar_date_fields (y m d t : Z) :
  calendar_date y m d = true ->
  (Day t = MakeDay y (m - 1) d
   <-> YearFromTime t = y /\ MonthFromTime t + 1 = m /\ DateFromTime t = d).
Proof.
  unfold calendar_date. intros H.
  repeat (apply andb_true_iff in H as [H ?]).
  repeat match goal with
         | H : (_ <=? _) = true |- _ => apply Z.leb_le in H
         end.
  split.
  - intros Hday.
    assert (Hmk : MakeDay y (m - 1) d
                  = DayFromYear y
                    + DaysBeforeMonth (if DaysInYear y =? 366 then 1 else 0) (m - 1)
                    + d - 1).
    { unfold MakeDay.
      replace ((m - 1) / 12) with 0 by (Z.div_mod_to_equations; lia).
      replace ((m - 1) mod 12) with (m - 1) by (Z.div_mod_to_equations; lia).
      replace (y + 0) with y by lia. reflexivity. }
    rewrite Hmk in Hday. clear Hmk.
    pose proof (DayFromYear_step y) as Hstep.
    assert (Hm : m = 1 \/ m = 2 \/ m = 3 \/ m = 4 \/ m = 5 \/ m = 6 \/ m = 7
                 \/ m = 8 \/ m = 9 \/ m = 10 \/ m = 11 \/ m = 12) by lia.
    assert (Hyear : YearFromTime t = y).
    { unfold YearFromTime. apply YearFromDay_unique. rewrite Hstep.
      destruct (DaysInYear_cases y) as [Hd|Hd]; rewrite Hd in *;
        cbn [Z.eqb Pos.eqb] in *;
        repeat (destruct Hm as [->|Hm]; [month_literal; lia|]);
        subst m; month_literal; lia. }
    assert (Hwithin : DayWithinYear t
                      = DaysBeforeMonth (InLeapYear t) (m - 1) + d - 1).
    { unfold DayWithinYear, InLeapYear. rewrite Hyear. lia. }
    assert (Hmonth : MonthFromTime t + 1 = m).
    { unfold MonthFromTime. rewrite Hwithin.
      unfold InLeapYear in *. rewrite Hyear in *.
      destruct (DaysInYear_cases y) as [Hd|Hd]; rewrite Hd in *;
        cbn [Z.eqb Pos.eqb] in *;
        repeat (destruct Hm as [->|Hm]; [month_literal; month_cases; lia|]);
        subst m; month_literal; month_cases; lia. }
    split; [exact Hyear|]. split; [exact Hmonth|].
    unfold DateFromTime. rewrite Hwithin.
    replace (MonthFromTime t) with (m - 1) by lia. lia.
  - intros (Hy & Hm & Hd). rewrite <- (MakeDay_fields t).
    rewrite Hy, Hd. f_equal. lia.
Qed.

End ParseRoundTrip.
(** ** The schema migrator *)

Section MigrateProperties.
Import Migrate.

Lemma has_column_In (t : table) (c : string) :
  has_column t c = true <-> In c (columns t).
Proof.
  unfold has_column. rewrite existsb_exists. split.
  - intros [x [Hin Heq]]. apply String.eqb_eq in Heq. now subst.
  - intros Hin. exists c. split; [assumption | apply String.eqb_refl].
Qed.

Lemma has_column_filter (t : table) (c d : string) (rs : list row) :
  c <> d ->
  has_column (mkTable (filter (fun x => negb (String.eqb x d)) (columns t)) rs) c
  = has_column t c.
Proof.
  intros Hne. unfold has_column. simpl.
  induction (columns t) as [|x l IH]; simpl; [reflexivity|].
  destruct (String.eqb_spec x d) as [->|Hxd]; simpl.
  - rewrite IH. destruct (String.eqb_spec c d); [contradiction | reflexivity].
  - now rewrite IH.
Qed.

Lemma two_columns (t : table) (c d : string) :
  c <> d -> has_column t c = true -> has_column t d = true ->
  (List.length (columns t) <=? 1)%nat = false.
Proof.
  intros Hne Hc Hd. apply has_column_In in Hc. apply has_column_In in Hd.
  apply Nat.leb_gt.
  destruct (columns t) as [|x [|y l]]; simpl in *.
  - contradiction.
  - destruct Hc as [->|[]]. destruct Hd as [->|[]]. contradiction.
  - lia.
Qed.

(** The row after the migration: every column kept, [cancelled] gone and
    [cancelledAt] reading [NULL]. *)
Lemma migrated_row (r : row) :
  set_null "cancelledAt" (set_null "cancelled" r)
  = Row.mk (number r) (asin r) (product r) (orderedAt r) (deliveredAt r)
           (etv r) (etvFactor r) None (etvReason r) (notes r) None.
Proof. reflexivity. Qed.

(** Inside a transaction, only [COMMIT] changes what readers of the file
    see. *)
Lemma exec_keeps_committed (s : stmt) (c c' : conn) :
  txn c <> None -> s <> Commit ->
  exec s c = Ok c' -> committed c' = committed c.
Proof.
  intros Htxn Hs. destruct (txn c) as [w|] eqn:Hw; [|contradiction].
  destruct s; simpl; unfold write; rewrite ?Hw; simpl; try discriminate;
    try contradiction.
  - intros [= <-]. reflexivity.
  - destruct (drop_column col w); simpl; [intros [= <-]; reflexivity | discriminate].
  - destruct (add_column col w); simpl; [intros [= <-]; reflexivity | discriminate].
  - intros [= <-]. reflexivity.
Qed.

Lemma db_exec_throw (f : stmt -> bool) (s : stmt) (w w' : world) (e : exn) :
  db_exec f s w = (Throw e, w') -> w' = w.
Proof.
  unfold db_exec. destruct (f s); [intros [= _ <-]; reflexivity|].
  destruct (exec s (db w)); [discriminate | intros [= _ <-]; reflexivity].
Qed.

Lemma db_exec_in_transaction (f : stmt -> bool) (s : stmt) (c0 : conn)
    (log : list console_entry) (w w' : world) :
  in_transaction c0 log w ->
  match s with
  | AlterTableDropColumn _ | AlterTableAddColumn _ | PragmaUserVersion _ => True
  | _ => False
  end ->
  db_exec f s w = (Ok tt, w') -> in_transaction c0 log w'.
Proof.
  intros (Hc & Ht & Hl) Hs. unfold db_exec.
  destruct (f s); [discriminate|].
  destruct (exec s (db w)) as [c'|] eqn:He; [|discriminate].
  intros [= <-]. unfold in_transaction. simpl. repeat split.
  - rewrite <- Hc. apply (exec_keeps_committed s); auto.
    destruct s; try contradiction; discriminate.
  - destruct (txn (db w)) as [wk|] eqn:Hw; [|contradiction].
    destruct s; try contradiction; simpl in He; unfold write in He;
      rewrite Hw in He; simpl in He.
    + destruct (drop_column col wk); simpl in He; [|discriminate].
      injection He as <-. discriminate.
    + destruct (add_column col wk); simpl in He; [|discriminate].
      injection He as <-. discriminate.
    + injection He as <-. discriminate.
  - assumption.
Qed.

Lemma rollback_in_transaction (f : stmt -> bool) (c0 : conn)
    (log : list console_entry) (w : world) :
  f Rollback = false -> txn c0 = None -> in_transaction c0 log w ->
  db_exec f Rollback w = (Ok tt, mkWorld c0 log).
Proof.
  intros Hf H0 (Hc & Ht & Hl). unfold db_exec. rewrite Hf. simpl.
  destruct (txn (db w)); [|contradiction].
  rewrite Hc, Hl. destruct c0 as [s0 t0]. simpl in *. now subst.
Qed.

(** The [try] block either completes or stops inside the transaction. *)
Lemma migrate_v1_to_v2_throw (f : stmt -> bool) (c : conn)
    (log : list console_entry) (e : exn) (w' : world) :
  txn c = None -> f BeginTransaction = false ->
  migrate_v1_to_v2 f (mkWorld c log) = (Throw e, w') ->
  in_transaction c log w'.
Proof.
  intros Ht Hb. unfold migrate_v1_to_v2, seq.
  assert (H0 : db_exec f BeginTransaction (mkWorld c log)
               = (Ok tt, mkWorld (mkConn (committed c) (Some (committed c))) log)).
  { unfold db_exec. rewrite Hb. simpl. now rewrite Ht. }
  rewrite H0.
  assert (I0 : in_transaction c log
                 (mkWorld (mkConn (committed c) (Some (committed c))) log)).
  { repeat split; simpl; discriminate. }
  clear H0. revert I0.
  generalize (mkWorld (mkConn (committed c) (Some (committed c))) log).
  intros w0 I0.
  destruct (db_exec f (AlterTableDropColumn "cancelled") w0) as [[[]|e1] w1] eqn:E1.
  2:{ intros [= -> <-]. now rewrite (db_exec_throw _ _ _ _ _ E1). }
  pose proof (db_exec_in_transaction f (AlterTableDropColumn "cancelled") _ _ _ _ I0 I E1) as I1.
  destruct (db_exec f (AlterTableAddColumn "cancelledAt") w1) as [[[]|e2] w2] eqn:E2.
  2:{ intros [= -> <-]. now rewrite (db_exec_throw _ _ _ _ _ E2). }
  pose proof (db_exec_in_transaction f (AlterTableAddColumn "cancelledAt") _ _ _ _ I1 I E2) as I2.
  destruct (db_exec f (PragmaUserVersion 2) w2) as [[[]|e3] w3] eqn:E3.
  2:{ intros [= -> <-]. now rewrite (db_exec_throw _ _ _ _ _ E3). }
  pose proof (db_exec_in_transaction f (PragmaUserVersion 2) _ _ _ _ I2 I E3) as I3.
  destruct (db_exec f Commit w3) as [[[]|e4] w4] eqn:E4.
  2:{ intros [= -> <-]. now rewrite (db_exec_throw _ _ _ _ _ E4). }
  unfold console_log. discriminate.
Qed.

(** What the [try] block does to the database does not depend on the
    console. *)
Lemma migrate_v1_to_v2_console (f : stmt -> bool) (c : conn)
    (l l' : list console_entry) (e : exn) (w : world) :
  migrate_v1_to_v2 f (mkWorld c l) = (Throw e, w) ->
  migrate_v1_to_v2 f (mkWorld c l') = (Throw e, mkWorld (db w) l').
Proof.
  unfold migrate_v1_to_v2, seq, db_exec, console_log. simpl.
  destruct (f BeginTransaction); [intros [= <- <-]; reflexivity|].
  destruct (txn c) as [w0|]; simpl; [intros [= <- <-]; reflexivity|].
  destruct (f (AlterTableDropColumn "cancelled")); [intros [= <- <-]; reflexivity|].
  destruct (write (drop_column "cancelled") _) as [c1|e1]; simpl;
    [|intros [= <- <-]; reflexivity].
  destruct (f (AlterTableAddColumn "cancelledAt")); [intros [= <- <-]; reflexivity|].
  destruct (write (add_column "cancelledAt") c1) as [c2|e2]; simpl;
    [|intros [= <- <-]; reflexivity].
  destruct (f (PragmaUserVersion 2)); [intros [= <- <-]; reflexivity|].
  destruct (write (set_user_version 2) c2) as [c3|e3]; simpl;
    [|intros [= <- <-]; reflexivity].
  destruct (f Commit); [intros [= <- <-]; reflexivity|].
  destruct (txn c3); simpl; [discriminate | intros [= <- <-]; reflexivity].
Qed.

Lemma write_in_transaction (f : store -> outcome store) (s w : store) :
  write f (mkConn s (Some w))
  = match f w with
    | Ok w' => Ok (mkConn s (Some w'))
    | Throw e => Throw e
    end.
Proof. reflexivity. Qed.

(** When the [try] block completes, all three changes have been
    committed together. *)
Lemma migrate_v1_to_v2_ok (fails : stmt -> bool) (c : conn)
    (log : list console_entry) (w' : world) :
  txn c = None ->
  migrate_v1_to_v2 fails (mkWorld c log) = (Ok tt, w') ->
  exists s1 s2,
    drop_column "cancelled" (committed c) = Ok s1
    /\ add_column "cancelledAt" s1 = Ok s2
    /\ db w' = mkConn (mkStore 2 (orders s2)) None.
Proof.
  intros Hidle. unfold migrate_v1_to_v2, seq, db_exec, console_log.
  cbn [db console exec].
  destruct (fails BeginTransaction); [discriminate|].
  rewrite Hidle.
  destruct (fails (AlterTableDropColumn "cancelled")); [discriminate|].
  cbn [db console exec]. rewrite write_in_transaction.
  destruct (drop_column "cancelled" (committed c)) as [s1|]; [|discriminate].
  destruct (fails (AlterTableAddColumn "cancelledAt")); [discriminate|].
  cbn [db console exec]. rewrite write_in_transaction.
  destruct (add_column "cancelledAt" s1) as [s2|] eqn:Hadd; [|discriminate].
  destruct (fails (PragmaUserVersion 2)); [discriminate|].
  cbn [db console exec]. rewrite write_in_transaction.
  cbn [set_user_version].
  destruct (fails Commit); [discriminate|].
  cbn [db console exec txn]. intros [= <-].
  exists s1, s2. split; [reflexivity|]. split; [exact Hadd | reflexivity].
Qed.

Lemma migrate_v1_to_v2_throw_committed (fails : stmt -> bool) (c : conn)
    (log : list console_entry) (e : exn) (w' : world) :
  txn c = None ->
  migrate_v1_to_v2 fails (mkWorld c log) = (Throw e, w') ->
  committed (db w') = committed c.
Proof.
  intros Hidle H. destruct (fails BeginTransaction) eqn:Hb.
  - revert H. unfold migrate_v1_to_v2, seq, db_exec. rewrite Hb.
    intros [= _ <-]. reflexivity.
  - apply (migrate_v1_to_v2_throw fails c log e w' Hidle Hb H).
Qed.

Lemma db_exec_rollback_committed (fails : stmt -> bool) (w : world) :
  committed (db (snd (db_exec fails Rollback w))) = committed (db w).
Proof.
  unfold db_exec. destruct (fails Rollback); [reflexivity|].
  cbn [exec]. destruct (txn (db w)); reflexivity.
Qed.

(** For any pattern of failures, readers of the file see the store as
    it was before the call or the store fully migrated, never a state in
    between. *)
Lemma migrate_all_or_nothing (fails : stmt -> bool) (c : conn)
    (log : list console_entry) :
  txn c = None ->
  let after := committed (db (snd (migrate fails (mkWorld c log)))) in
  after = committed c
  \/ (exists s1 s2,
        drop_column "cancelled" (committed c) = Ok s1
        /\ add_column "cancelledAt" s1 = Ok s2
        /\ after = mkStore 2 (orders s2)).
Proof.
  intros Hidle after. subst after.
  unfold migrate, seq, get_user_version, console_log. cbn [db console].
  destruct (user_version (view c) <? 2); [|left; reflexivity].
  unfold try_catch.
  destruct (migrate_v1_to_v2 fails _) as [[[]|e] w'] eqn:Hbody.
  - destruct (migrate_v1_to_v2_ok _ _ _ _ Hidle Hbody) as (s1 & s2 & H1 & H2 & H3).
    right. exists s1, s2. repeat split; try assumption.
    cbn [snd]. now rewrite H3.
  - left. apply migrate_v1_to_v2_throw_committed in Hbody; [|exact Hidle].
    transitivity (committed (db w')); [|exact Hbody].
    pose proof (db_exec_rollback_committed fails w') as Hrb.
    unfold seq. destruct (db_exec fails Rollback w') as [[[]|e'] w2];
      cbn [snd] in *; [|exact Hrb].
    unfold console_error. cbn [snd db]. exact Hrb.
Qed.

(** The second step fails on a table that has the new column already:
    the first step, which had gone through, is rolled back with it. *)
Example migrate_duplicate_column :
  migrate never_fails (mkWorld Samples.dbBoth [])
  = (Ok tt,
     mkWorld Samples.dbBoth
       [ConsoleLog "Migrating DB from v0 to v2...";
        ConsoleError "Migration failed, changes rolled back:"
                     (SqliteError "duplicate column name: cancelledAt")]).
Proof. reflexivity. Qed.

(** When [BEGIN] itself fails there is no transaction for the [catch]
    block to roll back: [ROLLBACK] throws in its turn, out of [migrate],
    and the store is as it was. *)
Example migrate_begin_fails :
  migrate (fun s => match s with BeginTransaction => true | _ => false end)
          (mkWorld Samples.dbA1 [])
  = (Throw (SqliteError "cannot rollback - no transaction is active"),
     mkWorld Samples.dbA1 [ConsoleLog "Migrating DB from v0 to v2..."]).
Proof. reflexivity. Qed.

End MigrateProperties.

Section MigrateClaims.
Import Migrate Samples.

(** C7.  On a v1 database (version marker below 2, an [orders] table with
    the [cancelled] column and no [cancelledAt] column) the migrator
    completes and commits: every row keeps all its other columns, the
    [cancelled] column is gone, [cancelledAt] reads [NULL] in every row,
    and the version marker is 2.  On a database whose marker is already 2
    or more the migrator changes nothing. *)
Theorem migrate_v1_database (v : Z) (t : table) (log : list console_entry)
    (Hv : v < 2)
    (Hnumber : has_column t "number" = true)
    (Hcancelled : has_column t "cancelled" = true)
    (HcancelledAt : has_column t "cancelledAt" = false) :
  migrate never_fails (mkWorld (mkConn (mkStore v (Some t)) None) log)
  = (Ok tt,
     mkWorld
       (mkConn
          (mkStore 2
             (Some (mkTable
                (filter (fun c => negb (String.eqb c "cancelled")) (columns t)
                 ++ ["cancelledAt"])
                (map (fun r =>
                        Row.mk (number r) (asin r) (product r) (orderedAt r)
                               (deliveredAt r) (etv r) (etvFactor r) None
                               (etvReason r) (notes r) None)
                     (rows t)))))
          None)
       (log ++ [ConsoleLog ("Migrating DB from v" ++ string_of_Z v ++ " to v2...");
                ConsoleLog "Schema updated successfully: cancelled -> cancelledAt"]))
  /\ (forall (f : stmt -> bool) (w : world),
        2 <= user_version (view (db w)) -> migrate f w = (Ok tt, w)).
Proof.
  split.
  - unfold migrate, seq, get_user_version, console_log. simpl.
    assert (Hlt : (v <? 2) = true) by (apply Z.ltb_lt; exact Hv).
    rewrite Hlt. unfold try_catch, migrate_v1_to_v2, seq, db_exec, never_fails.
    simpl. unfold write. simpl. unfold drop_column. simpl.
    rewrite Hcancelled. simpl.
    rewrite (two_columns t "number" "cancelled") by (assumption || discriminate).
    simpl. unfold add_column. simpl.
    rewrite (has_column_filter t "cancelledAt" "cancelled") by discriminate.
    rewrite HcancelledAt. simpl. unfold console_log. simpl.
    rewrite map_map. rewrite <- app_assoc. simpl.
    do 6 f_equal.
  - intros f w Hw. unfold migrate, seq, get_user_version. simpl.
    assert (Hge : (user_version (view (db w)) <? 2) = false)
      by (apply Z.ltb_ge; exact Hw).
    rewrite Hge. reflexivity.
Qed.

(** The example of the specification: the v1 row [{number: "A1",
    cancelled: 1}] becomes [{number: "A1", cancelledAt: null}]. *)
Lemma migrate_v1_database_witness :
  (0 < 2 /\ has_column (mkTable v1_columns [rowA1]) "number" = true
   /\ has_column (mkTable v1_columns [rowA1]) "cancelled" = true
   /\ has_column (mkTable v1_columns [rowA1]) "cancelledAt" = false)
  /\ migrate never_fails (mkWorld dbA1 [])
     = (Ok tt,
        mkWorld (mkConn (mkStore 2 (Some (mkTable v2_columns [rowA1_migrated]))) None)
          [ConsoleLog "Migrating DB from v0 to v2...";
           ConsoleLog "Schema updated successfully: cancelled -> cancelledAt"]).
Proof.
  split.
  - repeat split; (lia || reflexivity).
  - exact (proj1 (migrate_v1_database 0 (mkTable v1_columns [rowA1]) []
                    eq_refl eq_refl eq_refl eq_refl)).
Defined.



(** The other way for the [ROLLBACK] to throw: a later step fails and
    the engine does not carry out the [ROLLBACK] either.  The handle is
    then left inside the transaction, with the column dropped in its
    working copy, and again nothing is logged. *)
Example migrate_rollback_fails :
  migrate fails_on_pragma_and_rollback (mkWorld dbA1 [])
  = (Throw (SqliteError "statement failed"),
     mkWorld (mkConn storeA1
                (Some (mkStore 0 (Some (mkTable v2_columns [rowA1_migrated])))))
             [ConsoleLog "Migrating DB from v0 to v2..."]).
Proof. reflexivity. Qed.

(** What the [catch] block does when [BEGIN] has gone through and
    [ROLLBACK] is carried out: the file is never seen changed, the handle
    is back in the state it had before the call (the [cancelled] column,
    no [cancelledAt] column, the version marker as it was), and the
    failure is written to the console. *)
Lemma migrate_failure_rolls_back (fails : stmt -> bool) (c : conn)
    (log : list console_entry) (e : exn) (w' : world)
    (Hidle : txn c = None)
    (Hv1 : user_version (committed c) < 2)
    (Hbegin : fails BeginTransaction = false)
    (Hrollback : fails Rollback = false)
    (Hfails : migrate_v1_to_v2 fails (mkWorld c log) = (Throw e, w')) :
  committed (db w') = committed c
  /\ migrate fails (mkWorld c log)
     = (Ok tt,
        mkWorld c
          (log ++ [ConsoleLog ("Migrating DB from v"
                               ++ string_of_Z (user_version (committed c))
                               ++ " to v2...");
                   ConsoleError "Migration failed, changes rolled back:" e])).
Proof.
  pose proof (migrate_v1_to_v2_throw _ _ _ _ _ Hidle Hbegin Hfails) as Hin.
  split; [apply Hin|].
  set (log1 := log ++ [ConsoleLog ("Migrating DB from v"
                                    ++ string_of_Z (user_version (committed c))
                                    ++ " to v2...")]).
  assert (Hstart : migrate fails (mkWorld c log)
                   = try_catch (migrate_v1_to_v2 fails)
                       (fun err =>
                          seq (db_exec fails Rollback)
                              (fun _ => console_error
                                 "Migration failed, changes rolled back:" err))
                       (mkWorld c log1)).
  { unfold migrate, seq, get_user_version, console_log. simpl.
    unfold view. rewrite Hidle.
    assert (Hlt : (user_version (committed c) <? 2) = true)
      by (apply Z.ltb_lt; exact Hv1).
    rewrite Hlt. reflexivity. }
  rewrite Hstart. unfold try_catch.
  rewrite (migrate_v1_to_v2_console _ _ _ log1 _ _ Hfails).
  unfold seq.
  rewrite (rollback_in_transaction fails c log1 _ Hrollback Hidle).
  - unfold console_error, log1. simpl. rewrite <- app_assoc. reflexivity.
  - destruct Hin as (H1 & H2 & _). repeat split; assumption.
Qed.

(** A failure of [PRAGMA user_version = 2], after both [ALTER TABLE]
    statements have gone through: the database is as before. *)
Lemma migrate_failure_rolls_back_witness :
  (txn dbA1 = None /\ user_version (committed dbA1) < 2
   /\ fails_on_pragma BeginTransaction = false
   /\ fails_on_pragma Rollback = false
   /\ migrate_v1_to_v2 fails_on_pragma (mkWorld dbA1 [])
      = (Throw (SqliteError "statement failed"),
         mkWorld (mkConn storeA1
                    (Some (mkStore 0 (Some (mkTable v2_columns [rowA1_migrated])))))
                 []))
  /\ migrate fails_on_pragma (mkWorld dbA1 [])
     = (Ok tt,
        mkWorld dbA1
          [ConsoleLog "Migrating DB from v0 to v2...";
           ConsoleError "Migration failed, changes rolled back:"
                        (SqliteError "statement failed")]).
Proof.
  split.
  - repeat split; (reflexivity || (simpl; lia)).
  - exact (proj2 (migrate_failure_rolls_back fails_on_pragma dbA1 []
                    (SqliteError "statement failed") _
                    eq_refl eq_refl eq_refl eq_refl eq_refl)).
Defined.

End MigrateClaims.

(** ** The query engine *)

Section QueryProperties.
Import VineTracker.

Lemma is_true_and (a b : tri) : is_true (sql_and a b) = is_true a && is_true b.
Proof. destruct a as [[|]|], b as [[|]|]; reflexivity. Qed.

(** The [WHERE] clause is the condition on [cancelled] and the remaining
    conditions. *)
Lemma where_remaining (q : select) (r : row) :
  is_true (where_ q r)
  = is_true (int_eq (Row.cancelled r) (sel_cancelled q)) && remaining q r.
Proof.
  unfold where_, remaining.
  destruct (sel_keyword q), (sel_startDate q), (sel_endDate q),
    (sel_nonAdjustedOnly q);
    rewrite ?is_true_and, ?andb_true_r, <- ?andb_assoc; reflexivity.
Qed.

Lemma insert_by_perm {A : Type} (le : A -> A -> bool) (x : A) (l : list A) :
  Permutation (insert_by le x l) (x :: l).
Proof.
  induction l as [|y l IH]; simpl.
  - apply Permutation_refl.
  - destruct (le x y).
    + apply Permutation_refl.
    + apply perm_trans with (y :: x :: l).
      * apply perm_skip. exact IH.
      * apply perm_swap.
Qed.

Lemma sort_by_perm {A : Type} (le : A -> A -> bool) (l : list A) :
  Permutation (sort_by le l) l.
Proof.
  induction l as [|x l IH]; simpl.
  - apply perm_nil.
  - apply perm_trans with (x :: sort_by le l).
    + apply insert_by_perm.
    + apply perm_skip. exact IH.
Qed.

Lemma order_by_perm {A : Type} (key : A -> sqlkey) (asc : bool) (l : list A) :
  Permutation (order_by key asc l) l.
Proof. unfold order_by. destruct asc; apply sort_by_perm. Qed.

Lemma limit_offset_none {A : Type} (l : list A) : limit_offset None None l = l.
Proof. reflexivity. Qed.

Lemma firstn_In {A : Type} (n : nat) (l : list A) (x : A) :
  In x (firstn n l) -> In x l.
Proof.
  intros H. rewrite <- (firstn_skipn n l). apply in_or_app. now left.
Qed.

Lemma skipn_In {A : Type} (n : nat) (l : list A) (x : A) :
  In x (skipn n l) -> In x l.
Proof.
  intros H. rewrite <- (firstn_skipn n l). apply in_or_app. now right.
Qed.

Lemma limit_offset_In {A : Type} (lim off : option Z) (l : list A) (x : A) :
  In x (limit_offset lim off l) -> In x l.
Proof.
  unfold limit_offset. intros H.
  assert (Hskip : In x match off with Some k => skipn (Z.to_nat k) l | None => l end).
  { destruct lim as [n|]; [|exact H].
    destruct (n <? 0); [exact H|]. eapply firstn_In; exact H. }
  destruct off as [k|]; [|exact Hskip]. eapply skipn_In; exact Hskip.
Qed.

(** Rows that the row-mode statement returns are rows of the table that
    satisfy the [WHERE] clause. *)
Lemma select_rows_In (t : table) (q : select) (r : row) :
  In r (select_rows t q) -> In r (rows t) /\ is_true (where_ q r) = true.
Proof.
  unfold select_rows. intros H. apply limit_offset_In in H.
  apply (Permutation_in _ (order_by_perm _ _ _)) in H.
  apply filter_In in H. exact H.
Qed.

(** Without [LIMIT] and [OFFSET] it returns all of them. *)
Lemma select_rows_perm (t : table) (q : select) :
  sel_limit q = None -> sel_offset q = None ->
  Permutation (select_rows t q) (filter (fun r => is_true (where_ q r)) (rows t)).
Proof.
  intros Hl Ho. unfold select_rows. rewrite Hl, Ho, limit_offset_none.
  apply order_by_perm.
Qed.

Lemma missing_column_none (t : table) (cols : list string) :
  missing_column t cols = None <-> forall c, In c cols -> has_column t c = true.
Proof.
  unfold missing_column. split.
  - intros H c Hc. pose proof (find_none _ _ H c Hc) as Hn. simpl in Hn.
    now apply negb_false_iff in Hn.
  - intros H. destruct (find _ cols) as [c|] eqn:Hf; [|reflexivity].
    apply find_some in Hf. destruct Hf as [Hin Hneg].
    rewrite (H c Hin) in Hneg. discriminate.
Qed.

(** The filter of a statement does not depend on whether it counts, on
    its sort order or on its page. *)
Lemma where_buildSelect (o o' : GetOrdersOptions)
    (keyword startDate endDate : option string) (r : row) :
  Opt.cancelled o' = Opt.cancelled o ->
  Opt.nonAdjustedOnly o' = Opt.nonAdjustedOnly o ->
  Opt.byDelivered o' = Opt.byDelivered o ->
  where_ (buildSelect o' keyword startDate endDate) r
  = where_ (buildSelect o keyword startDate endDate) r.
Proof.
  intros Hc Hn Hb. unfold where_, buildSelect. simpl.
  rewrite Hc, Hn, Hb. reflexivity.
Qed.

(** [prepare] succeeds exactly when the statement parses, the table exists
    and has every column the statement names. *)
Lemma prepare_ok (db : conn) (q : select) (t : table) :
  prepare db q = Ok t <->
  (sel_offset q <> None -> sel_limit q <> None)
  /\ orders (view db) = Some t
  /\ (forall c, In c (referenced q) -> has_column t c = true).
Proof.
  unfold prepare. split.
  - intros H.
    assert (Hsyn : sel_offset q <> None -> sel_limit q <> None).
    { destruct (sel_limit q), (sel_offset q); try discriminate; congruence. }
    assert (H' : match orders (view db) with
                 | Some t0 =>
                     match missing_column t0 (referenced q) with
                     | Some c => Throw (SqliteError ("no such column: " ++ c))
                     | None => Ok t0
                     end
                 | None => Throw (SqliteError "no such table: orders")
                 end = Ok t).
    { destruct (sel_limit q), (sel_offset q); try exact H; discriminate. }
    clear H. destruct (orders (view db)) as [t0|]; [|discriminate].
    destruct (missing_column t0 (referenced q)) eqn:Hm; [discriminate|].
    injection H' as ->. repeat split; try assumption.
    apply missing_column_none. exact Hm.
  - intros (Hsyn & Ht & Hcols). rewrite Ht.
    apply missing_column_none in Hcols. rewrite Hcols.
    destruct (sel_limit q), (sel_offset q); try reflexivity.
    exfalso. apply Hsyn; [discriminate | reflexivity].
Qed.

(** The integer check passes when there is no page, and when the page is
    made of 64-bit integers. *)
Lemma start_ok (q : select) :
  start q = Ok tt <->
  (forall n, sel_limit q = Some n -> is_int64 n = true)
  /\ (forall k, sel_offset q = Some k -> is_int64 k = true).
Proof.
  unfold start, must_be_int, bind. split.
  - intros H. split.
    + intros n Hn. rewrite Hn in H. destruct (is_int64 n); [reflexivity|discriminate].
    + intros k Hk. rewrite Hk in H.
      destruct (sel_limit q) as [n|]; [destruct (is_int64 n); [|discriminate]|];
        (destruct (is_int64 k); [reflexivity|discriminate]).
  - intros [Hl Ho].
    destruct (sel_limit q) as [n|]; [rewrite (Hl n eq_refl)|];
      (destruct (sel_offset q) as [k|]; [rewrite (Ho k eq_refl)|]; reflexivity).
Qed.

Lemma start_page (o : GetOrdersOptions) (kw sd ed : option string) :
  start (buildSelect o kw sd ed)
  = if int64_page o then Ok tt else Throw (SqliteError "datatype mismatch").
Proof.
  unfold start, must_be_int, int64_page, buildSelect, bind.
  cbn [sel_limit sel_offset].
  destruct (Opt.limit o) as [n|]; [destruct (is_int64 n)|];
    (destruct (Opt.offset o) as [k|]; [destruct (is_int64 k)|]); reflexivity.
Qed.

(** The steps of [getOrders], read off a successful call. *)
Lemma getOrders_ok (e : env) (db : conn) (o : GetOrdersOptions) (res : result) :
  getOrders e db o = Ok res <->
  exists bounds keyword startDate endDate t,
    yearBounds e (Opt.year o) = Ok bounds
    /\ searchBounds e (Opt.search o) bounds = Ok (keyword, startDate, endDate)
    /\ prepare db (buildSelect o keyword startDate endDate) = Ok t
    /\ start (buildSelect o keyword startDate endDate) = Ok tt
    /\ res = if Opt.countOnly o
             then Count match select_count t (buildSelect o keyword startDate endDate) with
                        | row_count :: _ => row_count
                        | [] => 0
                        end
             else Rows (map toOrder
                          (select_rows t (buildSelect o keyword startDate endDate))).
Proof.
  unfold getOrders, bind. split.
  - intros H.
    destruct (yearBounds e (Opt.year o)) as [bounds|] eqn:Hy; [|discriminate].
    destruct (searchBounds e (Opt.search o) bounds) as [[[kw sd] ed]|] eqn:Hs;
      [|discriminate].
    destruct (prepare db (buildSelect o kw sd ed)) as [t|] eqn:Hp; [|discriminate].
    destruct (start (buildSelect o kw sd ed)) as [[]|] eqn:Hi; [|discriminate].
    exists bounds, kw, sd, ed, t. repeat split; try assumption.
    destruct (Opt.countOnly o); injection H as <-; reflexivity.
  - intros (bounds & kw & sd & ed & t & Hy & Hs & Hp & Hi & ->).
    rewrite Hy, Hs, Hp, Hi. destruct (Opt.countOnly o); reflexivity.
Qed.

End QueryProperties.

Section QueryClaims.
Import JSDate VineTracker Samples.

(** C2.  With no pagination and no sort column, the count that count
    mode returns is the number of orders that row mode returns for the
    same options. *)
Theorem count_is_length_of_rows (e : env) (db : conn) (o : GetOrdersOptions)
    (l : list Order)
    (Hsort : Opt.sort o = None)
    (Hlimit : Opt.limit o = None)
    (Hoffset : Opt.offset o = None)
    (Hrows : getOrders e db (Opt.with_countOnly false o) = Ok (Rows l)) :
  getOrders e db (Opt.with_countOnly true o)
  = Ok (Count (Z.of_nat (List.length l))).
Proof.
  apply getOrders_ok in Hrows.
  destruct Hrows as (bounds & kw & sd & ed & t & Hy & Hs & Hp & Hi & Hres).
  simpl in Hres. injection Hres as ->.
  apply prepare_ok in Hp. destruct Hp as (_ & Ht & Hcols).
  apply getOrders_ok. exists bounds, kw, sd, ed, t.
  repeat split; try assumption.
  - apply prepare_ok. repeat split.
    + intros Ho. contradiction Ho.
    + exact Ht.
    + intros c Hc. apply Hcols. revert Hc.
      unfold referenced, buildSelect. simpl. rewrite Hsort. simpl.
      intros Hc. right. right. exact Hc.
  - simpl. unfold select_count, select_rows. simpl.
    rewrite Hlimit, Hoffset. simpl.
    rewrite length_map, (Permutation_length (order_by_perm _ _ _)).
    reflexivity.
Qed.

Lemma count_is_length_of_rows_witness :
  (Opt.sort Opt.none = None /\ Opt.limit Opt.none = None
   /\ Opt.offset Opt.none = None
   /\ getOrders utc dbTwo (Opt.with_countOnly false Opt.none)
      = Ok (Rows [toOrder rowKept]))
  /\ getOrders utc dbTwo (Opt.with_countOnly true Opt.none) = Ok (Count 1).
Proof.
  split.
  - repeat split; vm_compute; reflexivity.
  - exact (count_is_length_of_rows utc dbTwo Opt.none [toOrder rowKept]
             eq_refl eq_refl eq_refl ltac:(vm_compute; reflexivity)).
Defined.

(** The same statement for either value of [cancelled], up to the
    parameter it binds. *)
Lemma remaining_cancelled (b : bool) (o : GetOrdersOptions)
    (keyword startDate endDate : option string) (r : row) :
  remaining (buildSelect (Opt.with_cancelled b o) keyword startDate endDate) r
  = remaining (buildSelect o keyword startDate endDate) r.
Proof. reflexivity. Qed.

Lemma getOrders_cancelled_rows (e : env) (db : conn) (o : GetOrdersOptions)
    (b : bool) (l : list Order) :
  Opt.countOnly o = false ->
  getOrders e db (Opt.with_cancelled b o) = Ok (Rows l) ->
  exists bounds keyword startDate endDate t,
    yearBounds e (Opt.year o) = Ok bounds
    /\ searchBounds e (Opt.search o) bounds = Ok (keyword, startDate, endDate)
    /\ orders (view db) = Some t
    /\ l = map toOrder (select_rows t
              (buildSelect (Opt.with_cancelled b o) keyword startDate endDate)).
Proof.
  intros Hc H. apply getOrders_ok in H.
  destruct H as (bounds & kw & sd & ed & t & Hy & Hs & Hp & _ & Hres).
  simpl in Hres. rewrite Hc in Hres. injection Hres as ->.
  apply prepare_ok in Hp. destruct Hp as (_ & Ht & _).
  exists bounds, kw, sd, ed, t. repeat split; assumption.
Qed.

(** With nothing but [cancelled] given, [getOrders] returns the rows
    whose [cancelled] column holds that flag, all of them. *)
Lemma getOrders_cancelled_default (e : env) (db : conn) (t : table) (b : bool) :
  orders (view db) = Some t ->
  (forall c, In c ["etv"; "etvFactor"; "cancelled"; "orderedAt"] ->
             has_column t c = true) ->
  exists rs,
    getOrders e db (Opt.with_cancelled b Opt.none) = Ok (Rows (map toOrder rs))
    /\ Permutation rs
         (filter (fun r => is_true (int_eq (Row.cancelled r) (if b then 1 else 0)))
                 (rows t)).
Proof.
  intros Ht Hcols.
  exists (select_rows t (buildSelect (Opt.with_cancelled b Opt.none) None None None)).
  split.
  - apply getOrders_ok. exists (None, None), None, None, None, t.
    repeat split. apply prepare_ok. repeat split.
    + intros H. contradiction H. reflexivity.
    + exact Ht.
    + exact Hcols.
  - apply select_rows_perm; reflexivity.
Qed.

(** What [getOrders] does on a table that still has the integer column
    [cancelled]: with [cancelled=false] it returns exactly the rows whose
    [cancelled] is 0 and with [cancelled=true] exactly those whose
    [cancelled] is 1, among the rows that pass the remaining filters; no
    row is in both results. *)
Lemma getOrders_cancelled_flag (e : env) (db : conn) (o : GetOrdersOptions)
    (lf lt : list Order)
    (Hrows : Opt.countOnly o = false)
    (Hlimit : Opt.limit o = None)
    (Hoffset : Opt.offset o = None)
    (Hfalse : getOrders e db (Opt.with_cancelled false o) = Ok (Rows lf))
    (Htrue : getOrders e db (Opt.with_cancelled true o) = Ok (Rows lt)) :
  exists (t : table) (bounds : option string * option string)
         (keyword startDate endDate : option string) (rf rt : list row),
    orders (view db) = Some t
    /\ yearBounds e (Opt.year o) = Ok bounds
    /\ searchBounds e (Opt.search o) bounds = Ok (keyword, startDate, endDate)
    /\ lf = map toOrder rf /\ lt = map toOrder rt
    /\ Permutation rf
         (filter (fun r =>
                    is_true (int_eq (Row.cancelled r) 0)
                    && remaining (buildSelect o keyword startDate endDate) r)
                 (rows t))
    /\ Permutation rt
         (filter (fun r =>
                    is_true (int_eq (Row.cancelled r) 1)
                    && remaining (buildSelect o keyword startDate endDate) r)
                 (rows t))
    /\ (forall r, In r rf -> ~ In r rt).
Proof.
  destruct (getOrders_cancelled_rows e db o false lf Hrows Hfalse)
    as (bounds & kw & sd & ed & t & Hy & Hs & Ht & ->).
  destruct (getOrders_cancelled_rows e db o true lt Hrows Htrue)
    as (bounds' & kw' & sd' & ed' & t' & Hy' & Hs' & Ht' & ->).
  rewrite Hy in Hy'. injection Hy' as <-.
  rewrite Hs in Hs'. injection Hs' as <- <- <-.
  rewrite Ht in Ht'. injection Ht' as <-.
  exists t, bounds, kw, sd, ed.
  eexists. eexists. split; [exact Ht|]. split; [exact Hy|]. split; [exact Hs|].
  split; [reflexivity|]. split; [reflexivity|].
  assert (Hperm : forall b,
    Permutation
      (select_rows t (buildSelect (Opt.with_cancelled b o) kw sd ed))
      (filter (fun r => is_true (int_eq (Row.cancelled r) (if b then 1 else 0))
                        && remaining (buildSelect o kw sd ed) r) (rows t))).
  { intros b.
    eapply perm_trans; [apply select_rows_perm; assumption|].
    erewrite filter_ext; [apply Permutation_refl|].
    intros r. rewrite where_remaining, remaining_cancelled. reflexivity. }
  split; [apply (Hperm false)|]. split; [apply (Hperm true)|].
  intros r Hf Hin.
  apply (Permutation_in _ (Hperm false)) in Hf.
  apply (Permutation_in _ (Hperm true)) in Hin.
  apply filter_In in Hf. apply filter_In in Hin.
  destruct Hf as [_ Hf]. destruct Hin as [_ Hin].
  apply andb_true_iff in Hf. apply andb_true_iff in Hin.
  destruct Hf as [Hf _]. destruct Hin as [Hin _].
  destruct (Row.cancelled r) as [n|]; simpl in *; [|discriminate].
  destruct (Z.eqb_spec n 0), (Z.eqb_spec n 1); try discriminate. lia.
Qed.

Lemma getOrders_cancelled_flag_witness :
  (Opt.countOnly Opt.none = false /\ Opt.limit Opt.none = None
   /\ Opt.offset Opt.none = None
   /\ getOrders utc dbTwo (Opt.with_cancelled false Opt.none)
      = Ok (Rows [toOrder rowKept])
   /\ getOrders utc dbTwo (Opt.with_cancelled true Opt.none)
      = Ok (Rows [toOrder rowCancelled]))
  /\ exists (t : table) (bounds : option string * option string)
            (keyword startDate endDate : option string) (rf rt : list row),
       orders (view dbTwo) = Some t
       /\ yearBounds utc (Opt.year Opt.none) = Ok bounds
       /\ searchBounds utc (Opt.search Opt.none) bounds
          = Ok (keyword, startDate, endDate)
       /\ [toOrder rowKept] = map toOrder rf
       /\ [toOrder rowCancelled] = map toOrder rt
       /\ Permutation rf
            (filter (fun r =>
                       is_true (int_eq (Row.cancelled r) 0)
                       && remaining (buildSelect Opt.none keyword startDate endDate) r)
                    (rows t))
       /\ Permutation rt
            (filter (fun r =>
                       is_true (int_eq (Row.cancelled r) 1)
                       && remaining (buildSelect Opt.none keyword startDate endDate) r)
                    (rows t))
       /\ (forall r, In r rf -> ~ In r rt).
Proof.
  split.
  - repeat split; vm_compute; reflexivity.
  - exact (getOrders_cancelled_flag utc dbTwo Opt.none
             [toOrder rowKept] [toOrder rowCancelled]
             eq_refl eq_refl eq_refl
             ltac:(vm_compute; reflexivity) ltac:(vm_compute; reflexivity)).
Defined.

(** C4 fails on the code: [LIMIT] and [OFFSET] stay in the count-mode
    statement and apply to its single result row.  One order matches;
    with [limit: 10, offset: 1] the count comes back 0, and with an
    offset alone the statement does not parse. *)
Theorem count_with_offset :
  getOrders utc dbTwo (Opt.with_countOnly true Opt.none) = Ok (Count 1)
  /\ getOrders utc dbTwo
       (Opt.with_page (Some 10) (Some 1) (Opt.with_countOnly true Opt.none))
     = Ok (Count 0)
  /\ getOrders utc dbTwo
       (Opt.with_page None (Some 1) (Opt.with_countOnly true Opt.none))
     = Throw (SqliteError "near OFFSET: syntax error").
Proof. repeat split; vm_compute; reflexivity. Qed.

(** The part of C4 that the code does keep: in count mode [sort] and
    [dir] are not looked at. *)
Lemma count_ignores_sort (e : env) (db : conn) (o : GetOrdersOptions)
    (c d : option string) :
  Opt.countOnly o = true ->
  getOrders e db (Opt.with_sort c d o) = getOrders e db o.
Proof.
  intros Hc.
  assert (Hq : forall kw sd ed,
             buildSelect (Opt.with_sort c d o) kw sd ed = buildSelect o kw sd ed).
  { intros kw sd ed. unfold buildSelect. simpl. rewrite Hc. simpl.
    destruct c, (Opt.sort o); reflexivity. }
  unfold getOrders.
  change (Opt.year (Opt.with_sort c d o)) with (Opt.year o).
  change (Opt.search (Opt.with_sort c d o)) with (Opt.search o).
  change (Opt.countOnly (Opt.with_sort c d o)) with (Opt.countOnly o).
  destruct (yearBounds e (Opt.year o)) as [bounds|]; [|reflexivity].
  cbn [bind].
  destruct (searchBounds e (Opt.search o) bounds) as [[[kw sd] ed]|]; [|reflexivity].
  cbn [bind]. rewrite Hq. reflexivity.
Qed.

(** C10.  Every order that row mode returns is [toOrder] of a stored
    row, and its [deliveredAt] is a [Date] in every case: for a row
    whose [deliveredAt] is [NULL] it is the epoch, the same value a row
    delivered at 1970-01-01T00:00:00.000Z gets. *)
Theorem deliveredAt_null_is_epoch (e : env) (db : conn) (o : GetOrdersOptions)
    (l : list Order) (order : Order)
    (Hrows : getOrders e db o = Ok (Rows l))
    (Hin : In order l) :
  (exists (t : table) (r : row),
     orders (view db) = Some t /\ In r (rows t) /\ order = toOrder r
     /\ (Row.deliveredAt r = None -> Order.deliveredAt order = TimeValue 0))
  /\ ofValue None = ofValue (Some "1970-01-01T00:00:00.000Z").
Proof.
  split; [|vm_compute; reflexivity].
  apply getOrders_ok in Hrows.
  destruct Hrows as (bounds & kw & sd & ed & t & Hy & Hs & Hp & _ & Hres).
  destruct (Opt.countOnly o); [discriminate|]. injection Hres as ->.
  apply in_map_iff in Hin. destruct Hin as (r & <- & Hr).
  apply select_rows_In in Hr. destruct Hr as [Hr _].
  apply prepare_ok in Hp. destruct Hp as (_ & Ht & _).
  exists t, r. repeat split; try assumption.
  intros Hnull. unfold toOrder. simpl. rewrite Hnull. reflexivity.
Qed.

Lemma deliveredAt_null_is_epoch_witness :
  (getOrders utc dbTwo (Opt.with_cancelled true Opt.none)
   = Ok (Rows [toOrder rowCancelled])
   /\ In (toOrder rowCancelled) [toOrder rowCancelled])
  /\ (exists (t : table) (r : row),
        orders (view dbTwo) = Some t /\ In r (rows t)
        /\ toOrder rowCancelled = toOrder r
        /\ (Row.deliveredAt r = None ->
            Order.deliveredAt (toOrder rowCancelled) = TimeValue 0))
  /\ ofValue None = ofValue (Some "1970-01-01T00:00:00.000Z").
Proof.
  assert (H1 : getOrders utc dbTwo (Opt.with_cancelled true Opt.none)
               = Ok (Rows [toOrder rowCancelled])) by (vm_compute; reflexivity).
  assert (H2 : In (toOrder rowCancelled) [toOrder rowCancelled]) by (left; reflexivity).
  split; [split; assumption|].
  exact (deliveredAt_null_is_epoch utc dbTwo (Opt.with_cancelled true Opt.none)
           [toOrder rowCancelled] (toOrder rowCancelled) H1 H2).
Defined.

End QueryClaims.

Section PointUpdateAndReport.
Import JSDate VineTracker Samples.

(** C9.  [setETVReasonForOrder] with the empty string stores [NULL]: every
    row of that order number then reads an absent [etvReason], through
    [toOrder] as well, and never the empty string; any other string is
    stored as it is. *)
Theorem setETVReason_empty_is_null (db : conn) (t : table) (n reason : string)
    (Htable : orders (view db) = Some t)
    (HetvReason : has_column t "etvReason" = true)
    (Hnumber : has_column t "number" = true) :
  exists (db' : conn) (t' : table),
    setETVReasonForOrder db n (Some reason) = Ok db'
    /\ orders (view db') = Some t'
    /\ List.length (rows t') = List.length (rows t)
    /\ (forall r, In r (rows t) -> Row.number r = Some n ->
          exists r', In r' (rows t') /\ Row.number r' = Some n)
    /\ (forall r', In r' (rows t') -> Row.number r' = Some n ->
          Row.etvReason r' = (if String.eqb reason "" then None else Some reason)
          /\ Order.etvReason (toOrder r') = Row.etvReason r'
          /\ Row.etvReason r' <> Some "").
Proof.
  set (v := if String.eqb reason "" then None else Some reason).
  set (upd := fun r : row =>
                if is_true (text_eq (Row.number r) n) then set_etvReason v r else r).
  exists (match txn db with
          | Some w => mkConn (committed db)
                        (Some (mkStore (user_version w)
                                 (Some (mkTable (columns t) (map upd (rows t))))))
          | None => mkConn (mkStore (user_version (committed db))
                              (Some (mkTable (columns t) (map upd (rows t))))) None
          end).
  exists (mkTable (columns t) (map upd (rows t))).
  assert (Hmiss : missing_column t ["etvReason"; "number"] = None).
  { apply missing_column_none. intros c [<-|[<-|[]]]; assumption. }
  assert (Hv : match Some reason with
               | Some s => if String.eqb s "" then None else Some reason
               | None => Some reason
               end = v) by reflexivity.
  split.
  { unfold setETVReasonForOrder. rewrite Hv. unfold write, update_etvReason.
    unfold view in Htable. destruct (txn db) as [w|]; rewrite Htable, Hmiss;
      reflexivity. }
  split. { unfold view. destruct (txn db); reflexivity. }
  split. { simpl. apply length_map. }
  assert (Hnum : forall r, Row.number (upd r) = Row.number r).
  { intros r. unfold upd. destruct (is_true _); reflexivity. }
  split.
  { intros r Hr Hrn. exists (upd r). split.
    - simpl. apply in_map. exact Hr.
    - now rewrite Hnum. }
  intros r' Hr' Hrn. simpl in Hr'. apply in_map_iff in Hr'.
  destruct Hr' as (r & <- & Hr). rewrite Hnum in Hrn.
  assert (Hset : upd r = set_etvReason v r).
  { unfold upd, text_eq. rewrite Hrn. simpl. now rewrite String.eqb_refl. }
  rewrite Hset. simpl. repeat split.
  unfold v. destruct (String.eqb_spec reason ""); congruence.
Qed.

(** Clearing the reason of the standing order of the sample store. *)
Lemma setETVReason_empty_is_null_witness :
  (orders (view dbTwo) = Some (mkTable v1_columns [rowKept; rowCancelled])
   /\ has_column (mkTable v1_columns [rowKept; rowCancelled]) "etvReason" = true
   /\ has_column (mkTable v1_columns [rowKept; rowCancelled]) "number" = true)
  /\ exists (db' : conn) (t' : table),
       setETVReasonForOrder dbTwo "111-1" (Some "") = Ok db'
       /\ orders (view db') = Some t'
       /\ List.length (rows t') = List.length [rowKept; rowCancelled]
       /\ (forall r, In r [rowKept; rowCancelled] -> Row.number r = Some "111-1" ->
             exists r', In r' (rows t') /\ Row.number r' = Some "111-1")
       /\ (forall r', In r' (rows t') -> Row.number r' = Some "111-1" ->
             Row.etvReason r' = None
             /\ Order.etvReason (toOrder r') = Row.etvReason r'
             /\ Row.etvReason r' <> Some "").
Proof.
  split.
  - repeat split; reflexivity.
  - exact (setETVReason_empty_is_null dbTwo
             (mkTable v1_columns [rowKept; rowCancelled]) "111-1" ""
             eq_refl eq_refl eq_refl).
Defined.

(** The loop of [getMonthlyBreakdown] runs its twelve rounds and stops:
    more rounds change nothing. *)
Lemma monthLoop_enough (e : env) (orders : list Order) (rounds : nat) :
  (12 <= rounds)%nat ->
  monthLoop e orders rounds 0 [] = getMonthlyBreakdown e orders.
Proof.
  intros H. do 12 (destruct rounds as [|rounds]; [lia|]).
  unfold getMonthlyBreakdown. simpl. destruct rounds; reflexivity.
Qed.

Lemma getMonthlyBreakdown_unfold (e : env) (orders : list Order) :
  getMonthlyBreakdown e orders
  = map (breakdownFor e orders) [0; 1; 2; 3; 4; 5; 6; 7; 8; 9; 10; 11].
Proof. reflexivity. Qed.

(** Where every order has a factor the code and the specification add
    up the same terms. *)
Lemma adjusted_total_with_factors (bucket : list Order) (acc : float) :
  (forall o, In o bucket -> Order.etvFactor o <> None) ->
  fold_left (fun sum o => (sum + adjusted o)%float) bucket acc
  = fold_left (fun sum o => (sum + spec_adjustedEtv o)%float) bucket acc.
Proof.
  revert acc. induction bucket as [|o bucket IH]; intros acc H; simpl.
  - reflexivity.
  - assert (Ho : adjusted o = spec_adjustedEtv o).
    { unfold adjusted, spec_adjustedEtv.
      destruct (Order.etvFactor o) eqn:Hf; [reflexivity|].
      exfalso. apply (H o); [now left | exact Hf]. }
    rewrite Ho. apply IH. intros o' Ho'. apply H. now right.
Qed.

(** C6, amended.  [getMonthlyBreakdown] returns twelve buckets; bucket
    [m + 1] holds the orders of month [m], and its [totalAdjustedEtv]
    adds [etv * etvFactor] for an order that has a factor and the whole
    [etv] for an order that has none.  It is the sum of
    [etv * (etvFactor ?? 0)] when every order of the bucket has a
    factor. *)
Theorem monthly_breakdown_buckets (e : env) (orders : list Order) (m : Z)
    (Hm : 0 <= m < 12) :
  List.length (getMonthlyBreakdown e orders) = 12%nat
  /\ (let bucket := filter (inMonth e m) orders in
      nth_error (getMonthlyBreakdown e orders) (Z.to_nat m)
      = Some (mkMonthly (m + 1) (Z.of_nat (List.length bucket))
                (fold_left (fun sum o => (sum + toNumber (Order.etv o))%float)
                           bucket 0%float)
                (fold_left
                   (fun sum o =>
                      (sum + match Order.etvFactor o with
                             | Some f => toNumber (Order.etv o) * f
                             | None => toNumber (Order.etv o)
                             end)%float)
                   bucket 0%float))
      /\ ((forall o, In o bucket -> Order.etvFactor o <> None) ->
          option_map totalAdjustedEtv
            (nth_error (getMonthlyBreakdown e orders) (Z.to_nat m))
          = Some (spec_totalAdjustedEtv bucket))).
Proof.
  split; [reflexivity|].
  assert (Hnth : nth_error (getMonthlyBreakdown e orders) (Z.to_nat m)
                 = Some (breakdownFor e orders m)).
  { rewrite getMonthlyBreakdown_unfold.
    assert (Hcases : m = 0 \/ m = 1 \/ m = 2 \/ m = 3 \/ m = 4 \/ m = 5 \/ m = 6
                     \/ m = 7 \/ m = 8 \/ m = 9 \/ m = 10 \/ m = 11) by lia.
    repeat (destruct Hcases as [->|Hcases]; [reflexivity|]).
    subst m. reflexivity. }
  intros bucket. split.
  - rewrite Hnth. reflexivity.
  - intros Hall. rewrite Hnth. simpl. f_equal.
    apply adjusted_total_with_factors. exact Hall.
Qed.

Lemma monthly_breakdown_buckets_witness :
  (0 <= 0 < 12)
  /\ List.length (getMonthlyBreakdown utc [orderUnadjusted]) = 12%nat
  /\ nth_error (getMonthlyBreakdown utc [orderUnadjusted]) 0
     = Some (mkMonthly 1 1 10%float 10%float).
Proof.
  split; [lia|].
  pose proof (monthly_breakdown_buckets utc [orderUnadjusted] 0
                ltac:(lia)) as [Hlen [Hbucket _]].
  split; [exact Hlen|]. exact Hbucket.
Defined.

(** C6 as stated fails: an order of January without a factor adds its
    whole [etv], 10, to the adjusted total of its bucket, where
    [etv * (etvFactor ?? 0)] is 0. *)
Lemma monthly_adjusted_counterexample :
  map totalAdjustedEtv (getMonthlyBreakdown utc [orderUnadjusted])
  <> map (fun m => spec_totalAdjustedEtv (filter (inMonth utc m) [orderUnadjusted]))
         [0; 1; 2; 3; 4; 5; 6; 7; 8; 9; 10; 11].
Proof.
  intros H.
  apply (f_equal (fun l => match l with
                           | x :: _ => PrimFloat.eqb x 10%float
                           | [] => false
                           end)) in H.
  vm_compute in H. discriminate.
Qed.

End PointUpdateAndReport.

Section DayAndYearClaims.
Import JSDate VineTracker Samples.

Lemma isoString_truthy (t : Z) : truthy_string (Some (isoString t)) = true.
Proof.
  unfold truthy_string, isoString.
  destruct (isoYear (YearFromTime t)); reflexivity.
Qed.

(** The bound of a day search: the local day that [setFullYear] makes of
    the three numbers, whatever was in [startDate] and [endDate]. *)
Lemma searchBounds_day (e : env) (s : string) (y m d : Z)
    (bounds : option string * option string) :
  bounded_zone (tz e) ->
  regular_day (tz e) (MakeDay y (m - 1) d) ->
  is_date_pattern s = true ->
  safeParseInt (nth_error (split "-" s) 0) = Some y ->
  safeParseInt (nth_error (split "-" s) 1) = Some m ->
  safeParseInt (nth_error (split "-" s) 2) = Some d ->
  y <> 0 -> m <> 0 -> d <> 0 ->
  searchBounds e (Some s) bounds
  = Ok (None,
        Some (isoString (UTC (tz e) (MakeDate (MakeDay y (m - 1) d) 0))),
        Some (isoString (UTC (tz e) (MakeDate (MakeDay y (m - 1) d) 86399999)))).
Proof.
  intros Hz Hreg Hpat Hy Hm Hd Hy0 Hm0 Hd0.
  destruct (date_pattern_parts s Hpat) as (y' & m' & d' & Hy' & Hm' & Hd' & Ry & Rm & Rd).
  rewrite Hy in Hy'. rewrite Hm in Hm'. rewrite Hd in Hd'.
  injection Hy' as <-. injection Hm' as <-. injection Hd' as <-.
  unfold searchBounds, truthy_string.
  assert (Hne : String.eqb s "" = false) by (destruct s; [discriminate | reflexivity]).
  rewrite Hne, Hpat, Hy, Hm, Hd. cbn [negb].
  destruct (Z.eqb_spec y 0); [contradiction|].
  destruct (Z.eqb_spec m 0); [contradiction|].
  destruct (Z.eqb_spec d 0); [contradiction|]. cbn [orb].
  rewrite day_start by (assumption || lia). cbn [toISOString bind].
  rewrite day_end by (assumption || (apply MakeDay_bound; lia)).
  reflexivity.
Qed.

(** The host of the samples on the day its clock went forward: the
    offsets stay within a day, and 10 March 2024 is a regular day of 23
    hours. *)
Lemma eastern_bounded : bounded_zone eastern.
Proof.
  intros t. unfold eastern, msPerDay. cbn [offsetAt offsetFor].
  split; destruct (_ || _); lia.
Qed.

Lemma eastern_spring_forward : regular_day eastern (MakeDay 2024 2 10).
Proof.
  change (MakeDay 2024 2 10) with 19792. split.
  - intros l Hl. pose proof (Day_near l) as Hd. rewrite Hl in Hd.
    unfold msPerDay in Hd.
    unfold LocalTime, UTC, eastern. cbn [offsetAt offsetFor].
    repeat match goal with
           | |- context [?a <? ?b] => destruct (Z.ltb_spec a b)
           | |- context [?a <=? ?b] => destruct (Z.leb_spec a b)
           end; cbn [orb]; unfold Day, msPerDay; Z.div_mod_to_equations; lia.
  - intros t.
    change (UTC eastern (MakeDate 19792 0)) with 1710046800000.
    change (UTC eastern (MakeDate 19792 86399999)) with 1710129599999.
    unfold LocalTime, eastern. cbn [offsetAt].
    repeat match goal with
           | |- context [?a <? ?b] => destruct (Z.ltb_spec a b)
           | |- context [?a <=? ?b] => destruct (Z.leb_spec a b)
           end; cbn [orb]; unfold Day, msPerDay;
      split; intros H1; Z.div_mod_to_equations; lia.
Qed.

(** C5.  When [search] has the form [YYYY-MM-DD] and names a date of
    the calendar, the date column that [byDelivered] selects is bounded
    to that day in local time: [startDate] is the instant of 00:00:00.000
    and [endDate] the instant of 23:59:59.999 of the day on the host's
    clock.  A [year] given as well has no effect: the call returns what
    it returns without the year (for a year that the caller may pass,
    2000 to 3000 by the specification; any year from -200000 to 200000
    will do).  There is no keyword condition, row mode returns the rows
    that pass the bound and the other filters, and a stored
    four-digit-year instant passes the bound exactly when its local year,
    month and day of the month are those of the search.  The host is one
    whose offsets from UTC stay within a day and whose clock runs
    through the day searched in order, with or without a change to or
    from daylight saving within it. *)
Theorem search_day_supersedes_year (e : env) (db : conn) (o : GetOrdersOptions)
    (s : string) (y m d : Z)
    (Hzone : bounded_zone (tz e))
    (Hyear : match Opt.year o with
             | Some yr => -200000 <= yr <= 200000
             | None => True
             end)
    (Hsearch : Opt.search o = Some s)
    (Hpattern : is_date_pattern s = true)
    (Hy : safeParseInt (nth_error (split "-" s) 0) = Some y)
    (Hm : safeParseInt (nth_error (split "-" s) 1) = Some m)
    (Hd : safeParseInt (nth_error (split "-" s) 2) = Some d)
    (Hdate : calendar_date y m d = true)
    (Hday : regular_day (tz e) (MakeDay y (m - 1) d)) :
  let day := MakeDay y (m - 1) d in
  let start := UTC (tz e) (MakeDate day (MakeTime 0 0 0 0)) in
  let finish := UTC (tz e) (MakeDate day (MakeTime 23 59 59 999)) in
  let q := buildSelect o None (Some (isoString start)) (Some (isoString finish)) in
  getOrders e db o = getOrders e db (Opt.with_year None o)
  /\ (sel_keyword q = None
      /\ sel_startDate q = Some (isoString start)
      /\ sel_endDate q = Some (isoString finish)
      /\ sel_dateColumn q = if Opt.byDelivered o then "deliveredAt" else "orderedAt")
  /\ (forall l, Opt.countOnly o = false ->
        Opt.limit o = None -> Opt.offset o = None ->
        getOrders e db o = Ok (Rows l) ->
        exists (t : table) (rs : list row),
          orders (view db) = Some t /\ l = map toOrder rs
          /\ Permutation rs
               (filter (fun r =>
                          is_true (int_eq (Row.cancelled r) (sel_cancelled q))
                          && remaining q r)
                       (rows t)))
  /\ (forall t, iso_range t -> iso_range start -> iso_range finish ->
        (String.leb (isoString start) (isoString t)
         && String.leb (isoString t) (isoString finish) = true
         <-> YearFromTime (LocalTime (tz e) t) = y
             /\ MonthFromTime (LocalTime (tz e) t) + 1 = m
             /\ DateFromTime (LocalTime (tz e) t) = d)).
Proof.
  intros day start finish q.
  assert (Hparts : y <> 0 /\ m <> 0 /\ d <> 0).
  { unfold calendar_date in Hdate.
    repeat (apply andb_true_iff in Hdate as [Hdate ?]).
    repeat match goal with
           | H : (_ <=? _) = true |- _ => apply Z.leb_le in H
           end.
    lia. }
  destruct Hparts as (Hy0 & Hm0 & Hd0).
  assert (Hsb : forall bounds,
             searchBounds e (Opt.search o) bounds
             = Ok (None, Some (isoString start), Some (isoString finish))).
  { intros bounds. rewrite Hsearch. apply searchBounds_day; assumption. }
  split; [|split; [|split]].
  - destruct (yearBounds_ok e (Opt.year o) Hzone Hyear) as [bounds Hb].
    unfold getOrders.
    change (Opt.year (Opt.with_year None o)) with (@None Z).
    change (Opt.search (Opt.with_year None o)) with (Opt.search o).
    change (Opt.countOnly (Opt.with_year None o)) with (Opt.countOnly o).
    rewrite Hb. cbn [yearBounds bind]. rewrite !Hsb. reflexivity.
  - unfold q, buildSelect.
    cbn [sel_keyword sel_startDate sel_endDate sel_dateColumn].
    rewrite !isoString_truthy. repeat split.
  - intros l Hrows Hlimit Hoffset Hget.
    apply getOrders_ok in Hget.
    destruct Hget as (bounds & kw & sd & ed & t & _ & Hs & Hp & _ & Hres).
    rewrite Hsb in Hs. injection Hs as <- <- <-.
    rewrite Hrows in Hres. injection Hres as ->.
    apply prepare_ok in Hp. destruct Hp as (_ & Ht & _).
    exists t. eexists. split; [exact Ht|]. split; [reflexivity|].
    eapply perm_trans; [apply select_rows_perm; assumption|].
    erewrite filter_ext; [apply Permutation_refl|].
    intros r. apply where_remaining.
  - intros t Rt Rs Rf.
    rewrite andb_true_iff, !isoString_leb by assumption.
    rewrite <- (calendar_date_fields y m d (LocalTime (tz e) t) Hdate).
    destruct Hday as [_ Hday]. exact (Hday t).
Qed.

(** A search for 10 March 2024 on the host on Eastern time, with the
    year 2023 given as well: the day has 23 hours there, from 05:00 UTC
    to 03:59:59.999 UTC of the next day, and of the two orders the one
    placed at 23:30 local time is returned. *)
Lemma search_day_supersedes_year_witness :
  (bounded_zone (tz easternHost)
   /\ match Opt.year optsSpring with
      | Some yr => -200000 <= yr <= 200000
      | None => True
      end
   /\ Opt.search optsSpring = Some "2024-03-10"
   /\ is_date_pattern "2024-03-10" = true
   /\ safeParseInt (nth_error (split "-" "2024-03-10") 0) = Some 2024
   /\ safeParseInt (nth_error (split "-" "2024-03-10") 1) = Some 3
   /\ safeParseInt (nth_error (split "-" "2024-03-10") 2) = Some 10
   /\ calendar_date 2024 3 10 = true
   /\ regular_day (tz easternHost) (MakeDay 2024 (3 - 1) 10))
  /\ getOrders easternHost dbSpring optsSpring
     = getOrders easternHost dbSpring (Opt.with_year None optsSpring)
  /\ searchBounds easternHost (Some "2024-03-10") (None, None)
     = Ok (None, Some "2024-03-10T05:00:00.000Z", Some "2024-03-11T03:59:59.999Z")
  /\ getOrders easternHost dbSpring optsSpring = Ok (Rows [toOrder rowLateEvening]).
Proof.
  assert (H1 : bounded_zone (tz easternHost)) by exact eastern_bounded.
  assert (H2 : match Opt.year optsSpring with
               | Some yr => -200000 <= yr <= 200000
               | None => True
               end) by (vm_compute; split; discriminate).
  assert (H3 : regular_day (tz easternHost) (MakeDay 2024 (3 - 1) 10))
    by exact eastern_spring_forward.
  split.
  { split; [exact H1|]. split; [exact H2|].
    repeat (split; [reflexivity|]). exact H3. }
  split; [|split].
  - exact (proj1 (search_day_supersedes_year easternHost dbSpring optsSpring
                    "2024-03-10" 2024 3 10
                    H1 H2 eq_refl eq_refl eq_refl eq_refl eq_refl eq_refl H3)).
  - vm_compute. reflexivity.
  - vm_compute. reflexivity.
Defined.

(** Searches of the form [YYYY-MM-DD] that name no date of the calendar:
    with a zero month the call throws, and 31 February passes the check
    and gives the orders of 2 March, the day that [setFullYear] makes of
    the three numbers. *)
Example search_day_that_is_no_date :
  calendar_date 2024 0 15 = false
  /\ getOrders utc dbEve (Opt.with_search (Some "2024-00-15") Opt.none)
     = Throw (Error "Invalid date")
  /\ calendar_date 2024 2 31 = false
  /\ Row.orderedAt rowMarch2 = Some "2024-03-02T09:00:00.000Z"
  /\ getOrders utc dbMarch (Opt.with_search (Some "2024-02-31") Opt.none)
     = Ok (Rows [toOrder rowMarch2]).
Proof. repeat split; vm_compute; reflexivity. Qed.

(** The year is not looked at for a day search, but its bound is
    computed first: a year that no [Date] can hold stops the call before
    the search is read. *)
Example search_day_with_year_300000 :
  getOrders utc dbEve (Opt.with_year (Some 300000) (Opt.with_search (Some "2024-12-31") Opt.none))
  = Throw (RangeError "Invalid time value")
  /\ getOrders utc dbEve (Opt.with_search (Some "2024-12-31") Opt.none)
     = Ok (Rows [toOrder rowNewYearsEve]).
Proof. split; vm_compute; reflexivity. Qed.

(** C3 fails on the code: the year bound ends at 11:59:59.999 in the
    morning of 31 December ([setHours(11, ...)]), so an order placed at
    20:00 that day is not returned for its year, while the day search,
    whose bound ends at 23:59:59.999, does return it. *)
Theorem year_bound_ends_at_noon :
  yearBounds utc (Some 2024)
  = Ok (Some "2024-01-01T00:00:00.000Z", Some "2024-12-31T11:59:59.999Z")
  /\ Row.orderedAt rowNewYearsEve = Some "2024-12-31T20:00:00.000Z"
  /\ getOrders utc dbEve (Opt.with_year (Some 2024) Opt.none) = Ok (Rows [])
  /\ getOrders utc dbEve (Opt.with_search (Some "2024-12-31") Opt.none)
     = Ok (Rows [toOrder rowNewYearsEve]).
Proof. repeat split; vm_compute; reflexivity. Qed.

End DayAndYearClaims.

(** ** Writes to the table *)

Section WriteProperties.
Import JSDate VineTracker.

Lemma conn_eta (c : conn) : mkConn (committed c) (txn c) = c.
Proof. destruct c; reflexivity. Qed.

Lemma store_eta (s : store) : mkStore (user_version s) (orders s) = s.
Proof. destruct s; reflexivity. Qed.

Lemma table_eta (t : table) : mkTable (columns t) (rows t) = t.
Proof. destruct t; reflexivity. Qed.

(** A write that returns has run on what the connection sees, and the
    connection sees its result; it neither opens nor closes a
    transaction. *)
Lemma write_ok (f : store -> outcome store) (db db' : conn) :
  write f db = Ok db' <->
  exists s', f (view db) = Ok s' /\ db' = written db s'.
Proof.
  unfold write, view, written. destruct (txn db) as [w|]; unfold bind.
  - destruct (f w) as [s'|err]; split.
    + intros [= <-]. exists s'. split; reflexivity.
    + intros (s2 & [= <-] & ->). reflexivity.
    + discriminate.
    + intros (s2 & Hs & _). discriminate.
  - destruct (f (committed db)) as [s'|err]; split.
    + intros [= <-]. exists s'. split; reflexivity.
    + intros (s2 & [= <-] & ->). reflexivity.
    + discriminate.
    + intros (s2 & Hs & _). discriminate.
Qed.

Lemma view_written (db : conn) (s' : store) : view (written db s') = s'.
Proof. unfold view, written. destruct (txn db); reflexivity. Qed.

Lemma written_view (db : conn) : written db (view db) = db.
Proof. unfold view, written. destruct db as [s [w|]]; reflexivity. Qed.

Lemma txn_written (db : conn) (s' : store) :
  txn (written db s') = None <-> txn db = None.
Proof. unfold written. destruct (txn db); cbn; split; congruence. Qed.

Lemma written_written (db : conn) (s1 s2 : store) :
  written (written db s1) s2 = written db s2.
Proof. unfold written. destruct (txn db); reflexivity. Qed.

(** A write whose statement changes nothing leaves the connection as it
    was. *)
Lemma write_same (f : store -> outcome store) (db : conn) :
  f (view db) = Ok (view db) -> write f db = Ok db.
Proof.
  intros H. apply write_ok. exists (view db). split; [exact H|].
  symmetry. apply written_view.
Qed.

Lemma resolve_ok (complaint : string) (cols : list string) (s : store) (t : table) :
  resolve complaint cols s = Ok t <->
  orders s = Some t /\ forall c, In c cols -> has_column t c = true.
Proof.
  unfold resolve. destruct (orders s) as [t0|].
  - destruct (missing_column t0 cols) as [c|] eqn:Hm.
    + split; [discriminate|]. intros [[= ->] Hall].
      apply missing_column_none in Hall. congruence.
    + split.
      * intros [= ->]. split; [reflexivity|]. now apply missing_column_none.
      * intros [[= ->] _]. reflexivity.
  - split; [discriminate|]. intros [H _]. discriminate.
Qed.

Lemma write_ext (f g : store -> outcome store) (db : conn) :
  (forall s, f s = g s) -> write f db = write g db.
Proof. intros H. unfold write. destruct (txn db); now rewrite H. Qed.

(** The update of [setETVReasonForOrder] is an instance of the common
    shape. *)
Lemma update_etvReason_shape (n : string) (reason : option string) (s : store) :
  update_etvReason n reason s
  = update_where_number "etvReason" (set_etvReason reason) n s.
Proof.
  unfold update_etvReason, update_where_number, resolve, bind.
  destruct (orders s) as [t|]; [|reflexivity].
  destruct (missing_column t ["etvReason"; "number"]); reflexivity.
Qed.

(** An update under a number that no row has changes nothing. *)
Lemma update_unknown_number (col : string) (set : row -> row) (n : string)
    (s : store) (t : table) :
  orders s = Some t ->
  has_column t col = true -> has_column t "number" = true ->
  (forall r, In r (rows t) -> Row.number r <> Some n) ->
  update_where_number col set n s = Ok s.
Proof.
  intros Ht Hc Hn Hnone. unfold update_where_number.
  assert (Hr : resolve "no such column: " [col; "number"] s = Ok t).
  { apply resolve_ok. split; [exact Ht|].
    intros c [<-|[<-|[]]]; assumption. }
  rewrite Hr. cbn [bind]. f_equal.
  destruct s as [v o]. cbn [orders user_version] in *. subst o. do 2 f_equal.
  destruct t as [cs rs]. cbn [columns rows] in *. f_equal.
  transitivity (map (fun r : row => r) rs); [|apply map_id].
  apply map_ext_in.
  intros r Hin. specialize (Hnone r Hin).
  unfold text_eq. destruct (Row.number r) as [m|]; [|reflexivity].
  cbn. destruct (String.eqb_spec m n) as [->|]; [congruence | reflexivity].
Qed.

(** What an update that returns has done. *)
Lemma update_where_number_ok (col : string) (set : row -> row) (n : string)
    (db db' : conn) :
  write (update_where_number col set n) db = Ok db' <->
  exists t,
    orders (view db) = Some t
    /\ has_column t col = true /\ has_column t "number" = true
    /\ db' = written db
               (with_table (view db)
                  (with_rows t
                     (map (fun r => if is_true (text_eq (Row.number r) n)
                                    then set r else r)
                          (rows t)))).
Proof.
  rewrite write_ok. unfold update_where_number. split.
  - intros (s' & Hs & ->).
    destruct (resolve "no such column: " [col; "number"] (view db)) as [t|] eqn:Hr;
      [|discriminate].
    cbn [bind] in Hs. injection Hs as <-.
    apply resolve_ok in Hr as [Ht Hcols].
    exists t. split; [exact Ht|].
    split; [apply Hcols; left; reflexivity|].
    split; [apply Hcols; right; left; reflexivity|]. reflexivity.
  - intros (t & Ht & Hc & Hn & ->).
    assert (Hr : resolve "no such column: " [col; "number"] (view db) = Ok t).
    { apply resolve_ok. split; [exact Ht|].
      intros c [<-|[<-|[]]]; assumption. }
    rewrite Hr. cbn [bind]. eexists. split; reflexivity.
Qed.

End WriteProperties.

(** ** maybeInsertOrder *)

Section InsertProperties.
Import JSDate VineTracker Samples.

Lemma toISOString_valid (dt : Date) :
  valid dt = true -> toISOString dt = Ok (rendered dt).
Proof. destruct dt; [reflexivity | discriminate]. Qed.

Lemma toISOString_ok (dt : Date) (s : string) :
  toISOString dt = Ok s -> valid dt = true /\ s = rendered dt.
Proof. destruct dt; cbn; [intros [= <-]; split; reflexivity | discriminate]. Qed.

(** What a call of [maybeInsertOrder] that returns has done. *)
Lemma maybeInsertOrder_ok (db : conn) (order : NewOrder) (db' : conn) :
  maybeInsertOrder db order = Ok db' <->
  exists t,
    orders (view db) = Some t
    /\ missing_column t inserted_columns = None
    /\ valid_dates order = true
    /\ db' = if has_number t (NewOrder.number order) then db
             else written db (with_table (view db)
                                (with_rows t (rows t ++ [rowOf order]))).
Proof.
  unfold maybeInsertOrder, valid_dates, rowOf. split.
  - destruct (resolve _ inserted_columns (view db)) as [t|] eqn:Hr; [|discriminate].
    cbn [bind]. pose proof Hr as Hr'. apply resolve_ok in Hr' as [Ht Hcols].
    destruct (toISOString (NewOrder.orderedAt order)) as [o1|] eqn:H1;
      [|discriminate].
    apply toISOString_ok in H1 as [V1 ->]. cbn [bind].
    destruct (NewOrder.deliveredAt order) as [dt|].
    + destruct (toISOString dt) as [o2|] eqn:H2; [|discriminate].
      apply toISOString_ok in H2 as [V2 ->]. cbn [bind].
      intros H. apply write_ok in H as (s' & Hs & ->).
      unfold insert_or_ignore in Hs. rewrite Hr in Hs. cbn [bind] in Hs.
      exists t. split; [exact Ht|]. split; [now apply missing_column_none|].
      split; [now rewrite V1, V2|].
      cbn [Row.number insertedRow] in Hs. fold (has_number t (NewOrder.number order)) in Hs.
      destruct (has_number t (NewOrder.number order)).
      * injection Hs as <-. apply written_view.
      * injection Hs as <-. reflexivity.
    + cbn [bind]. intros H. apply write_ok in H as (s' & Hs & ->).
      unfold insert_or_ignore in Hs. rewrite Hr in Hs. cbn [bind] in Hs.
      exists t. split; [exact Ht|]. split; [now apply missing_column_none|].
      split; [now rewrite V1|].
      cbn [Row.number insertedRow] in Hs. fold (has_number t (NewOrder.number order)) in Hs.
      destruct (has_number t (NewOrder.number order)).
      * injection Hs as <-. apply written_view.
      * injection Hs as <-. reflexivity.
  - intros (t & Ht & Hcols & Hv & ->).
    assert (Hr : resolve "table orders has no column named " inserted_columns
                         (view db) = Ok t).
    { apply resolve_ok. split; [exact Ht | now apply missing_column_none]. }
    rewrite Hr. cbn [bind].
    apply andb_true_iff in Hv as [V1 V2].
    rewrite (toISOString_valid _ V1). cbn [bind].
    assert (Hd : match NewOrder.deliveredAt order with
                 | Some dt => (s <- toISOString dt ;; Ok (Some s))%outcome
                 | None => Ok None
                 end = Ok (option_map rendered (NewOrder.deliveredAt order))).
    { destruct (NewOrder.deliveredAt order) as [dt|]; [|reflexivity].
      rewrite (toISOString_valid _ V2). reflexivity. }
    rewrite Hd. cbn [bind]. apply write_ok.
    unfold insert_or_ignore. rewrite Hr. cbn [bind].
    cbn [Row.number insertedRow]. fold (has_number t (NewOrder.number order)).
    destruct (has_number t (NewOrder.number order)).
    + exists (view db). split; [reflexivity|]. symmetry. apply written_view.
    + eexists. split; reflexivity.
Qed.

Lemma has_number_In (t : table) (n : string) :
  has_number t n = true <-> exists r, In r (rows t) /\ Row.number r = Some n.
Proof.
  unfold has_number. rewrite existsb_exists. split.
  - intros (r & Hin & Hr). exists r. split; [exact Hin|].
    unfold text_eq in Hr. destruct (Row.number r) as [m|]; [|discriminate].
    cbn in Hr. destruct (String.eqb_spec m n); [congruence | discriminate].
  - intros (r & Hin & Hr). exists r. split; [exact Hin|].
    rewrite Hr. cbn. now rewrite String.eqb_refl.
Qed.

End InsertProperties.

Section InsertOrder.
Import JSDate VineTracker Samples.

(** X1.  [maybeInsertOrder] never overwrites: for an order whose number
    is stored already (and whose dates are valid) the call returns
    normally and the database is exactly as it was, whatever the other
    fields of the order say. *)
Theorem maybeInsertOrder_keeps_stored_order (db : conn) (t : table)
    (order : NewOrder)
    (Htable : orders (view db) = Some t)
    (Hcolumns : missing_column t inserted_columns = None)
    (Hnumber : has_number t (NewOrder.number order) = true)
    (Hdates : valid_dates order = true) :
  maybeInsertOrder db order = Ok db.
Proof.
  apply maybeInsertOrder_ok. exists t. rewrite Hnumber. repeat split; assumption.
Qed.

Lemma maybeInsertOrder_keeps_stored_order_witness :
  (orders (view dbTwo) = Some (mkTable v1_columns [rowKept; rowCancelled])
   /\ missing_column (mkTable v1_columns [rowKept; rowCancelled]) inserted_columns
      = None
   /\ has_number (mkTable v1_columns [rowKept; rowCancelled])
                 (NewOrder.number orderAgain) = true
   /\ valid_dates orderAgain = true)
  /\ maybeInsertOrder dbTwo orderAgain = Ok dbTwo.
Proof.
  split; [repeat split; reflexivity|].
  apply (maybeInsertOrder_keeps_stored_order dbTwo
           (mkTable v1_columns [rowKept; rowCancelled]) orderAgain);
    reflexivity.
Defined.

(** X2.  Insert, then read: an order with a new number and dates of the
    years 0000 to 9999 is stored, and [getOrders({})] then lists it with
    the number, ASIN, product, order date, value and factor it was given,
    not cancelled and without a reason.  A delivery date left out comes
    back as the epoch. *)
Theorem maybeInsertOrder_then_getOrders (e : env) (db : conn) (t : table)
    (order : NewOrder) (placed : Z)
    (Htable : orders (view db) = Some t)
    (Hcolumns : missing_column t inserted_columns = None)
    (Hnew : has_number t (NewOrder.number order) = false)
    (Hordered : NewOrder.orderedAt order = TimeValue placed)
    (Hplaced : iso_range placed)
    (Hdelivered : match NewOrder.deliveredAt order with
                  | Some (TimeValue delivered) => iso_range delivered
                  | Some InvalidDate => False
                  | None => True
                  end) :
  exists (db' : conn) (l : list Order),
    maybeInsertOrder db order = Ok db'
    /\ getOrders e db' Opt.none = Ok (Rows l)
    /\ In (Order.mk (Some (NewOrder.number order)) (Some (NewOrder.asin order))
             (Some (NewOrder.product order)) (TimeValue placed)
             match NewOrder.deliveredAt order with
             | Some dt => dt
             | None => TimeValue 0
             end
             (real (NewOrder.etv order)) (bind_real (NewOrder.etvFactor order))
             false None) l.
Proof.
  set (t' := with_rows t (rows t ++ [rowOf order])).
  set (q := buildSelect Opt.none None None None).
  exists (written db (with_table (view db) t')), (map toOrder (select_rows t' q)).
  assert (Hcols : forall c, In c inserted_columns -> has_column t c = true)
    by now apply missing_column_none.
  split; [|split].
  - apply maybeInsertOrder_ok. exists t. rewrite Hnew.
    repeat split; try assumption.
    unfold valid_dates. rewrite Hordered. cbn [valid andb].
    destruct (NewOrder.deliveredAt order) as [[d|]|]; [reflexivity | contradiction | reflexivity].
  - apply getOrders_ok. exists (None, None), None, None, None, t'.
    repeat split.
    apply prepare_ok. split; [intros H; exfalso; apply H; reflexivity|].
    split; [rewrite view_written; reflexivity|].
    intros c Hc. change (has_column t c = true). apply Hcols.
    cbn in Hc. cbn. intuition.
  - assert (Hrow : In (rowOf order) (select_rows t' q)).
    { eapply Permutation_in.
      - symmetry. apply select_rows_perm; reflexivity.
      - apply filter_In. split; [|reflexivity].
        cbn [rows t' with_rows]. apply in_or_app. right. left. reflexivity. }
    apply (in_map toOrder) in Hrow.
    replace (toOrder (rowOf order)) with
      (Order.mk (Some (NewOrder.number order)) (Some (NewOrder.asin order))
         (Some (NewOrder.product order)) (TimeValue placed)
         match NewOrder.deliveredAt order with
         | Some dt => dt
         | None => TimeValue 0
         end
         (real (NewOrder.etv order)) (bind_real (NewOrder.etvFactor order))
         false None) in Hrow; [exact Hrow|].
    unfold toOrder, rowOf, insertedRow.
    cbn [Row.number Row.asin Row.product Row.orderedAt Row.deliveredAt Row.etv
         Row.etvFactor Row.cancelled Row.etvReason].
    rewrite Hordered. cbn [rendered ofValue]. rewrite (parse_isoString _ Hplaced).
    destruct (NewOrder.deliveredAt order) as [[d|]|]; cbn [option_map rendered ofValue].
    + rewrite (parse_isoString _ Hdelivered). reflexivity.
    + contradiction.
    + reflexivity.
Qed.

Lemma maybeInsertOrder_then_getOrders_witness :
  (orders (view dbTwo) = Some (mkTable v1_columns [rowKept; rowCancelled])
   /\ missing_column (mkTable v1_columns [rowKept; rowCancelled]) inserted_columns
      = None
   /\ has_number (mkTable v1_columns [rowKept; rowCancelled])
                 (NewOrder.number orderNew) = false
   /\ NewOrder.orderedAt orderNew = TimeValue 1709625600000
   /\ iso_range 1709625600000)
  /\ exists (db' : conn) (l : list Order),
       maybeInsertOrder dbTwo orderNew = Ok db'
       /\ getOrders utc db' Opt.none = Ok (Rows l)
       /\ In (Order.mk (Some "111-9") (Some "B0NEW") (Some "Teapot")
                (TimeValue 1709625600000) (TimeValue 0)
                (Some 12.5%float) (Some 0.5%float) false None) l.
Proof.
  split; [repeat split; try reflexivity; unfold iso_range; lia|].
  apply (maybeInsertOrder_then_getOrders utc dbTwo
           (mkTable v1_columns [rowKept; rowCancelled]) orderNew 1709625600000);
    first [reflexivity | exact I | unfold iso_range; lia].
Defined.

Lemma distinct_numbers_app (rs : list row) (r : row) (n : string) :
  Row.number r = Some n ->
  existsb (fun r' => is_true (text_eq (Row.number r') n)) rs = false ->
  distinct_numbers rs = true ->
  distinct_numbers (rs ++ [r]) = true.
Proof.
  intros Hr. induction rs as [|a rs IH]; cbn [distinct_numbers app existsb].
  - intros _ _. rewrite Hr. reflexivity.
  - intros Hex Hd. apply orb_false_iff in Hex as [Ha Hex].
    apply andb_true_iff in Hd as [Hd1 Hd2].
    rewrite (IH Hex Hd2), andb_true_r.
    destruct (Row.number a) as [m|]; [|reflexivity].
    rewrite existsb_app. cbn [existsb]. rewrite orb_false_r.
    apply negb_true_iff in Hd1. rewrite Hd1. cbn [orb].
    rewrite Hr. cbn. cbn in Ha.
    rewrite String.eqb_sym. destruct (String.eqb m n); [discriminate | reflexivity].
Qed.

(** X3.  [maybeInsertOrder] keeps the order numbers of the table
    distinct: it adds at most one row, and none under a number that a
    row has. *)
Theorem maybeInsertOrder_keeps_numbers_distinct (db db' : conn) (t t' : table)
    (order : NewOrder)
    (Htable : orders (view db) = Some t)
    (Hdistinct : distinct_numbers (rows t) = true)
    (Hcall : maybeInsertOrder db order = Ok db')
    (Htable' : orders (view db') = Some t') :
  distinct_numbers (rows t') = true
  /\ (rows t' = rows t \/ rows t' = rows t ++ [rowOf order]).
Proof.
  apply maybeInsertOrder_ok in Hcall as (t0 & Ht0 & _ & _ & ->).
  rewrite Htable in Ht0. injection Ht0 as <-.
  destruct (has_number t (NewOrder.number order)) eqn:Hn.
  - rewrite Htable in Htable'. injection Htable' as <-.
    split; [exact Hdistinct | left; reflexivity].
  - rewrite view_written in Htable'. cbn in Htable'. injection Htable' as <-.
    cbn [rows with_rows]. split; [|right; reflexivity].
    apply distinct_numbers_app with (n := NewOrder.number order);
      [reflexivity | exact Hn | exact Hdistinct].
Qed.

Lemma maybeInsertOrder_keeps_numbers_distinct_witness :
  (orders (view dbTwo) = Some (mkTable v1_columns [rowKept; rowCancelled])
   /\ distinct_numbers [rowKept; rowCancelled] = true
   /\ maybeInsertOrder dbTwo orderNew
      = Ok (mkConn (mkStore 0 (Some (mkTable v1_columns
                                 [rowKept; rowCancelled; rowOf orderNew]))) None))
  /\ distinct_numbers [rowKept; rowCancelled; rowOf orderNew] = true.
Proof.
  split; [repeat split; reflexivity|].
  apply (maybeInsertOrder_keeps_numbers_distinct dbTwo
           (mkConn (mkStore 0 (Some (mkTable v1_columns
                                 [rowKept; rowCancelled; rowOf orderNew]))) None)
           (mkTable v1_columns [rowKept; rowCancelled])
           (mkTable v1_columns [rowKept; rowCancelled; rowOf orderNew])
           orderNew); reflexivity.
Defined.

End InsertOrder.

(** ** Point updates *)

Section PointUpdates.
Import JSDate VineTracker Samples.

Lemma has_number_false (t : table) (n : string) :
  has_number t n = false -> forall r, In r (rows t) -> Row.number r <> Some n.
Proof.
  intros H r Hin Hr.
  assert (Ht : has_number t n = true) by (apply has_number_In; eauto).
  congruence.
Qed.

Lemma insert_by_map {A B : Type} (g : A -> B) (le : A -> A -> bool)
    (le' : B -> B -> bool) (x : A) (l : list A) :
  (forall a b, le' (g a) (g b) = le a b) ->
  insert_by le' (g x) (map g l) = map g (insert_by le x l).
Proof.
  intros H. induction l as [|y l IH]; [reflexivity|].
  cbn [map insert_by]. rewrite H. destruct (le x y); [reflexivity|].
  cbn [map]. now rewrite IH.
Qed.

Lemma sort_by_map {A B : Type} (g : A -> B) (le : A -> A -> bool)
    (le' : B -> B -> bool) (l : list A) :
  (forall a b, le' (g a) (g b) = le a b) ->
  sort_by le' (map g l) = map g (sort_by le l).
Proof.
  intros H. unfold sort_by. induction l as [|x l IH]; [reflexivity|].
  cbn [map fold_right]. rewrite IH. now apply insert_by_map.
Qed.

Lemma order_by_map {A : Type} (g : A -> A) (key : A -> sqlkey) (asc : bool)
    (l : list A) :
  (forall a, key (g a) = key a) ->
  order_by key asc (map g l) = map g (order_by key asc l).
Proof.
  intros H. unfold order_by.
  destruct asc; apply sort_by_map; intros a b; now rewrite !H.
Qed.

Lemma limit_offset_map {A B : Type} (g : A -> B) (lim off : option Z)
    (l : list A) :
  limit_offset lim off (map g l) = map g (limit_offset lim off l).
Proof.
  unfold limit_offset.
  destruct off as [k|], lim as [n|]; try destruct (n <? 0);
    rewrite ?skipn_map, ?firstn_map; reflexivity.
Qed.

Lemma filter_map_same {A : Type} (g : A -> A) (p : A -> bool) (l : list A) :
  (forall a, p (g a) = p a) ->
  filter p (map g l) = map g (filter p l).
Proof.
  intros H. induction l as [|x l IH]; [reflexivity|].
  cbn [map filter]. rewrite H. destruct (p x); cbn [map]; now rewrite IH.
Qed.

(** A change [g] of the stored rows that moves no row across the
    [WHERE] clause and changes no sort key shows in [getOrders] as the
    change [G] of the orders listed, and in nothing else. *)
Lemma getOrders_after_map (e : env) (db db' : conn) (o : GetOrdersOptions)
    (t : table) (g : row -> row) (G : Order -> Order) :
  orders (view db) = Some t ->
  orders (view db') = Some (with_rows t (map g (rows t))) ->
  (forall kw sd ed r,
      where_ (buildSelect o kw sd ed) (g r) = where_ (buildSelect o kw sd ed) r) ->
  (forall kw sd ed r,
      order_key (sel_sortCol (buildSelect o kw sd ed)) (g r)
      = order_key (sel_sortCol (buildSelect o kw sd ed)) r) ->
  (forall r, toOrder (g r) = G (toOrder r)) ->
  getOrders e db' o = map_result G (getOrders e db o).
Proof.
  intros Ht Ht' Hw Hk Ho. unfold getOrders.
  destruct (yearBounds e (Opt.year o)) as [bounds|]; [|reflexivity].
  cbn [bind].
  destruct (searchBounds e (Opt.search o) bounds) as [[[kw sd] ed]|]; [|reflexivity].
  cbn [bind]. set (q := buildSelect o kw sd ed).
  assert (Hp : prepare db' q
               = match prepare db q with
                 | Ok _ => Ok (with_rows t (map g (rows t)))
                 | Throw err => Throw err
                 end).
  { unfold prepare. rewrite Ht, Ht'.
    destruct (sel_limit q), (sel_offset q); try reflexivity;
      change (missing_column (with_rows t (map g (rows t))) (referenced q))
        with (missing_column t (referenced q));
      destruct (missing_column t (referenced q)); reflexivity. }
  rewrite Hp.
  assert (Hpt : forall t0, prepare db q = Ok t0 -> t0 = t).
  { intros t0 H0. apply prepare_ok in H0 as (_ & H0 & _). congruence. }
  destruct (prepare db q) as [t0|] eqn:Hq; [|reflexivity].
  rewrite (Hpt t0 eq_refl). cbn [bind].
  destruct (start q) as [[]|]; [|reflexivity]. cbn [bind].
  destruct (Opt.countOnly o) eqn:Hc.
  - unfold map_result. do 2 f_equal. unfold select_count. cbn [rows with_rows].
    rewrite (filter_map_same g (fun r => is_true (where_ q r))).
    + now rewrite length_map.
    + intros r. unfold q. now rewrite Hw.
  - unfold map_result. do 2 f_equal. unfold select_rows. cbn [rows with_rows].
    rewrite (filter_map_same g (fun r => is_true (where_ q r))).
    + rewrite order_by_map by (intros r; apply Hk).
      rewrite limit_offset_map, !map_map. apply map_ext. exact Ho.
    + intros r. unfold q. now rewrite Hw.
Qed.

Lemma map_result_id (res : outcome result) : map_result (fun o => o) res = res.
Proof. destruct res as [[l|n]|]; cbn; [now rewrite map_id | reflexivity..]. Qed.

Lemma get_text_set_etvFactor (c : string) (v : option float) (r : row) :
  get_text c (set_etvFactor v r) = get_text c r.
Proof. reflexivity. Qed.

Lemma get_text_set_notes (c : string) (v : option string) (r : row) :
  c <> "notes" -> get_text c (set_notes v r) = get_text c r.
Proof.
  intros Hc. unfold get_text.
  repeat match goal with
         | |- context [String.eqb c ?x] => destruct (String.eqb_spec c x)
         end; try reflexivity.
  contradiction.
Qed.

(** X4.  An update under an order number that no row has is not an
    error and changes nothing: this holds for the factor, the reason and
    the notes. *)
Theorem update_of_unknown_number (db : conn) (t : table) (n : string)
    (factor : option float) (reason : option string) (notes : string)
    (Htable : orders (view db) = Some t)
    (Hcolumns : missing_column t ["number"; "etvFactor"; "etvReason"; "notes"]
                = None)
    (Hunknown : has_number t n = false) :
  setETVFactorForOrder db n factor = Ok db
  /\ setETVReasonForOrder db n reason = Ok db
  /\ setNotesForOrder db n notes = Ok db.
Proof.
  assert (Hcols : forall c, In c ["number"; "etvFactor"; "etvReason"; "notes"] ->
                            has_column t c = true)
    by now apply missing_column_none.
  pose proof (has_number_false _ _ Hunknown) as Hnone.
  assert (Hn : has_column t "number" = true) by (apply Hcols; cbn; auto).
  repeat split.
  - apply write_same. apply update_unknown_number with (t := t); try assumption.
    apply Hcols; cbn; auto.
  - unfold setETVReasonForOrder. apply write_same.
    rewrite update_etvReason_shape.
    apply update_unknown_number with (t := t); try assumption.
    apply Hcols; cbn; auto.
  - apply write_same. apply update_unknown_number with (t := t); try assumption.
    apply Hcols; cbn; auto.
Qed.

Lemma update_of_unknown_number_witness :
  (orders (view dbTwo) = Some (mkTable v1_columns [rowKept; rowCancelled])
   /\ missing_column (mkTable v1_columns [rowKept; rowCancelled])
        ["number"; "etvFactor"; "etvReason"; "notes"] = None
   /\ has_number (mkTable v1_columns [rowKept; rowCancelled]) "999-9" = false)
  /\ setETVFactorForOrder dbTwo "999-9" (Some 0.5%float) = Ok dbTwo
  /\ setETVReasonForOrder dbTwo "999-9" (Some "Disposed of") = Ok dbTwo
  /\ setNotesForOrder dbTwo "999-9" "gift" = Ok dbTwo.
Proof.
  split; [repeat split; reflexivity|].
  apply (update_of_unknown_number dbTwo
           (mkTable v1_columns [rowKept; rowCancelled]) "999-9");
    reflexivity.
Defined.

(** X5.  Set a factor, then read: in any listing that is not the review
    list and is in the default order, [setETVFactorForOrder] shows as the
    new factor on the orders of that number, and as nothing else: the
    same orders, in the same places, with all other fields as they
    were. *)
Theorem setETVFactor_then_getOrders (e : env) (db db' : conn)
    (o : GetOrdersOptions) (n : string) (factor : option float)
    (Hreview : Opt.nonAdjustedOnly o = false)
    (Hsort : Opt.sort o = None)
    (Hset : setETVFactorForOrder db n factor = Ok db') :
  getOrders e db' o
  = map_result (fun order => if numbered n order
                             then with_etvFactor (bind_real factor) order
                             else order)
               (getOrders e db o).
Proof.
  apply update_where_number_ok in Hset as (t & Ht & _ & _ & ->).
  apply getOrders_after_map
    with (t := t)
         (g := fun r => if is_true (text_eq (Row.number r) n)
                        then set_etvFactor (bind_real factor) r else r).
  - exact Ht.
  - rewrite view_written. reflexivity.
  - intros kw sd ed r. destruct (is_true (text_eq (Row.number r) n)); [|reflexivity].
    unfold where_. cbn [sel_nonAdjustedOnly buildSelect]. rewrite Hreview.
    reflexivity.
  - intros kw sd ed r. destruct (is_true (text_eq (Row.number r) n)); [|reflexivity].
    unfold buildSelect. cbn [sel_sortCol]. rewrite Hsort. reflexivity.
  - intros r. unfold numbered, toOrder at 2. cbn [Order.number].
    unfold text_eq. destruct (Row.number r) as [m|] eqn:Hm; cbn [option_map is_true].
    + destruct (String.eqb m n); [|reflexivity].
      unfold toOrder, with_etvFactor. cbn. rewrite Hm. reflexivity.
    + reflexivity.
Qed.

Lemma setETVFactor_then_getOrders_witness :
  (Opt.nonAdjustedOnly Opt.none = false /\ Opt.sort Opt.none = None
   /\ setETVFactorForOrder dbTwo "111-1" (Some 0.5%float)
      = Ok (mkConn (mkStore 0 (Some (mkTable v1_columns
              [set_etvFactor (Some 0.5%float) rowKept; rowCancelled]))) None))
  /\ getOrders utc
       (mkConn (mkStore 0 (Some (mkTable v1_columns
          [set_etvFactor (Some 0.5%float) rowKept; rowCancelled]))) None)
       Opt.none
     = Ok (Rows [with_etvFactor (Some 0.5%float) (toOrder rowKept)]).
Proof.
  split; [repeat split; reflexivity|].
  apply (setETVFactor_then_getOrders utc dbTwo _ Opt.none "111-1"
           (Some 0.5%float)); reflexivity.
Defined.

(** X6.  Notes are written and never read: after [setNotesForOrder],
    every call of [getOrders] gives what it gave before, whatever its
    options. *)
Theorem setNotes_never_shows (e : env) (db db' : conn) (o : GetOrdersOptions)
    (n notes : string)
    (Hset : setNotesForOrder db n notes = Ok db') :
  getOrders e db' o = getOrders e db o.
Proof.
  rewrite <- (map_result_id (getOrders e db o)).
  apply update_where_number_ok in Hset as (t & Ht & _ & _ & ->).
  apply getOrders_after_map
    with (t := t)
         (g := fun r => if is_true (text_eq (Row.number r) n)
                        then set_notes (Some notes) r else r).
  - exact Ht.
  - rewrite view_written. reflexivity.
  - intros kw sd ed r. destruct (is_true (text_eq (Row.number r) n)); [|reflexivity].
    unfold where_. cbn [sel_dateColumn buildSelect].
    destruct (Opt.byDelivered o); reflexivity.
  - intros kw sd ed r. destruct (is_true (text_eq (Row.number r) n)); reflexivity.
  - intros r. destruct (is_true (text_eq (Row.number r) n)); reflexivity.
Qed.

Lemma setNotes_never_shows_witness :
  setNotesForOrder dbTwo "111-1" "gift"
  = Ok (mkConn (mkStore 0 (Some (mkTable v1_columns
          [set_notes (Some "gift") rowKept; rowCancelled]))) None)
  /\ getOrders utc
       (mkConn (mkStore 0 (Some (mkTable v1_columns
          [set_notes (Some "gift") rowKept; rowCancelled]))) None)
       Opt.none
     = getOrders utc dbTwo Opt.none.
Proof.
  split; [reflexivity|].
  apply (setNotes_never_shows utc dbTwo _ Opt.none "111-1" "gift"). reflexivity.
Defined.

(** X7.  The review list ([nonAdjustedOnly]) lets go of an order as soon
    as its factor is set to 0.2 or to 1: after that call no order of that
    number is in it. *)
Theorem settled_factor_leaves_review_list (e : env) (db db' : conn)
    (o : GetOrdersOptions) (n : string) (factor : float) (l : list Order)
    (Hfactor : factor = 0x1.999999999999ap-3%float \/ factor = 1%float)
    (Hset : setETVFactorForOrder db n (Some factor) = Ok db')
    (Hreview : Opt.nonAdjustedOnly o = true)
    (Hrows : getOrders e db' o = Ok (Rows l)) :
  forall order, In order l -> numbered n order = false.
Proof.
  intros order Hin.
  apply update_where_number_ok in Hset as (t & Ht & _ & _ & ->).
  apply getOrders_ok in Hrows as (bounds & kw & sd & ed & t' & _ & _ & Hp & _ & Hres).
  apply prepare_ok in Hp as (_ & Ht' & _).
  rewrite view_written in Ht'. cbn [orders with_table] in Ht'.
  injection Ht' as <-.
  destruct (Opt.countOnly o); [discriminate|]. injection Hres as ->.
  apply in_map_iff in Hin as (r & <- & Hr).
  apply select_rows_In in Hr as [Hr Hw].
  cbn [rows with_rows] in Hr. apply in_map_iff in Hr as (r0 & <- & _).
  unfold numbered, toOrder. cbn [Order.number].
  unfold text_eq in *.
  destruct (Row.number r0) as [m|] eqn:Hm; cbn [option_map is_true] in *.
  - destruct (String.eqb m n) eqn:Hmn.
    + exfalso. unfold where_ in Hw.
      cbn [sel_nonAdjustedOnly buildSelect] in Hw. rewrite Hreview in Hw.
      rewrite is_true_and in Hw. apply andb_true_iff in Hw as [_ Hw].
      cbn [Row.etvFactor Row.etvReason set_etvFactor] in Hw.
      destruct Hfactor as [-> | ->]; vm_compute in Hw;
        destruct (Row.etvReason r0); discriminate.
    + rewrite Hm. exact Hmn.
  - rewrite Hm. reflexivity.
Qed.

Lemma settled_factor_leaves_review_list_witness :
  ((0x1.999999999999ap-3%float = 0x1.999999999999ap-3%float
    \/ 0x1.999999999999ap-3%float = 1%float)
   /\ setETVFactorForOrder dbReview "111-1" (Some 0x1.999999999999ap-3%float)
      = Ok (mkConn (mkStore 0 (Some (mkTable v1_columns
              [set_etvFactor (Some 0x1.999999999999ap-3%float) rowKept;
               rowMarch2]))) None)
   /\ Opt.nonAdjustedOnly optsReview = true
   /\ getOrders utc dbReview optsReview
      = Ok (Rows [toOrder rowKept; toOrder rowMarch2])
   /\ getOrders utc
        (mkConn (mkStore 0 (Some (mkTable v1_columns
           [set_etvFactor (Some 0x1.999999999999ap-3%float) rowKept;
            rowMarch2]))) None)
        optsReview
      = Ok (Rows [toOrder rowMarch2]))
  /\ (forall order, In order [toOrder rowMarch2] -> numbered "111-1" order = false).
Proof.
  split; [repeat split; try reflexivity; left; reflexivity|].
  apply (settled_factor_leaves_review_list utc dbReview
           (mkConn (mkStore 0 (Some (mkTable v1_columns
              [set_etvFactor (Some 0x1.999999999999ap-3%float) rowKept;
               rowMarch2]))) None)
           optsReview "111-1" 0x1.999999999999ap-3%float [toOrder rowMarch2]);
    first [reflexivity | left; reflexivity].
Defined.

End PointUpdates.

(** ** More on getOrders *)

Section QueryEdges.
Import JSDate VineTracker Samples.








(** X9.  Startup never changes a table that is there: [CREATE TABLE IF
    NOT EXISTS] leaves its columns and rows as they are.  On a table
    that lacks a column which the [INSERT] of [maybeInsertOrder] lists (a
    table of an earlier version, without [etvReason]) every call of
    [maybeInsertOrder] therefore throws, before and after startup. *)
Theorem startup_keeps_existing_table (db : conn) (t : table) (order : NewOrder)
    (c : string)
    (Htable : orders (view db) = Some t)
    (Hold : missing_column t inserted_columns = Some c) :
  createOrdersTable db = Ok db
  /\ maybeInsertOrder db order
     = Throw (SqliteError ("table orders has no column named " ++ c)).
Proof.
  split.
  - apply write_same. unfold create_table_if_not_exists. now rewrite Htable.
  - unfold maybeInsertOrder, resolve. rewrite Htable, Hold. reflexivity.
Qed.

Lemma startup_keeps_existing_table_witness :
  (orders (view dbFirstVersion) = Some tableFirstVersion
   /\ missing_column tableFirstVersion inserted_columns = Some "etvReason")
  /\ createOrdersTable dbFirstVersion = Ok dbFirstVersion
  /\ maybeInsertOrder dbFirstVersion orderNew
     = Throw (SqliteError "table orders has no column named etvReason").
Proof.
  split; [split; reflexivity|].
  apply (startup_keeps_existing_table dbFirstVersion tableFirstVersion orderNew
           "etvReason"); reflexivity.
Defined.

End QueryEdges.

(** ** Pages *)

Section Pages.
Import JSDate VineTracker Samples.

(** Paging does not enter the statement anywhere but in its [LIMIT] and
    [OFFSET]. *)
Lemma select_rows_page (t : table) (o : GetOrdersOptions) (lim off : option Z)
    (kw sd ed : option string) :
  select_rows t (buildSelect (Opt.with_page lim off o) kw sd ed)
  = limit_offset lim off
      (select_rows t (buildSelect (Opt.with_page None None o) kw sd ed)).
Proof. reflexivity. Qed.

Lemma referenced_page (o : GetOrdersOptions) (lim off : option Z)
    (kw sd ed : option string) :
  referenced (buildSelect (Opt.with_page lim off o) kw sd ed)
  = referenced (buildSelect o kw sd ed).
Proof. reflexivity. Qed.

(** X10.  An offset without a limit never gives a result: SQLite has no
    [OFFSET] without [LIMIT], so the statement does not compile, in row
    mode and in count mode alike, whatever the database holds.  With
    neither [year] nor [search] the exception is that syntax error. *)
Theorem offset_without_limit_throws (e : env) (db : conn) (o : GetOrdersOptions)
    (k : Z)
    (Hoffset : Opt.offset o = Some k)
    (Hlimit : Opt.limit o = None) :
  (forall res, getOrders e db o <> Ok res)
  /\ (Opt.year o = None -> Opt.search o = None ->
      getOrders e db o = Throw (SqliteError "near OFFSET: syntax error")).
Proof.
  split.
  - intros res H. apply getOrders_ok in H as (b & kw & sd & ed & t & _ & _ & Hp & _ & _).
    apply prepare_ok in Hp as (Hp & _).
    apply Hp; cbn [sel_offset sel_limit buildSelect]; congruence.
  - intros Hy Hs. unfold getOrders. rewrite Hy, Hs. cbn [yearBounds searchBounds bind].
    unfold prepare. cbn [sel_offset sel_limit buildSelect fst snd].
    rewrite Hoffset, Hlimit. reflexivity.
Qed.

Lemma offset_without_limit_throws_witness :
  (Opt.offset (Opt.with_page None (Some 1) Opt.none) = Some 1
   /\ Opt.limit (Opt.with_page None (Some 1) Opt.none) = None)
  /\ (forall res,
        getOrders utc dbTwo (Opt.with_page None (Some 1) Opt.none) <> Ok res)
  /\ (Opt.year (Opt.with_page None (Some 1) Opt.none) = None ->
      Opt.search (Opt.with_page None (Some 1) Opt.none) = None ->
      getOrders utc dbTwo (Opt.with_page None (Some 1) Opt.none)
      = Throw (SqliteError "near OFFSET: syntax error")).
Proof.
  split; [split; reflexivity|].
  apply (offset_without_limit_throws utc dbTwo
           (Opt.with_page None (Some 1) Opt.none) 1); reflexivity.
Defined.

(** A limit or an offset that is no 64-bit integer stops a statement that
    has compiled: the call throws, in row mode and in count mode. *)
Lemma getOrders_datatype_mismatch (e : env) (db : conn) (o : GetOrdersOptions)
    (bounds : option string * option string) (kw sd ed : option string) (t : table) :
  yearBounds e (Opt.year o) = Ok bounds ->
  searchBounds e (Opt.search o) bounds = Ok (kw, sd, ed) ->
  prepare db (buildSelect o kw sd ed) = Ok t ->
  int64_page o = false ->
  getOrders e db o = Throw (SqliteError "datatype mismatch").
Proof.
  intros Hy Hs Hp Hpage. unfold getOrders.
  rewrite Hy. cbn [bind]. rewrite Hs. cbn [bind].
  rewrite Hp. cbn [bind]. rewrite start_page, Hpage. reflexivity.
Qed.

(** A limit of 10^20, as the route passes it on from a query string of
    twenty-one digits. *)
Example getOrders_limit_1e20 :
  safeParseInt (Some "100000000000000000000") = Some (10 ^ 20)
  /\ getOrders utc dbTwo (Opt.with_page (Some (10 ^ 20)) None Opt.none)
     = Throw (SqliteError "datatype mismatch")
  /\ getOrders utc dbTwo
       (Opt.with_countOnly true (Opt.with_page (Some 10) (Some (- 10 ^ 20)) Opt.none))
     = Throw (SqliteError "datatype mismatch").
Proof. repeat split; vm_compute; reflexivity. Qed.

(** X11.  A page is a slice of the whole listing: with a limit [n] that
    is not negative and an offset [k], both 64-bit integers, row mode
    returns the orders that the same call without paging returns, in the
    same order, from the one at position [k] on and at most [n] of
    them. *)
Theorem page_is_slice_of_listing (e : env) (db : conn) (o : GetOrdersOptions)
    (n k : Z) (all : list Order)
    (Hrows : Opt.countOnly o = false)
    (Hn : 0 <= n)
    (Hlimit : is_int64 n = true)
    (Hoffset : is_int64 k = true)
    (Hall : getOrders e db (Opt.with_page None None o) = Ok (Rows all)) :
  getOrders e db (Opt.with_page (Some n) (Some k) o)
  = Ok (Rows (firstn (Z.to_nat n) (skipn (Z.to_nat k) all)))
  /\ getOrders e db (Opt.with_page (Some n) None o)
     = Ok (Rows (firstn (Z.to_nat n) all)).
Proof.
  apply getOrders_ok in Hall as (b & kw & sd & ed & t & Hy & Hs & Hp & _ & Hres).
  change (Opt.countOnly (Opt.with_page None None o)) with (Opt.countOnly o) in Hres.
  rewrite Hrows in Hres. injection Hres as ->.
  apply prepare_ok in Hp as (_ & Ht & Hcols).
  assert (Hpage : forall lim off,
             lim <> None ->
             int64_page (Opt.with_page lim off o) = true ->
             getOrders e db (Opt.with_page lim off o)
             = Ok (Rows (map toOrder
                      (select_rows t
                         (buildSelect (Opt.with_page lim off o) kw sd ed))))).
  { intros lim off Hlim Hint. apply getOrders_ok. exists b, kw, sd, ed, t.
    split; [exact Hy|]. split; [exact Hs|]. split; [|split].
    - apply prepare_ok. split; [intros _; exact Hlim|]. split; [exact Ht|].
      exact Hcols.
    - now rewrite start_page, Hint.
    - change (Opt.countOnly (Opt.with_page lim off o)) with (Opt.countOnly o).
      now rewrite Hrows. }
  assert (Hneg : (n <? 0) = false) by (apply Z.ltb_ge; exact Hn).
  split.
  - rewrite Hpage; [|discriminate|unfold int64_page; cbn; now rewrite Hlimit, Hoffset].
    rewrite select_rows_page.
    rewrite <- limit_offset_map. unfold limit_offset at 1. rewrite Hneg. reflexivity.
  - rewrite Hpage; [|discriminate|unfold int64_page; cbn; now rewrite Hlimit].
    rewrite select_rows_page.
    rewrite <- limit_offset_map. unfold limit_offset at 1. rewrite Hneg. reflexivity.
Qed.

Lemma page_is_slice_of_listing_witness :
  (Opt.countOnly (Opt.with_cancelled false Opt.none) = false
   /\ 0 <= 1
   /\ is_int64 1 = true
   /\ getOrders utc dbReview (Opt.with_page None None (Opt.with_cancelled false Opt.none))
      = Ok (Rows [toOrder rowKept; toOrder rowMarch2]))
  /\ getOrders utc dbReview
       (Opt.with_page (Some 1) (Some 1) (Opt.with_cancelled false Opt.none))
     = Ok (Rows [toOrder rowMarch2])
  /\ getOrders utc dbReview
       (Opt.with_page (Some 1) None (Opt.with_cancelled false Opt.none))
     = Ok (Rows [toOrder rowKept]).
Proof.
  split; [repeat split; first [reflexivity | lia]|].
  apply (page_is_slice_of_listing utc dbReview
           (Opt.with_cancelled false Opt.none) 1 1
           [toOrder rowKept; toOrder rowMarch2]); first [reflexivity | lia].
Defined.

End Pages.

(** ** The order of a listing *)

Section ListingOrder.
Import JSDate VineTracker Samples.

Lemma StronglySorted_impl {A : Type} (R R' : A -> A -> Prop) (l : list A) :
  (forall a b, R a b -> R' a b) -> StronglySorted R l -> StronglySorted R' l.
Proof.
  intros H. induction 1 as [|a l Hs IH Hall]; constructor; [exact IH|].
  eapply Forall_impl; [|exact Hall]. intros b. apply H.
Qed.

Lemma StronglySorted_map {A B : Type} (g : A -> B) (R : B -> B -> Prop)
    (l : list A) :
  StronglySorted (fun a b => R (g a) (g b)) l -> StronglySorted R (map g l).
Proof.
  induction 1 as [|a l Hs IH Hall]; cbn [map]; constructor; [exact IH|].
  apply Forall_map. exact Hall.
Qed.

Lemma StronglySorted_skipn {A : Type} (R : A -> A -> Prop) (n : nat) (l : list A) :
  StronglySorted R l -> StronglySorted R (skipn n l).
Proof.
  revert l. induction n as [|n IH]; intros l H; [exact H|].
  destruct l as [|a l]; [exact H|]. cbn [skipn]. apply IH.
  now inversion H.
Qed.

Lemma StronglySorted_firstn {A : Type} (R : A -> A -> Prop) (n : nat) (l : list A) :
  StronglySorted R l -> StronglySorted R (firstn n l).
Proof.
  revert l. induction n as [|n IH]; intros l H; [constructor|].
  destruct l as [|a l]; [constructor|]. cbn [firstn].
  inversion H as [|a' l' Hs Hall]; subst. constructor; [now apply IH|].
  apply Forall_forall. intros b Hb. apply firstn_In in Hb.
  rewrite Forall_forall in Hall. now apply Hall.
Qed.

Lemma StronglySorted_limit_offset {A : Type} (R : A -> A -> Prop)
    (lim off : option Z) (l : list A) :
  StronglySorted R l -> StronglySorted R (limit_offset lim off l).
Proof.
  intros H. unfold limit_offset.
  destruct off as [k|], lim as [n|]; try destruct (n <? 0);
    auto using StronglySorted_skipn, StronglySorted_firstn.
Qed.

(** Insertion keeps a list sorted, when the comparison is that of an
    integer measure on the elements at hand. *)
Lemma insert_by_sorted {A : Type} (f : A -> Z) (le : A -> A -> bool) (x : A)
    (l : list A) :
  (forall y, In y l -> le x y = (f x <=? f y)) ->
  StronglySorted (fun a b => f a <= f b) l ->
  StronglySorted (fun a b => f a <= f b) (insert_by le x l).
Proof.
  intros Hle. induction 1 as [|y l Hs IH Hall]; cbn [insert_by].
  - repeat constructor.
  - rewrite (Hle y) by (left; reflexivity).
    destruct (Z.leb_spec (f x) (f y)) as [Hxy|Hxy].
    + constructor; [now constructor|]. constructor; [exact Hxy|].
      eapply Forall_impl; [|exact Hall]. cbn. intros b Hb. lia.
    + constructor.
      * apply IH. intros z Hz. apply Hle. now right.
      * apply Forall_forall. intros b Hb.
        apply (Permutation_in _ (insert_by_perm le x l)) in Hb.
        destruct Hb as [<-|Hb]; [lia|].
        rewrite Forall_forall in Hall. now apply Hall.
Qed.

Lemma sort_by_sorted {A : Type} (f : A -> Z) (le : A -> A -> bool) (l : list A) :
  (forall a b, In a l -> In b l -> le a b = (f a <=? f b)) ->
  StronglySorted (fun a b => f a <= f b) (sort_by le l).
Proof.
  unfold sort_by. induction l as [|x l IH]; intros Hle; cbn [fold_right].
  - constructor.
  - apply insert_by_sorted.
    + intros y Hy. apply Hle; [left; reflexivity|].
      right. exact (Permutation_in _ (sort_by_perm le l) Hy).
    + apply IH. intros a b Ha Hb. apply Hle; now right.
Qed.

Lemma iso_stored_spec (r : row) :
  iso_stored r = true ->
  exists placed,
    iso_range placed
    /\ Row.orderedAt r = Some (isoString placed)
    /\ Order.orderedAt (toOrder r) = TimeValue placed.
Proof.
  unfold iso_stored, toOrder. cbn [Order.orderedAt].
  destruct (Row.orderedAt r) as [s|]; [|discriminate]. cbn [ofValue].
  destruct (parse s) as [t|]; [|discriminate].
  intros H. apply andb_true_iff in H as [H H3]. apply andb_true_iff in H as [H1 H2].
  apply String.eqb_eq in H1. exists t. unfold iso_range.
  repeat split; [lia | lia | now rewrite H1].
Qed.

(** On rows that hold rendered order dates, the text order of the
    [orderedAt] column is the order of the time values. *)
Lemma orderedAt_key_le (a b : row) :
  iso_stored a = true -> iso_stored b = true ->
  key_le (order_key "orderedAt" a) (order_key "orderedAt" b)
  = (orderedAt_time (toOrder a) <=? orderedAt_time (toOrder b)).
Proof.
  intros Ha Hb.
  apply iso_stored_spec in Ha as (ta & Ra & Sa & Oa).
  apply iso_stored_spec in Hb as (tb & Rb & Sb & Ob).
  unfold orderedAt_time. rewrite Oa, Ob.
  unfold order_key. cbn. rewrite Sa, Sb. cbn [key_le].
  pose proof (isoString_leb ta tb Ra Rb) as [Hle Hge].
  destruct (Z.leb_spec ta tb) as [Hab|Hab].
  - now apply Hge.
  - destruct (String.leb (isoString ta) (isoString tb)); [|reflexivity].
    specialize (Hle eq_refl). lia.
Qed.

(** X12.  Newest first: on a table whose order dates are as
    [maybeInsertOrder] writes them, a listing with no [sort] option is in
    the order of the order dates, descending unless [dir] is [asc], and
    ascending if it is.  Paging keeps that order. *)
Theorem listing_is_in_date_order (e : env) (db : conn) (o : GetOrdersOptions)
    (t : table) (l : list Order)
    (Htable : orders (view db) = Some t)
    (Hdates : forallb iso_stored (rows t) = true)
    (Hsort : Opt.sort o = None)
    (Hrows : getOrders e db o = Ok (Rows l)) :
  (Opt.dir o = Some "asc" ->
   StronglySorted (fun a b => orderedAt_time a <= orderedAt_time b) l)
  /\ (Opt.dir o <> Some "asc" ->
      StronglySorted (fun a b => orderedAt_time b <= orderedAt_time a) l).
Proof.
  apply getOrders_ok in Hrows as (bd & kw & sd & ed & t' & _ & _ & Hp & _ & Hres).
  apply prepare_ok in Hp as (_ & Ht' & _).
  rewrite Htable in Ht'. injection Ht' as <-.
  destruct (Opt.countOnly o) eqn:Hc; [discriminate|]. injection Hres as ->.
  set (q := buildSelect o kw sd ed).
  assert (Hcol : sel_sortCol q = "orderedAt").
  { unfold q, buildSelect. cbn [sel_sortCol]. now rewrite Hsort. }
  assert (Hasc : sel_ascending q
                 = match Opt.dir o with Some d => String.eqb d "asc" | None => false end).
  { unfold q, buildSelect. cbn [sel_ascending]. now rewrite Hc. }
  set (rs := filter (fun r => is_true (where_ q r)) (rows t)).
  assert (Hrs : forall r, In r rs -> iso_stored r = true).
  { intros r Hr. apply filter_In in Hr as [Hr _].
    rewrite forallb_forall in Hdates. now apply Hdates. }
  unfold select_rows. fold rs. rewrite Hcol, Hasc.
  split.
  - intros Hdir. rewrite Hdir. cbn [String.eqb Ascii.eqb Bool.eqb andb].
    apply StronglySorted_map, StronglySorted_limit_offset.
    unfold order_by.
    apply (sort_by_sorted (fun r => orderedAt_time (toOrder r))).
    intros a b Ha Hb. apply orderedAt_key_le; auto.
  - intros Hdir.
    assert (Hd : match Opt.dir o with Some d => String.eqb d "asc" | None => false end
                 = false).
    { destruct (Opt.dir o) as [d|]; [|reflexivity].
      destruct (String.eqb_spec d "asc"); [subst; contradiction | reflexivity]. }
    rewrite Hd.
    apply StronglySorted_map, StronglySorted_limit_offset.
    unfold order_by.
    apply StronglySorted_impl
      with (R := fun a b => - orderedAt_time (toOrder a) <= - orderedAt_time (toOrder b));
      [intros a b; lia|].
    apply (sort_by_sorted (fun r => - orderedAt_time (toOrder r))).
    intros a b Ha Hb. rewrite orderedAt_key_le by auto.
    destruct (Z.leb_spec (orderedAt_time (toOrder b)) (orderedAt_time (toOrder a)));
      destruct (Z.leb_spec (- orderedAt_time (toOrder a)) (- orderedAt_time (toOrder b)));
      first [reflexivity | lia].
Qed.

Lemma listing_is_in_date_order_witness :
  (orders (view dbReview) = Some (mkTable v1_columns [rowKept; rowMarch2])
   /\ forallb iso_stored [rowKept; rowMarch2] = true
   /\ Opt.sort Opt.none = None
   /\ getOrders utc dbReview Opt.none
      = Ok (Rows [toOrder rowKept; toOrder rowMarch2]))
  /\ (Opt.dir Opt.none = Some "asc" ->
      StronglySorted (fun a b => orderedAt_time a <= orderedAt_time b)
                     [toOrder rowKept; toOrder rowMarch2])
  /\ (Opt.dir Opt.none <> Some "asc" ->
      StronglySorted (fun a b => orderedAt_time b <= orderedAt_time a)
                     [toOrder rowKept; toOrder rowMarch2]).
Proof.
  split; [repeat split; reflexivity|].
  apply (listing_is_in_date_order utc dbReview Opt.none
           (mkTable v1_columns [rowKept; rowMarch2])); reflexivity.
Defined.

End ListingOrder.

(** ** Keyword search *)

Section KeywordSearch.
Import JSDate VineTracker Samples.












End KeywordSearch.

(** ** Edges of the date options *)

Section DateEdges.
Import JSDate VineTracker Samples.

Lemma date_pattern_truthy (s : string) :
  is_date_pattern s = true -> truthy_string (Some s) = true.
Proof. destruct s; [discriminate | reflexivity]. Qed.

(** X15.  A [search] of the form [YYYY-MM-DD] in which the year, the
    month or the day is zero is refused before the database is looked at:
    with no [year] option, [getOrders] throws [Invalid date] for every
    database, even one without the table. *)
Theorem search_day_with_zero_throws (e : env) (db : conn) (o : GetOrdersOptions)
    (s : string)
    (Hyear : Opt.year o = None)
    (Hsearch : Opt.search o = Some s)
    (Hpattern : is_date_pattern s = true)
    (Hzero : safeParseInt (nth_error (split "-" s) 0) = Some 0
             \/ safeParseInt (nth_error (split "-" s) 1) = Some 0
             \/ safeParseInt (nth_error (split "-" s) 2) = Some 0) :
  getOrders e db o = Throw (Error "Invalid date").
Proof.
  unfold getOrders. rewrite Hyear, Hsearch. cbn [yearBounds bind].
  unfold searchBounds. rewrite (date_pattern_truthy s Hpattern), Hpattern.
  destruct (date_pattern_parts s Hpattern) as (y & m & d & Hy & Hm & Hd & _).
  rewrite Hy, Hm, Hd.
  assert (Hz : (y =? 0) || (m =? 0) || (d =? 0) = true).
  { destruct Hzero as [H|[H|H]].
    - rewrite Hy in H. injection H as ->. reflexivity.
    - rewrite Hm in H. injection H as ->. cbn [Z.eqb].
      now rewrite orb_true_r.
    - rewrite Hd in H. injection H as ->. cbn [Z.eqb]. apply orb_true_r. }
  rewrite Hz. reflexivity.
Qed.

Lemma search_day_with_zero_throws_witness :
  (Opt.year (Opt.with_search (Some "2024-03-00") Opt.none) = None
   /\ Opt.search (Opt.with_search (Some "2024-03-00") Opt.none)
      = Some "2024-03-00"
   /\ is_date_pattern "2024-03-00" = true
   /\ (safeParseInt (nth_error (split "-" "2024-03-00") 0) = Some 0
       \/ safeParseInt (nth_error (split "-" "2024-03-00") 1) = Some 0
       \/ safeParseInt (nth_error (split "-" "2024-03-00") 2) = Some 0))
  /\ getOrders utc dbBlank (Opt.with_search (Some "2024-03-00") Opt.none)
     = Throw (Error "Invalid date").
Proof.
  split; [repeat split; try reflexivity; right; right; reflexivity|].
  apply (search_day_with_zero_throws utc dbBlank
           (Opt.with_search (Some "2024-03-00") Opt.none) "2024-03-00");
    first [reflexivity | right; right; reflexivity].
Defined.

(** X16.  A [year] below 100 is not the year it says: [new Date(year,
    ...)] reads a year from 0 to 99 as 1900 plus that, so [getOrders]
    answers for [year: y] what it answers for [year: 1900 + y]; and a
    [year] of 0 is falsy, so that it bounds nothing. *)
Theorem year_below_100 (e : env) (db : conn) (o : GetOrdersOptions) (y : Z)
    (Hy : 1 <= y <= 99) :
  getOrders e db (Opt.with_year (Some y) o)
  = getOrders e db (Opt.with_year (Some (1900 + y)) o)
  /\ getOrders e db (Opt.with_year (Some 0) o)
     = getOrders e db (Opt.with_year None o).
Proof.
  assert (Hb : yearBounds e (Some y) = yearBounds e (Some (1900 + y))).
  { unfold yearBounds, truthy_number, construct.
    replace (y =? 0) with false by (symmetry; apply Z.eqb_neq; lia).
    replace (1900 + y =? 0) with false by (symmetry; apply Z.eqb_neq; lia).
    replace ((0 <=? y) && (y <=? 99)) with true
      by (symmetry; apply andb_true_iff; split; apply Z.leb_le; lia).
    replace ((0 <=? 1900 + y) && (1900 + y <=? 99)) with false
      by (symmetry; apply andb_false_iff; right; apply Z.leb_gt; lia).
    reflexivity. }
  split.
  - unfold getOrders. cbn [Opt.year Opt.with_year]. rewrite Hb. reflexivity.
  - reflexivity.
Qed.

Lemma year_below_100_witness :
  (1 <= 24 <= 99)
  /\ getOrders utc dbTwo (Opt.with_year (Some 24) Opt.none)
     = getOrders utc dbTwo (Opt.with_year (Some 1924) Opt.none)
  /\ getOrders utc dbTwo (Opt.with_year (Some 0) Opt.none)
     = getOrders utc dbTwo (Opt.with_year None Opt.none).
Proof.
  split; [lia|]. apply (year_below_100 utc dbTwo Opt.none 24). lia.
Defined.

End DateEdges.

(** ** Reports *)

Section Reports.
Import JSDate VineTracker Samples.

Lemma total_app (a b : list Z) : total (a ++ b) = total a + total b.
Proof.
  unfold total. induction a as [|x a IH]; cbn [app fold_right]; lia.
Qed.

(** An order with a valid date is of exactly one month, one with an
    invalid date of none. *)
Lemma one_month (e : env) (o : Order) :
  total (map (fun m => if inMonth e m o then 1 else 0)
             [0; 1; 2; 3; 4; 5; 6; 7; 8; 9; 10; 11])
  = if valid (Order.orderedAt o) then 1 else 0.
Proof.
  unfold inMonth, getMonth. destruct (Order.orderedAt o) as [t|]; [|reflexivity].
  pose proof (MonthFromTime_range (LocalTime (tz e) t)) as Hm.
  generalize dependent (MonthFromTime (LocalTime (tz e) t)). intros m Hm.
  assert (H : m = 0 \/ m = 1 \/ m = 2 \/ m = 3 \/ m = 4 \/ m = 5 \/ m = 6
              \/ m = 7 \/ m = 8 \/ m = 9 \/ m = 10 \/ m = 11) by lia.
  repeat (destruct H as [->|H]; [reflexivity|]). subst m. reflexivity.
Qed.

Lemma total_map_add {A : Type} (f g : A -> Z) (l : list A) :
  total (map (fun x => f x + g x) l) = total (map f l) + total (map g l).
Proof.
  unfold total. induction l as [|x l IH]; cbn [map fold_right]; lia.
Qed.

Lemma month_counts (e : env) (orders : list Order) (months : list Z) :
  total (map (fun m => Z.of_nat (List.length (filter (inMonth e m) orders))) months)
  = total (map (fun o => total (map (fun m => if inMonth e m o then 1 else 0) months))
               orders).
Proof.
  induction orders as [|o orders IH].
  - cbn [filter List.length map]. unfold total at 2. cbn [fold_right].
    induction months as [|m months IHm]; [reflexivity|].
    cbn [map]. unfold total in *. cbn [fold_right]. rewrite IHm. reflexivity.
  - cbn [map]. unfold total at 2. cbn [fold_right]. fold (total (map (fun o0 =>
      total (map (fun m => if inMonth e m o0 then 1 else 0) months)) orders)).
    rewrite <- IH, <- total_map_add. f_equal. apply map_ext. intros m.
    cbn [filter]. destruct (inMonth e m o); cbn [List.length]; lia.
Qed.

(** X17.  The monthly order counts of [getMonthlyBreakdown] add up to
    the number of orders that have a valid order date: each such order
    is counted in one month and in one only, and an order whose date is
    invalid in none. *)
Theorem monthly_counts_add_up (e : env) (orders : list Order) :
  total (map orderCount (getMonthlyBreakdown e orders))
  = Z.of_nat (List.length (filter (fun o => valid (Order.orderedAt o)) orders)).
Proof.
  rewrite getMonthlyBreakdown_unfold, map_map.
  change (fun x => orderCount (breakdownFor e orders x))
    with (fun m => Z.of_nat (List.length (filter (inMonth e m) orders))).
  rewrite month_counts, (map_ext _ _ (one_month e)).
  unfold total. induction orders as [|o orders IH]; [reflexivity|].
  cbn [map filter fold_right]. rewrite IH.
  destruct (valid (Order.orderedAt o)); cbn [List.length]; lia.
Qed.

Lemma map_set_In {V : Type} (k : string) (v : V) (acc : list (string * V))
    (x : string) :
  In x (map fst (map_set k v acc)) -> x = k \/ In x (map fst acc).
Proof.
  induction acc as [|[k' v'] acc IH]; cbn [map_set map fst In].
  - intros [<-|[]]. now left.
  - destruct (String.eqb_spec k' k) as [->|Hne]; cbn [map fst In].
    + intros [<-|H]; auto.
    + intros [<-|H]; [auto|]. destruct (IH H); auto.
Qed.

Lemma map_set_NoDup {V : Type} (k : string) (v : V) (acc : list (string * V)) :
  NoDup (map fst acc) -> NoDup (map fst (map_set k v acc)).
Proof.
  induction acc as [|[k' v'] acc IH]; cbn [map_set map fst]; intros H.
  - repeat constructor. intros [].
  - inversion H as [|x l Hnot Hrest]; subst.
    destruct (String.eqb_spec k' k) as [->|Hne]; cbn [map fst].
    + constructor; assumption.
    + constructor; [|now apply IH].
      intros Hin. apply map_set_In in Hin as [->|Hin]; contradiction.
Qed.

Lemma map_set_total (k : string) (acc : list (string * Z)) :
  total (map snd (map_set k (match map_get k acc with
                             | Some c => c
                             | None => 0
                             end + 1) acc))
  = total (map snd acc) + 1.
Proof.
  unfold total. induction acc as [|[k' v'] acc IH]; cbn [map_set map_get map snd fold_right].
  - lia.
  - destruct (String.eqb k' k); cbn [map snd fold_right]; [lia|].
    rewrite IH. lia.
Qed.

Lemma dateKey_ok (o : Order) (key : string) :
  dateKey o = Ok key -> valid (Order.orderedAt o) = true.
Proof.
  unfold dateKey. destruct (Order.orderedAt o); [reflexivity | discriminate].
Qed.

(** What the first [reduce] over the [Map] gives, if it completes. *)
Lemma orderCountByDate_ok (orders : list Order) :
  forall (acc counts : list (string * Z)),
  orderCountByDate orders acc = Ok counts ->
  forallb (fun o => valid (Order.orderedAt o)) orders = true
  /\ total (map snd counts) = total (map snd acc) + Z.of_nat (List.length orders)
  /\ (NoDup (map fst acc) -> NoDup (map fst counts)).
Proof.
  induction orders as [|o orders IH]; intros acc counts H.
  - injection H as <-. cbn [List.length forallb]. repeat split; [lia | auto].
  - cbn [orderCountByDate] in H.
    destruct (dateKey o) as [key|] eqn:Hk; [|discriminate].
    cbn [bind] in H. apply IH in H as (Hv & Ht & Hn).
    apply dateKey_ok in Hk. cbn [forallb]. rewrite Hk, Hv.
    rewrite map_set_total in Ht.
    repeat split.
    + cbn [List.length]. lia.
    + intros Hacc. apply Hn. now apply map_set_NoDup.
Qed.

(** X18.  Whenever [GET /report-data/:year] answers, its parts agree:
    the status is 200, the monthly order counts add up to [orderCount],
    so do the counts per day, and no day is listed twice.  (The handler
    only answers if every order has a valid order date: otherwise
    [toISOString] throws in the count per day.) *)
Theorem report_counts_add_up (e : env) (strYear : string) (db : conn)
    (status : Z) (r : Report)
    (Hsent : ended (get_report_data e strYear db) = Responded status (ReportBody r)) :
  status = 200
  /\ total (map orderCount (report_monthly r)) = report_orderCount r
  /\ total (map snd (report_orderCountByDate r)) = report_orderCount r
  /\ NoDup (map fst (report_orderCountByDate r)).
Proof.
  unfold get_report_data in Hsent.
  destruct (getOrders e db _) as [[l|n]|err]; try discriminate.
  destruct (orderCountByDate l []) as [counts|] eqn:Hc; [|discriminate].
  cbn [bind] in Hsent.
  destruct (orderETVByDate l []) as [values|]; [|discriminate].
  cbn [bind ended] in Hsent. injection Hsent as <- <-.
  apply orderCountByDate_ok in Hc as (Hv & Ht & Hn).
  cbn [report_monthly report_orderCount report_orderCountByDate].
  repeat split.
  - rewrite getMonthlyBreakdown_unfold, map_map.
    change (fun x => orderCount (breakdownFor e l x))
      with (fun m => Z.of_nat (List.length (filter (inMonth e m) l))).
    rewrite month_counts, (map_ext _ _ (one_month e)).
    clear Ht Hn. unfold total. induction l as [|o l IH]; [reflexivity|].
    cbn [forallb] in Hv. apply andb_true_iff in Hv as [Ho Hv].
    cbn [map fold_right List.length]. rewrite (IH Hv), Ho. lia.
  - rewrite Ht. reflexivity.
  - apply Hn. constructor.
Qed.

Lemma report_counts_add_up_witness :
  ended (get_report_data utc "2024" dbTwo) = Responded 200 (ReportBody reportTwo)
  /\ 200 = 200
  /\ total (map orderCount (report_monthly reportTwo)) = report_orderCount reportTwo
  /\ total (map snd (report_orderCountByDate reportTwo))
     = report_orderCount reportTwo
  /\ NoDup (map fst (report_orderCountByDate reportTwo)).
Proof.
  split; [reflexivity|].
  apply (report_counts_add_up utc "2024" dbTwo 200 reportTwo). reflexivity.
Defined.

End Reports.

(** ** Route handlers *)

Section OrdersRoute.
Import JSDate VineTracker Samples.

Lemma select_count_all (t : table) (o : GetOrdersOptions) (kw sd ed : option string) :
  select_count t (buildSelect (Opt.with_page None None o) kw sd ed)
  = [Z.of_nat (List.length
       (filter (fun r => is_true (where_ (buildSelect o kw sd ed) r)) (rows t)))].
Proof. reflexivity. Qed.

Lemma select_rows_length (t : table) (q : select) :
  sel_limit q = None -> sel_offset q = None ->
  List.length (select_rows t q)
  = List.length (filter (fun r => is_true (where_ q r)) (rows t)).
Proof.
  intros Hl Ho. apply Permutation_length. now apply select_rows_perm.
Qed.

(** X19.  Whenever [GET /orders] answers with a page, [total] is the
    number of orders in the whole listing for the same filter, search
    and sort, whatever [limit] and [offset] say, and the page is the
    slice of that listing which they select; the database is as it
    was. *)
Theorem orders_route_total (e : env) (query : Query) (db : conn) (status : Z)
    (page total : result)
    (Hsent : ended (get_orders e query db) = Responded status (OrdersBody page total)) :
  exists all : list Order,
    status = 200
    /\ getOrders e db (Opt.with_page None None (variablesOf query)) = Ok (Rows all)
    /\ total = Count (Z.of_nat (List.length all))
    /\ page = Rows (limit_offset (Opt.limit (variablesOf query))
                                 (Opt.offset (variablesOf query)) all)
    /\ db_after (get_orders e query db) = db.
Proof.
  unfold get_orders in *. set (v := variablesOf query) in *.
  destruct (getOrders e db (Opt.with_countOnly true (Opt.with_page None None v)))
    as [tot|] eqn:Hcount; [|discriminate].
  cbn [bind] in *.
  destruct (getOrders e db v) as [pg|] eqn:Hpage; [|discriminate].
  cbn [bind ended db_after] in *. injection Hsent as <- <- <-.
  apply getOrders_ok in Hcount as (b & kw & sd & ed & t & Hy & Hs & Hp & _ & Hc).
  apply getOrders_ok in Hpage as (b' & kw' & sd' & ed' & t' & Hy' & Hs' & Hp' & _ & Hr).
  change (Opt.year (Opt.with_countOnly true (Opt.with_page None None v)))
    with (Opt.year v) in Hy.
  change (Opt.search (Opt.with_countOnly true (Opt.with_page None None v)))
    with (Opt.search v) in Hs.
  rewrite Hy in Hy'. injection Hy' as <-.
  rewrite Hs in Hs'. injection Hs' as <- <- <-.
  apply prepare_ok in Hp as (_ & Ht & _).
  apply prepare_ok in Hp' as (Hpg & Ht' & Hcols).
  rewrite Ht in Ht'. injection Ht' as <-.
  change (Opt.countOnly (Opt.with_countOnly true (Opt.with_page None None v)))
    with true in Hc.
  cbv iota in Hc.
  assert (Hv : Opt.countOnly v = false) by reflexivity.
  rewrite Hv in Hr.
  exists (map toOrder (select_rows t (buildSelect (Opt.with_page None None v) kw sd ed))).
  split; [reflexivity|]. split; [|split; [|split; [|reflexivity]]].
  - apply getOrders_ok. exists b, kw, sd, ed, t. repeat split; try assumption.
    apply prepare_ok. split; [intros H; exfalso; apply H; reflexivity|].
    split; [exact Ht|]. exact Hcols.
  - rewrite Hc, length_map, select_rows_length by reflexivity. reflexivity.
  - rewrite Hr, limit_offset_map. reflexivity.
Qed.

Lemma orders_route_total_witness :
  ended (get_orders utc
           (mkQuery QsUndefined (QsString "1") (QsString "1") QsUndefined
                    QsUndefined QsUndefined) dbReview)
  = Responded 200 (OrdersBody (Rows [toOrder rowMarch2]) (Count 2))
  /\ exists all : list Order,
       200 = 200
       /\ getOrders utc dbReview
            (Opt.with_page None None
               (variablesOf (mkQuery QsUndefined (QsString "1") (QsString "1")
                                     QsUndefined QsUndefined QsUndefined)))
          = Ok (Rows all)
       /\ Count 2 = Count (Z.of_nat (List.length all))
       /\ Rows [toOrder rowMarch2]
          = Rows (limit_offset
                    (Opt.limit (variablesOf
                       (mkQuery QsUndefined (QsString "1") (QsString "1")
                                QsUndefined QsUndefined QsUndefined)))
                    (Opt.offset (variablesOf
                       (mkQuery QsUndefined (QsString "1") (QsString "1")
                                QsUndefined QsUndefined QsUndefined))) all)
       /\ db_after (get_orders utc
                      (mkQuery QsUndefined (QsString "1") (QsString "1")
                               QsUndefined QsUndefined QsUndefined) dbReview)
          = dbReview.
Proof.
  split; [reflexivity|].
  apply (orders_route_total utc
           (mkQuery QsUndefined (QsString "1") (QsString "1") QsUndefined
                    QsUndefined QsUndefined) dbReview 200
           (Rows [toOrder rowMarch2]) (Count 2)).
  reflexivity.
Defined.

End OrdersRoute.

Section BodyChecks.
Import JSDate VineTracker Samples.

(** An update keeps a property of all rows that its assignment keeps. *)
Lemma update_keeps (P : row -> bool) (col : string) (set : row -> row)
    (n : string) (db db' : conn) :
  write (update_where_number col set n) db = Ok db' ->
  (forall r, P r = true -> P (set r) = true) ->
  forallb P (rows_of db) = true -> forallb P (rows_of db') = true.
Proof.
  intros H Hset Hall.
  apply update_where_number_ok in H as (t & Ht & _ & _ & ->).
  unfold rows_of in *. rewrite view_written. rewrite Ht in Hall.
  cbn [orders with_table rows with_rows].
  rewrite forallb_forall in *. intros r Hr.
  apply in_map_iff in Hr as (r0 & <- & Hr0).
  destruct (is_true (text_eq (Row.number r0) n)); auto.
Qed.

(** X20.  [POST /orders/:number/etv] never stores a factor below zero:
    if no stored factor is below zero before the request, none is after
    it, whatever the body holds; and unless the answer is [{success:
    true}], the database is as it was. *)
Theorem etv_route_keeps_factors_non_negative (number : string) (etvFactor : json)
    (db : conn)
    (Hbefore : forallb factor_not_negative (rows_of db) = true) :
  forallb factor_not_negative (rows_of (db_after (post_etv number etvFactor db)))
  = true
  /\ (ended (post_etv number etvFactor db) <> Responded 200 SuccessBody ->
      db_after (post_etv number etvFactor db) = db).
Proof.
  unfold post_etv.
  destruct etvFactor as [| |b|f|s| |]; cbn [negb andb orb];
    try (split; [exact Hbefore | reflexivity]).
  - destruct (setETVFactorForOrder db number None) as [db'|err] eqn:Hset;
      cbn [db_after ended server_error].
    + split; [|intros H; now contradiction H].
      eapply update_keeps; [exact Hset | | exact Hbefore]. reflexivity.
    + split; [exact Hbefore | reflexivity].
  - destruct (f <? 0)%float eqn:Hf; cbn [db_after ended bad_request].
    + split; [exact Hbefore | reflexivity].
    + destruct (setETVFactorForOrder db number (Some f)) as [db'|err] eqn:Hset;
        cbn [db_after ended server_error].
      * split; [|intros H; now contradiction H].
        eapply update_keeps; [exact Hset | | exact Hbefore].
        intros r _. unfold factor_not_negative, bind_real, real.
        cbn [Row.etvFactor set_etvFactor].
        destruct (PrimFloat.is_nan f); [reflexivity|]. now rewrite Hf.
      * split; [exact Hbefore | reflexivity].
Qed.

Lemma etv_route_keeps_factors_non_negative_witness :
  forallb factor_not_negative (rows_of dbTwo) = true
  /\ forallb factor_not_negative
       (rows_of (db_after (post_etv "111-1" (JNumber (-1)%float) dbTwo))) = true
  /\ (ended (post_etv "111-1" (JNumber (-1)%float) dbTwo)
      <> Responded 200 SuccessBody ->
      db_after (post_etv "111-1" (JNumber (-1)%float) dbTwo) = dbTwo).
Proof.
  split; [reflexivity|].
  apply (etv_route_keeps_factors_non_negative "111-1" (JNumber (-1)%float) dbTwo).
  reflexivity.
Defined.

(** X21.  [POST /orders/:number/etv-reason] never stores an empty reason
    nor one of more than 255 UTF-16 code units: if every stored reason is
    within these bounds before the request, every one is after it,
    whatever the body holds; and unless the answer is [{success: true}],
    the database is as it was. *)
Theorem reason_route_keeps_reasons_in_bounds (number : string) (reason : json)
    (db : conn)
    (Hbefore : forallb reason_in_bounds (rows_of db) = true) :
  forallb reason_in_bounds
          (rows_of (db_after (post_etv_reason number reason db))) = true
  /\ (ended (post_etv_reason number reason db) <> Responded 200 SuccessBody ->
      db_after (post_etv_reason number reason db) = db).
Proof.
  unfold post_etv_reason.
  destruct reason as [| |b|f|s| |];
    try (split; [exact Hbefore | reflexivity]).
  destruct (255 <? js_length s) eqn:Hlen; cbn [db_after ended bad_request].
  - split; [exact Hbefore | reflexivity].
  - destruct (setETVReasonForOrder db number (Some s)) as [db'|err] eqn:Hset;
      cbn [db_after ended server_error].
    + split; [|intros H; now contradiction H].
      unfold setETVReasonForOrder in Hset.
      rewrite (write_ext _ (update_where_number "etvReason"
                 (set_etvReason (if String.eqb s "" then None else Some s)) number))
        in Hset by (intros st; apply update_etvReason_shape).
      eapply update_keeps; [exact Hset | | exact Hbefore].
      intros r _. unfold reason_in_bounds. cbn [Row.etvReason set_etvReason].
      destruct (String.eqb s "") eqn:He; [reflexivity|].
      change (String.eqb s EmptyString) with (String.eqb s "").
      rewrite He. cbn [negb andb]. apply Z.leb_le. apply Z.ltb_ge in Hlen. exact Hlen.
    + split; [exact Hbefore | reflexivity].
Qed.

Lemma reason_route_keeps_reasons_in_bounds_witness :
  forallb reason_in_bounds (rows_of dbTwo) = true
  /\ forallb reason_in_bounds
       (rows_of (db_after (post_etv_reason "111-1" (JString "") dbTwo))) = true
  /\ (ended (post_etv_reason "111-1" (JString "") dbTwo)
      <> Responded 200 SuccessBody ->
      db_after (post_etv_reason "111-1" (JString "") dbTwo) = dbTwo).
Proof.
  split; [reflexivity|].
  apply (reason_route_keeps_reasons_in_bounds "111-1" (JString "") dbTwo).
  reflexivity.
Defined.

End BodyChecks.

(** ** Upload *)

Section UploadProperties.
Import JSDate VineTracker Samples.

Variable xlsxParse : string -> outcome (list (option Line)).
Variable newDate : string -> Date.
Variable parseFloat : string -> float.

Lemma set_cancelled_twice (r : row) :
  set_cancelled (Some 1) (set_cancelled (Some 1) r) = set_cancelled (Some 1) r.
Proof. reflexivity. Qed.

Lemma carried_over_trans (a b c : conn) :
  carried_over a b -> carried_over b c -> carried_over a c.
Proof.
  intros (t & t' & Ht & Ht' & Hc & Hl & Hr & Hs)
         (u & u' & Hu & Hu' & Hc' & Hl' & Hr' & Hs').
  rewrite Ht' in Hu. injection Hu as <-.
  exists t, u'. repeat split; try assumption.
  - congruence.
  - lia.
  - intros r Hin. destruct (Hr r Hin) as [H|H].
    + apply Hr'. exact H.
    + destruct (Hr' _ H) as [H'|H']; [now right|].
      right. exact H'.
  - auto.
Qed.

Lemma stores_table (db : conn) (t : table) (n : string) :
  orders (view db) = Some t -> stores db n = has_number t n.
Proof. intros H. unfold stores, rows_of, has_number. now rewrite H. Qed.

Lemma insert_step (db db' : conn) (order : NewOrder) :
  maybeInsertOrder db order = Ok db' ->
  carried_over db db' /\ stores db' (NewOrder.number order) = true.
Proof.
  intros H. apply maybeInsertOrder_ok in H as (t & Ht & Hcols & Hv & ->).
  destruct (has_number t (NewOrder.number order)) eqn:Hn.
  - split; [|now rewrite (stores_table _ _ _ Ht)].
    exists t, t. repeat split; auto.
  - assert (Ht' : orders (view (written db (with_table (view db)
                     (with_rows t (rows t ++ [rowOf order])))))
                  = Some (with_rows t (rows t ++ [rowOf order])))
      by now rewrite view_written.
    split.
    + exists t, (with_rows t (rows t ++ [rowOf order])).
      repeat split; try assumption; cbn [rows with_rows columns].
      * rewrite length_app. lia.
      * intros r Hr. left. apply in_or_app. now left.
      * intros n. rewrite (stores_table _ _ _ Ht), (stores_table _ _ _ Ht').
        unfold has_number. cbn [rows with_rows]. rewrite existsb_app.
        intros ->. reflexivity.
    + rewrite (stores_table _ _ _ Ht'). unfold has_number.
      cbn [rows with_rows]. rewrite existsb_app. cbn [existsb rowOf insertedRow Row.number].
      unfold text_eq. cbn [option_map is_true]. rewrite String.eqb_refl.
      cbn. apply orb_true_r.
Qed.

Lemma cancel_step (db db' : conn) (n : string) :
  markCancelled db n = Ok db' -> carried_over db db' /\ cancelled_in db' n = true.
Proof.
  intros H. apply update_where_number_ok in H as (t & Ht & Hc & Hn & ->).
  set (g := fun r => if is_true (text_eq (Row.number r) n)
                     then set_cancelled (Some 1) r else r).
  assert (Ht' : orders (view (written db (with_table (view db)
                   (with_rows t (map g (rows t))))))
                = Some (with_rows t (map g (rows t))))
    by now rewrite view_written.
  split.
  - exists t, (with_rows t (map g (rows t))).
    repeat split; try assumption; cbn [rows with_rows columns].
    + rewrite length_map. lia.
    + intros r Hr. apply (in_map g) in Hr. unfold g at 1 in Hr.
      destruct (is_true (text_eq (Row.number r) n)); auto.
    + intros m. rewrite (stores_table _ _ _ Ht), (stores_table _ _ _ Ht').
      unfold has_number. cbn [rows with_rows]. rewrite !existsb_exists.
      intros (r & Hr & Hm). exists (g r). split; [now apply in_map|].
      unfold g. destruct (is_true (text_eq (Row.number r) n)); exact Hm.
  - unfold cancelled_in, rows_of. rewrite Ht'. cbn [rows with_rows].
    apply forallb_forall. intros r' Hr'. apply in_map_iff in Hr' as (r & <- & _).
    unfold g. destruct (is_true (text_eq (Row.number r) n)) eqn:Hm.
    + cbn [Row.number Row.cancelled set_cancelled]. rewrite Hm. reflexivity.
    + rewrite Hm. reflexivity.
Qed.

(** Rows that are marked cancelled stay so under the update for any
    number. *)
Lemma cancel_keeps_cancelled (db db' : conn) (n m : string) :
  markCancelled db m = Ok db' -> cancelled_in db n = true -> cancelled_in db' n = true.
Proof.
  intros H. apply update_where_number_ok in H as (t & Ht & _ & _ & ->).
  unfold cancelled_in, rows_of. rewrite view_written, Ht.
  cbn [orders with_table rows with_rows]. rewrite !forallb_forall.
  intros Hall r' Hr'. apply in_map_iff in Hr' as (r & <- & Hr).
  specialize (Hall r Hr).
  destruct (is_true (text_eq (Row.number r) m)); [|exact Hall].
  cbn [Row.number Row.cancelled set_cancelled].
  destruct (is_true (text_eq (Row.number r) n)); reflexivity.
Qed.

(** The update for a number whose rows are all marked already changes
    nothing. *)
Lemma cancel_again (db : conn) (t : table) (n : string) :
  orders (view db) = Some t ->
  has_column t "cancelled" = true -> has_column t "number" = true ->
  cancelled_in db n = true ->
  markCancelled db n = Ok db.
Proof.
  intros Ht Hc Hn Hall. apply update_where_number_ok. exists t.
  repeat split; try assumption.
  rewrite <- (written_view db) at 1. f_equal.
  unfold with_table, with_rows. rewrite <- (store_eta (view db)) at 1.
  rewrite Ht. do 2 f_equal. rewrite <- (table_eta t) at 1. f_equal.
  rewrite <- (map_id (rows t)) at 1. apply map_ext_in. intros r Hr.
  unfold cancelled_in, rows_of in Hall. rewrite Ht in Hall.
  rewrite forallb_forall in Hall. specialize (Hall r Hr).
  destruct (is_true (text_eq (Row.number r) n)); [|reflexivity].
  cbn [negb orb] in Hall. unfold int_eq in Hall.
  destruct r as [a b c d e0 f g h i j k]. cbn [Row.cancelled] in Hall.
  destruct h as [z|]; [|discriminate]. cbn [option_map is_true] in Hall.
  destruct (Z.eqb_spec z 1) as [->|]; [reflexivity | discriminate].
Qed.

Lemma carried_over_refl (db : conn) (t : table) :
  orders (view db) = Some t -> carried_over db db.
Proof. intros H. exists t, t. repeat split; auto. Qed.

Lemma carried_or_same_trans (a b c : conn) :
  a = b \/ carried_over a b -> b = c \/ carried_over b c ->
  a = c \/ carried_over a c.
Proof.
  intros [->|H1] [->|H2]; auto. right. eapply carried_over_trans; eassumption.
Qed.

Lemma missing_column_columns (t t' : table) (cols : list string) :
  columns t' = columns t -> missing_column t' cols = missing_column t cols.
Proof.
  intros H. unfold missing_column, has_column. rewrite H. reflexivity.
Qed.

(** [maybeInsertOrder] leaves the database as it is exactly when the
    number is stored. *)
Lemma insert_noop (db : conn) (order : NewOrder) :
  maybeInsertOrder db order = Ok db <->
  exists t, orders (view db) = Some t
            /\ missing_column t inserted_columns = None
            /\ valid_dates order = true
            /\ has_number t (NewOrder.number order) = true.
Proof.
  rewrite maybeInsertOrder_ok. split.
  - intros (t & Ht & Hc & Hv & Hdb). exists t. repeat split; try assumption.
    destruct (has_number t (NewOrder.number order)); [reflexivity|].
    exfalso. apply (f_equal view) in Hdb. rewrite view_written in Hdb.
    rewrite Hdb in Ht. cbn [orders with_table] in Ht. injection Ht as Ht.
    apply (f_equal (fun x => List.length (rows x))) in Ht.
    cbn [rows with_rows] in Ht. rewrite length_app in Ht. cbn in Ht. lia.
  - intros (t & Ht & Hc & Hv & Hn). exists t. rewrite Hn. repeat split; assumption.
Qed.

Lemma insert_noop_after (db db' : conn) (order : NewOrder) :
  maybeInsertOrder db order = Ok db' -> maybeInsertOrder db' order = Ok db'.
Proof.
  intros H. pose proof (insert_step _ _ _ H) as [(t & t' & Ht & Ht' & Hc & _) Hs].
  apply maybeInsertOrder_ok in H as (t0 & Ht0 & Hcols & Hv & _).
  rewrite Ht in Ht0. injection Ht0 as <-.
  apply insert_noop. exists t'. repeat split; try assumption.
  - now rewrite (missing_column_columns _ _ _ Hc).
  - now rewrite <- (stores_table _ _ _ Ht').
Qed.

Lemma insert_noop_carried (db db' : conn) (order : NewOrder) :
  db = db' \/ carried_over db db' ->
  maybeInsertOrder db order = Ok db -> maybeInsertOrder db' order = Ok db'.
Proof.
  intros [<-|(t & t' & Ht & Ht' & Hc & _ & _ & Hs)] H; [exact H|].
  apply insert_noop in H as (t0 & Ht0 & Hcols & Hv & Hn).
  rewrite Ht in Ht0. injection Ht0 as <-.
  apply insert_noop. exists t'. repeat split; try assumption.
  - now rewrite (missing_column_columns _ _ _ Hc).
  - rewrite <- (stores_table _ _ _ Ht'). apply Hs.
    now rewrite (stores_table _ _ _ Ht).
Qed.

(** The first loop. *)
Lemma insertLines_carries (lines : list (option Line)) :
  forall (db : conn) (i : Z) (c : list string) (db' : conn) (fin : loop_end),
  insertLines newDate parseFloat lines db i c = (db', fin) ->
  db = db' \/ carried_over db db'.
Proof.
  induction lines as [|[line|] lines IH]; intros db i c db' fin H;
    cbn [insertLines] in H.
  - injection H as <- _. now left.
  - destruct (String.eqb (line_type line) "CANCELLATION").
    + eapply IH; exact H.
    + destruct (maybeInsertOrder db (orderOfLine newDate parseFloat line))
        as [dbm|err] eqn:Hm.
      * eapply carried_or_same_trans; [|eapply IH; exact H].
        right. now apply insert_step in Hm.
      * injection H as <- _. now left.
  - injection H as <- _. now left.
Qed.

(** The second loop. *)
Lemma applyCancellations_carries (numbers : list string) :
  forall (db db' : conn) (res : option exn),
  applyCancellations numbers db = (db', res) ->
  db = db' \/ carried_over db db'.
Proof.
  induction numbers as [|n numbers IH]; intros db db' res H;
    cbn [applyCancellations] in H.
  - injection H as <- _. now left.
  - destruct (markCancelled db n) as [dbn|err] eqn:Hn.
    + eapply carried_or_same_trans; [|eapply IH; exact H].
      right. now apply cancel_step in Hn.
    + injection H as <- _. now left.
Qed.

Lemma applyCancellations_keeps_cancelled (numbers : list string) (n : string) :
  forall (db db' : conn) (res : option exn),
  applyCancellations numbers db = (db', res) ->
  cancelled_in db n = true -> cancelled_in db' n = true.
Proof.
  induction numbers as [|m numbers IH]; intros db db' res H Hc;
    cbn [applyCancellations] in H.
  - injection H as <- _. exact Hc.
  - destruct (markCancelled db m) as [dbm|err] eqn:Hm.
    + eapply IH; [exact H|]. eapply cancel_keeps_cancelled; eassumption.
    + injection H as <- _. exact Hc.
Qed.

Lemma applyCancellations_cancels (numbers : list string) (n : string) :
  forall (db db' : conn),
  applyCancellations numbers db = (db', None) ->
  In n numbers -> cancelled_in db' n = true.
Proof.
  induction numbers as [|m numbers IH]; intros db db' H Hin; [contradiction|].
  cbn [applyCancellations] in H.
  destruct (markCancelled db m) as [dbm|err] eqn:Hm; [|discriminate].
  destruct Hin as [->|Hin].
  - eapply applyCancellations_keeps_cancelled; [exact H|].
    now apply cancel_step in Hm.
  - eapply IH; eassumption.
Qed.

(** Running the second loop again, on what it has left, changes
    nothing and ends the same way. *)
Lemma applyCancellations_again (numbers : list string) :
  forall (db db' : conn) (res : option exn),
  applyCancellations numbers db = (db', res) ->
  applyCancellations numbers db' = (db', res).
Proof.
  induction numbers as [|n numbers IH]; intros db db' res H;
    cbn [applyCancellations] in *.
  - injection H as <- <-. reflexivity.
  - destruct (markCancelled db n) as [dbn|err] eqn:Hn.
    + assert (Hagain : markCancelled db' n = Ok db').
      { pose proof (applyCancellations_carries _ _ _ _ H) as Hcar.
        pose proof (cancel_step _ _ _ Hn) as [_ Hc].
        pose proof (applyCancellations_keeps_cancelled _ _ _ _ _ H Hc) as Hc'.
        apply update_where_number_ok in Hn as (t & Ht & Hcol & Hnum & Hdb).
        assert (Htn : orders (view dbn)
                      = Some (with_rows t
                                (map (fun r => if is_true (text_eq (Row.number r) n)
                                               then set_cancelled (Some 1) r else r)
                                     (rows t))))
          by (rewrite Hdb, view_written; reflexivity).
        destruct Hcar as [<-|(u & u' & Hu & Hu' & Hcols & _)].
        - eapply cancel_again; [exact Htn | exact Hcol | exact Hnum | exact Hc'].
        - rewrite Htn in Hu. injection Hu as <-.
          eapply cancel_again; [exact Hu' | | | exact Hc'];
            unfold has_column; rewrite Hcols; assumption. }
      rewrite Hagain. eapply IH; exact H.
    + injection H as <- <-. rewrite Hn. reflexivity.
Qed.

(** Running the first loop again, on a database that still has what it
    stored, adds nothing and ends the same way. *)
Lemma insertLines_again (lines : list (option Line)) :
  forall (db : conn) (i : Z) (c : list string) (db1 : conn) (fin : loop_end)
         (db' : conn),
  insertLines newDate parseFloat lines db i c = (db1, fin) ->
  db1 = db' \/ (carried_over db1 db'
                /\ match fin with LoopDone _ _ => True | _ => False end) ->
  insertLines newDate parseFloat lines db' i c = (db', fin).
Proof.
  induction lines as [|[line|] lines IH]; intros db i c db1 fin db' H Hdb';
    cbn [insertLines] in *.
  - injection H as _ <-. reflexivity.
  - destruct (String.eqb (line_type line) "CANCELLATION").
    + eapply IH; eassumption.
    + destruct (maybeInsertOrder db (orderOfLine newDate parseFloat line))
        as [dbm|err] eqn:Hm.
      * assert (Hnoop : maybeInsertOrder db' (orderOfLine newDate parseFloat line)
                        = Ok db').
        { apply insert_noop_after in Hm.
          pose proof (insertLines_carries _ _ _ _ _ _ H) as Hcar.
          eapply insert_noop_carried; [|exact Hm].
          eapply carried_or_same_trans; [exact Hcar|].
          destruct Hdb' as [->|[Hc _]]; auto. }
        rewrite Hnoop. eapply IH; eassumption.
      * injection H as <- <-.
        destruct Hdb' as [<-|[_ []]]. rewrite Hm. reflexivity.
  - injection H as _ <-. reflexivity.
Qed.

Lemma insertLines_cancellations (lines : list (option Line)) (line : Line) :
  forall (db : conn) (i : Z) (c : list string) (db1 : conn) (inserted : Z)
         (numbers : list string),
  insertLines newDate parseFloat lines db i c = (db1, LoopDone inserted numbers) ->
  (In (line_number line) c
   \/ (In (Some line) lines /\ line_type line = "CANCELLATION")) ->
  In (line_number line) numbers.
Proof.
  induction lines as [|[l|] lines IH]; intros db i c db1 inserted numbers H Hin;
    cbn [insertLines] in H.
  - injection H as _ _ <-. destruct Hin as [Hin|[[] _]]. exact Hin.
  - destruct (String.eqb_spec (line_type l) "CANCELLATION") as [Hl|Hl].
    + eapply IH; [exact H|].
      destruct Hin as [Hin|[[Heq|Hin] Hty]].
      * left. apply in_or_app. now left.
      * injection Heq as ->. left. apply in_or_app. right. now left.
      * right. now split.
    + destruct (maybeInsertOrder db (orderOfLine newDate parseFloat l))
        as [dbm|err]; [|discriminate].
      eapply IH; [exact H|].
      destruct Hin as [Hin|[[Heq|Hin] Hty]].
      * now left.
      * injection Heq as ->. contradiction.
      * right. now split.
  - discriminate.
Qed.

Lemma insertLines_stores (lines : list (option Line)) (line : Line) :
  forall (db : conn) (i : Z) (c : list string) (db1 : conn) (inserted : Z)
         (numbers : list string),
  insertLines newDate parseFloat lines db i c = (db1, LoopDone inserted numbers) ->
  In (Some line) lines -> line_type line <> "CANCELLATION" ->
  stores db1 (line_number line) = true.
Proof.
  induction lines as [|[l|] lines IH]; intros db i c db1 inserted numbers H Hin Hty;
    cbn [insertLines] in H; [contradiction| |discriminate].
  destruct (String.eqb_spec (line_type l) "CANCELLATION") as [Hl|Hl].
  - destruct Hin as [Heq|Hin]; [injection Heq as ->; contradiction|].
    eapply IH; eassumption.
  - destruct (maybeInsertOrder db (orderOfLine newDate parseFloat l))
      as [dbm|err] eqn:Hm; [|discriminate].
    destruct Hin as [Heq|Hin]; [|eapply IH; eassumption].
    injection Heq as ->.
    apply insert_step in Hm as [_ Hs]. cbn [orderOfLine NewOrder.number] in Hs.
    destruct (insertLines_carries _ _ _ _ _ _ H) as [<-|(_ & _ & _ & _ & _ & _ & _ & Hk)];
      auto.
Qed.

(** X22.  An upload never loses or rewrites a stored order: however
    the handler ends (an answer, a refusal, an exception half way), every
    row that was there is there afterwards, as it was or with
    [cancelled] set to 1 and nothing else changed, and the columns of the
    table are the same.  Factors, reasons and notes set by hand survive
    every later upload. *)
Theorem upload_keeps_stored_orders (file : upload) (db : conn) (t : table)
    (Htable : orders (view db) = Some t) :
  carried_over db (db_after (post_upload xlsxParse newDate parseFloat file db)).
Proof.
  assert (Hsame : forall db', db = db' \/ carried_over db db' -> carried_over db db').
  { intros db' [<-|H]; [eapply carried_over_refl; exact Htable | exact H]. }
  apply Hsame. unfold post_upload.
  destruct file as [| |mimetype data]; try (now left).
  destruct (negb (String.eqb mimetype _)); [now left|].
  destruct (xlsxParse data) as [lines|err]; [|now left].
  destruct (insertLines newDate parseFloat lines db 0 []) as [db1 fin] eqn:H1.
  pose proof (insertLines_carries _ _ _ _ _ _ H1) as Hc1.
  destruct fin as [inserted numbers| |err]; try exact Hc1.
  destruct (applyCancellations numbers db1) as [db2 [err|]] eqn:H2;
    cbn [db_after];
    (eapply carried_or_same_trans;
     [exact Hc1 | eapply applyCancellations_carries; exact H2]).
Qed.

(** X23.  Uploading the same file again changes nothing: the handler,
    run on the database that it has left, leaves that database as it is,
    and ends as it did the first time, with the same counts in its
    answer.  The [inserted] of the answer therefore counts lines, not
    rows added. *)
Theorem upload_again_changes_nothing (file : upload) (db : conn) :
  post_upload xlsxParse newDate parseFloat file
              (db_after (post_upload xlsxParse newDate parseFloat file db))
  = post_upload xlsxParse newDate parseFloat file db.
Proof.
  unfold post_upload.
  destruct file as [| |mimetype data]; try reflexivity.
  destruct (negb (String.eqb mimetype _)); [reflexivity|].
  destruct (xlsxParse data) as [lines|err]; [|reflexivity].
  destruct (insertLines newDate parseFloat lines db 0 []) as [db1 fin] eqn:H1.
  destruct fin as [inserted numbers| |err]; cbn [db_after].
  - destruct (applyCancellations numbers db1) as [db2 res] eqn:H2.
    assert (H1' : insertLines newDate parseFloat lines db2 0 []
                  = (db2, LoopDone inserted numbers)).
    { eapply insertLines_again; [exact H1|].
      destruct (applyCancellations_carries _ _ _ _ H2) as [->|Hc]; auto. }
    pose proof (applyCancellations_again _ _ _ _ H2) as H2'.
    destruct res as [err|]; cbn [db_after]; rewrite H1', H2'; reflexivity.
  - rewrite (insertLines_again _ _ _ _ _ _ _ H1 (or_introl eq_refl)). reflexivity.
  - rewrite (insertLines_again _ _ _ _ _ _ _ H1 (or_introl eq_refl)). reflexivity.
Qed.

(** X24.  A cancellation takes effect wherever its line stands in the
    file: when an upload is answered with its counts, every stored order
    under the number of a [CANCELLATION] line is marked cancelled, and if
    the file has an order line of that number too, before the
    cancellation or after it, the order is stored. *)
Theorem upload_cancels_in_any_order (mimetype data : string) (db : conn)
    (lines : list (option Line)) (line : Line) (b : body)
    (Hread : xlsxParse data = Ok lines)
    (Hline : In (Some line) lines)
    (Htype : line_type line = "CANCELLATION")
    (Hsent : ended (post_upload xlsxParse newDate parseFloat
                                (OneFile mimetype data) db)
             = Responded 200 b) :
  cancelled_in (db_after (post_upload xlsxParse newDate parseFloat
                                      (OneFile mimetype data) db))
               (line_number line) = true
  /\ (forall other,
        In (Some other) lines -> line_type other <> "CANCELLATION" ->
        line_number other = line_number line ->
        stores (db_after (post_upload xlsxParse newDate parseFloat
                                      (OneFile mimetype data) db))
               (line_number line) = true).
Proof.
  unfold post_upload in *.
  destruct (negb (String.eqb mimetype _)); [discriminate|].
  rewrite Hread in *.
  destruct (insertLines newDate parseFloat lines db 0 []) as [db1 fin] eqn:H1.
  destruct fin as [inserted numbers| |err]; try discriminate.
  destruct (applyCancellations numbers db1) as [db2 [err|]] eqn:H2;
    [discriminate|].
  cbn [db_after]. split.
  - eapply applyCancellations_cancels; [exact H2|].
    eapply insertLines_cancellations; [exact H1|]. right. now split.
  - intros other Hin Hty Hnum. rewrite <- Hnum.
    pose proof (insertLines_stores _ _ _ _ _ _ _ _ H1 Hin Hty) as Hs.
    destruct (applyCancellations_carries _ _ _ _ H2)
      as [<-|(_ & _ & _ & _ & _ & _ & _ & Hk)]; auto.
Qed.

End UploadProperties.

Section UploadWitnesses.
Import JSDate VineTracker Samples.

Lemma upload_keeps_stored_orders_witness :
  orders (view dbTwo) = Some (mkTable v1_columns [rowKept; rowCancelled])
  /\ carried_over dbTwo
       (db_after (post_upload readSample parse floatSample
                              (OneFile xlsxType "orders.xlsx") dbTwo)).
Proof.
  split; [reflexivity|].
  apply (upload_keeps_stored_orders readSample parse floatSample
           (OneFile xlsxType "orders.xlsx") dbTwo
           (mkTable v1_columns [rowKept; rowCancelled])).
  reflexivity.
Defined.

Lemma upload_cancels_in_any_order_witness :
  (readSample "orders.xlsx" = Ok [Some lineCancelled; Some lineOrdered]
   /\ In (Some lineCancelled) [Some lineCancelled; Some lineOrdered]
   /\ line_type lineCancelled = "CANCELLATION"
   /\ ended (post_upload readSample parse floatSample
                         (OneFile xlsxType "orders.xlsx") dbTwo)
      = Responded 200 (UploadBody 1 0 1))
  /\ cancelled_in
       (db_after (post_upload readSample parse floatSample
                              (OneFile xlsxType "orders.xlsx") dbTwo))
       "111-7" = true
  /\ (forall other,
        In (Some other) [Some lineCancelled; Some lineOrdered] ->
        line_type other <> "CANCELLATION" ->
        line_number other = "111-7" ->
        stores (db_after (post_upload readSample parse floatSample
                                      (OneFile xlsxType "orders.xlsx") dbTwo))
               "111-7" = true).
Proof.
  split; [repeat split; first [reflexivity | left; reflexivity]|].
  apply (upload_cancels_in_any_order readSample parse floatSample xlsxType
           "orders.xlsx" dbTwo [Some lineCancelled; Some lineOrdered]
           lineCancelled (UploadBody 1 0 1));
    first [reflexivity | left; reflexivity].
Defined.

End UploadWitnesses.

(** ** The migrator and the query engine together *)

Section AfterMigration.
Import JSDate Migrate VineTracker Samples.

Lemma drop_add_columns (s s1 s2 : store) :
  drop_column "cancelled" s = Ok s1 ->
  add_column "cancelledAt" s1 = Ok s2 ->
  exists t,
    orders s = Some t
    /\ orders s2
       = Some (mkTable
                 (filter (fun c => negb (String.eqb c "cancelled")) (columns t)
                  ++ ["cancelledAt"])
                 (map (set_null "cancelledAt") (map (set_null "cancelled") (rows t)))).
Proof.
  unfold drop_column, add_column. destruct (orders s) as [t|]; [|discriminate].
  destruct (negb (has_column t "cancelled")); [discriminate|].
  cbn [String.eqb Ascii.eqb Bool.eqb andb].
  destruct (List.length (columns t) <=? 1)%nat; [discriminate|].
  intros [= <-]. cbn [orders].
  destruct (has_column _ "cancelledAt"); [discriminate|].
  intros [= <-]. exists t. split; reflexivity.
Qed.

Lemma no_cancelled_column (cols : list string) (rs : list row) :
  has_column (mkTable (filter (fun c => negb (String.eqb c "cancelled")) cols
                       ++ ["cancelledAt"]) rs) "cancelled" = false.
Proof.
  unfold has_column. cbn [columns]. rewrite existsb_app.
  apply orb_false_iff. split; [|reflexivity].
  induction cols as [|c cols IH]; [reflexivity|]. cbn [filter].
  destruct (String.eqb_spec c "cancelled") as [->|Hc]; cbn [negb]; [exact IH|].
  cbn [existsb]. rewrite IH, orb_false_r.
  destruct (String.eqb_spec "cancelled" c); [congruence | reflexivity].
Qed.

(** C1 fails on the code.  The column [cancelledAt] exists only on a
    database that [migrate] has taken to version 2, and there it is
    [NULL] in every row, so that by the specification [cancelled=false] should
    return every order and [cancelled=true] none.  But [getOrders] never
    reads [cancelledAt]: its statement says [WHERE cancelled =
    :cancelled], the migration has dropped that column, and the call
    throws for either value of the option, in row mode and in count mode,
    where before the migration the same call returned a list. *)
Theorem getOrders_after_migrate_throws (v : Z) (rs : list row)
    (log : list console_entry) (e : env) (b : bool)
    (Hv : v < 2) :
  let before := mkConn (mkStore v (Some (mkTable orders_columns rs))) None in
  let after := db (snd (migrate never_fails (mkWorld before log))) in
  (exists t,
     orders (view after) = Some t
     /\ has_column t "cancelledAt" = true /\ has_column t "cancelled" = false
     /\ map Row.number (rows t) = map Row.number rs
     /\ (forall r, In r (rows t) -> Row.cancelledAt r = None))
  /\ (exists l, getOrders e before (Opt.with_cancelled b Opt.none) = Ok (Rows l))
  /\ getOrders e after (Opt.with_cancelled b Opt.none)
     = Throw (SqliteError "no such column: cancelled")
  /\ getOrders e after (Opt.with_countOnly true (Opt.with_cancelled b Opt.none))
     = Throw (SqliteError "no such column: cancelled").
Proof.
  intros before after.
  assert (Hafter : after
                   = mkConn (mkStore 2 (Some (mkTable
                        ["number"; "asin"; "product"; "orderedAt"; "deliveredAt";
                         "etv"; "etvFactor"; "etvReason"; "notes"; "cancelledAt"]
                        (map (set_null "cancelledAt")
                             (map (set_null "cancelled") rs)))))
                       None).
  { unfold after, before, migrate, seq, get_user_version, console_log.
    cbn [db view txn committed user_version].
    assert (Hlt : (v <? 2) = true) by (apply Z.ltb_lt; exact Hv).
    rewrite Hlt. reflexivity. }
  rewrite Hafter. split; [|split; [|split]].
  - eexists. split; [reflexivity|]. split; [reflexivity|]. split; [reflexivity|].
    cbn [rows]. split.
    + rewrite !map_map. apply map_ext. intros r. reflexivity.
    + intros r Hr. rewrite map_map in Hr. apply in_map_iff in Hr as (r0 & <- & _).
      reflexivity.
  - eexists. reflexivity.
  - reflexivity.
  - reflexivity.
Qed.

(** The store of the samples with one standing and one cancelled order:
    before the migration each value of [cancelled] lists its order,
    after it neither call returns. *)
Lemma getOrders_after_migrate_throws_witness :
  0 < 2
  /\ getOrders utc dbTwo (Opt.with_cancelled false Opt.none)
     = Ok (Rows [toOrder rowKept])
  /\ getOrders utc dbTwo (Opt.with_cancelled true Opt.none)
     = Ok (Rows [toOrder rowCancelled])
  /\ getOrders utc (db (snd (migrate never_fails (mkWorld dbTwo []))))
       (Opt.with_cancelled false Opt.none)
     = Throw (SqliteError "no such column: cancelled")
  /\ getOrders utc (db (snd (migrate never_fails (mkWorld dbTwo []))))
       (Opt.with_cancelled true Opt.none)
     = Throw (SqliteError "no such column: cancelled").
Proof.
  split; [lia|]. split; [reflexivity|]. split; [reflexivity|].
  split.
  - exact (proj1 (proj2 (proj2
             (getOrders_after_migrate_throws 0 [rowKept; rowCancelled] [] utc false
                ltac:(lia))))).
  - exact (proj1 (proj2 (proj2
             (getOrders_after_migrate_throws 0 [rowKept; rowCancelled] [] utc true
                ltac:(lia))))).
Defined.

(** X25.  The migrator is all or nothing for every pattern of failing
    statements, the [ROLLBACK] of the [catch] block included: called on
    a connection with no open transaction, it leaves the file either
    exactly as it was, or at version 2 with the table fully migrated (the
    [cancelled] column gone, [cancelledAt] added and [NULL] in every
    row).  No reader of the file sees a state in between. *)
Theorem migrate_is_atomic (fails : stmt -> bool) (c : conn)
    (log : list console_entry)
    (Hidle : txn c = None) :
  committed (db (snd (migrate fails (mkWorld c log)))) = committed c
  \/ exists t,
       orders (committed c) = Some t
       /\ committed (db (snd (migrate fails (mkWorld c log))))
          = mkStore 2
              (Some (mkTable
                 (filter (fun col => negb (String.eqb col "cancelled")) (columns t)
                  ++ ["cancelledAt"])
                 (map (fun r =>
                         Row.mk (number r) (asin r) (product r) (orderedAt r)
                                (deliveredAt r) (etv r) (etvFactor r) None
                                (etvReason r) (notes r) None)
                      (rows t)))).
Proof.
  destruct (migrate_all_or_nothing fails c log Hidle) as [H|(s1 & s2 & H1 & H2 & H)];
    [now left|].
  right. destruct (drop_add_columns _ _ _ H1 H2) as (t & Ht & Ht2).
  exists t. split; [exact Ht|]. cbv zeta in H. rewrite H, Ht2.
  do 3 f_equal. rewrite map_map. apply map_ext. intros r. apply migrated_row.
Qed.

Lemma migrate_is_atomic_witness :
  txn dbA1 = None
  /\ (committed (db (snd (migrate fails_on_pragma (mkWorld dbA1 [])))) = committed dbA1
      \/ exists t,
           orders (committed dbA1) = Some t
           /\ committed (db (snd (migrate fails_on_pragma (mkWorld dbA1 []))))
              = mkStore 2
                  (Some (mkTable
                     (filter (fun col => negb (String.eqb col "cancelled"))
                             (columns t)
                      ++ ["cancelledAt"])
                     (map (fun r =>
                             Row.mk (number r) (asin r) (product r) (orderedAt r)
                                    (deliveredAt r) (etv r) (etvFactor r) None
                                    (etvReason r) (notes r) None)
                          (rows t))))).
Proof.
  split; [reflexivity|].
  apply (migrate_is_atomic fails_on_pragma dbA1 []). reflexivity.
Defined.

(** X26.  After the migration, the statements of [index.js] that name
    the [cancelled] column no longer compile: once [migrate] has taken a
    file from a version below 2 to version 2, every call of [getOrders]
    on that file throws, whatever its options, and so do
    [maybeInsertOrder] and the cancellation update of the upload. *)
Theorem no_reading_after_migration (fails : stmt -> bool) (c : conn)
    (log : list console_entry) (e : env) (o : GetOrdersOptions)
    (order : NewOrder) (n : string)
    (Hidle : txn c = None)
    (Hbefore : user_version (committed c) < 2)
    (Hafter : user_version (committed (db (snd (migrate fails (mkWorld c log)))))
              = 2) :
  (forall res,
     getOrders e (mkConn (committed (db (snd (migrate fails (mkWorld c log))))) None) o
     <> Ok res)
  /\ (forall db',
        maybeInsertOrder
          (mkConn (committed (db (snd (migrate fails (mkWorld c log))))) None) order
        <> Ok db')
  /\ (forall db',
        markCancelled
          (mkConn (committed (db (snd (migrate fails (mkWorld c log))))) None) n
        <> Ok db').
Proof.
  destruct (migrate_all_or_nothing fails c log Hidle) as [H|(s1 & s2 & H1 & H2 & H)].
  - rewrite H in Hafter. lia.
  - cbv zeta in H. rewrite H. clear H Hafter.
    destruct (drop_add_columns _ _ _ H1 H2) as (t & _ & Ht2). rewrite Ht2.
    set (t' := mkTable _ _).
    assert (Hno : has_column t' "cancelled" = false) by apply no_cancelled_column.
    repeat split.
    + intros res Hres.
      apply getOrders_ok in Hres as (b & kw & sd & ed & t0 & _ & _ & Hp & _ & _).
      apply prepare_ok in Hp as (_ & Ht0 & Hcols).
      cbn in Ht0. injection Ht0 as <-.
      rewrite Hcols in Hno; [discriminate|].
      unfold referenced. apply in_or_app. right. left. reflexivity.
    + intros db' Hres. apply maybeInsertOrder_ok in Hres as (t0 & Ht0 & Hcols & _).
      cbn in Ht0. injection Ht0 as <-.
      rewrite missing_column_none in Hcols.
      rewrite Hcols in Hno; [discriminate|]. cbn. auto 10.
    + intros db' Hres. apply update_where_number_ok in Hres as (t0 & Ht0 & Hc & _).
      cbn in Ht0. injection Ht0 as <-. congruence.
Qed.

Lemma no_reading_after_migration_witness :
  (txn dbA1 = None /\ user_version (committed dbA1) < 2
   /\ user_version (committed (db (snd (migrate never_fails (mkWorld dbA1 [])))))
      = 2)
  /\ (forall res,
        getOrders utc
          (mkConn (committed (db (snd (migrate never_fails (mkWorld dbA1 []))))) None)
          Opt.none
        <> Ok res)
  /\ (forall db',
        maybeInsertOrder
          (mkConn (committed (db (snd (migrate never_fails (mkWorld dbA1 []))))) None)
          orderNew
        <> Ok db')
  /\ (forall db',
        markCancelled
          (mkConn (committed (db (snd (migrate never_fails (mkWorld dbA1 []))))) None)
          "A1"
        <> Ok db').
Proof.
  split; [repeat split; first [reflexivity | cbn; lia]|].
  apply (no_reading_after_migration never_fails dbA1 [] utc Opt.none orderNew "A1");
    first [reflexivity | cbn; lia].
Defined.

End AfterMigration.

(** ** More edges *)

Section MoreEdges.
Import JSDate VineTracker Samples.

(** X27.  A negative limit is no limit: SQLite reads [LIMIT n] with
    [n] below zero as no upper bound, and [getOrders] passes the number
    on as it is.  For [n] and an offset [k] that are 64-bit integers, row
    mode then returns the whole listing, or with the offset all of it
    from position [k] on. *)
Theorem negative_limit_is_no_limit (e : env) (db : conn) (o : GetOrdersOptions)
    (n k : Z) (all : list Order)
    (Hrows : Opt.countOnly o = false)
    (Hn : n < 0)
    (Hlimit : is_int64 n = true)
    (Hoffset : is_int64 k = true)
    (Hall : getOrders e db (Opt.with_page None None o) = Ok (Rows all)) :
  getOrders e db (Opt.with_page (Some n) None o) = Ok (Rows all)
  /\ getOrders e db (Opt.with_page (Some n) (Some k) o)
     = Ok (Rows (skipn (Z.to_nat k) all)).
Proof.
  apply getOrders_ok in Hall as (b & kw & sd & ed & t & Hy & Hs & Hp & _ & Hres).
  change (Opt.countOnly (Opt.with_page None None o)) with (Opt.countOnly o) in Hres.
  rewrite Hrows in Hres. injection Hres as ->.
  apply prepare_ok in Hp as (_ & Ht & Hcols).
  assert (Hpage : forall off,
             int64_page (Opt.with_page (Some n) off o) = true ->
             getOrders e db (Opt.with_page (Some n) off o)
             = Ok (Rows (map toOrder
                      (select_rows t
                         (buildSelect (Opt.with_page (Some n) off o) kw sd ed))))).
  { intros off Hint. apply getOrders_ok. exists b, kw, sd, ed, t.
    split; [exact Hy|]. split; [exact Hs|]. split; [|split].
    - apply prepare_ok. split; [intros _; discriminate|]. split; [exact Ht|].
      exact Hcols.
    - now rewrite start_page, Hint.
    - change (Opt.countOnly (Opt.with_page (Some n) off o)) with (Opt.countOnly o).
      now rewrite Hrows. }
  assert (Hneg : (n <? 0) = true) by (apply Z.ltb_lt; exact Hn).
  split.
  - rewrite Hpage by (unfold int64_page; cbn; now rewrite Hlimit).
    rewrite select_rows_page, <- limit_offset_map.
    unfold limit_offset at 1. rewrite Hneg. reflexivity.
  - rewrite Hpage by (unfold int64_page; cbn; now rewrite Hlimit, Hoffset).
    rewrite select_rows_page, <- limit_offset_map.
    unfold limit_offset at 1. rewrite Hneg. reflexivity.
Qed.

Lemma negative_limit_is_no_limit_witness :
  (Opt.countOnly Opt.none = false /\ -1 < 0
   /\ is_int64 (-1) = true /\ is_int64 1 = true
   /\ getOrders utc dbReview (Opt.with_page None None Opt.none)
      = Ok (Rows [toOrder rowKept; toOrder rowMarch2]))
  /\ getOrders utc dbReview (Opt.with_page (Some (-1)) None Opt.none)
     = Ok (Rows [toOrder rowKept; toOrder rowMarch2])
  /\ getOrders utc dbReview (Opt.with_page (Some (-1)) (Some 1) Opt.none)
     = Ok (Rows [toOrder rowMarch2]).
Proof.
  split; [repeat split; first [reflexivity | lia]|].
  apply (negative_limit_is_no_limit utc dbReview Opt.none (-1) 1
           [toOrder rowKept; toOrder rowMarch2]); first [reflexivity | lia].
Defined.

(** X28.  [POST /orders/:number/notes] never stores notes of more than
    2000 UTF-16 code units: if all stored notes are within that bound
    before the request, they are after it, whatever the body holds; and
    unless the answer is [{success: true}], the database is as it was.
    Unlike a reason, empty notes are stored as the empty text. *)
Theorem notes_route_keeps_notes_in_bounds (number : string) (notes : json)
    (db : conn)
    (Hbefore : forallb notes_in_bounds (rows_of db) = true) :
  forallb notes_in_bounds (rows_of (db_after (post_notes number notes db))) = true
  /\ (ended (post_notes number notes db) <> Responded 200 SuccessBody ->
      db_after (post_notes number notes db) = db)
  /\ (notes = JString EmptyString ->
      ended (post_notes number notes db) = Responded 200 SuccessBody ->
      forall r, In r (rows_of (db_after (post_notes number notes db))) ->
                Row.number r = Some number -> Row.notes r = Some EmptyString).
Proof.
  unfold post_notes.
  destruct notes as [| |b|f|s| |];
    try (split; [exact Hbefore | split; [reflexivity | discriminate]]).
  destruct (2000 <? js_length s) eqn:Hlen; cbn [db_after ended bad_request].
  - split; [exact Hbefore | split; [reflexivity | discriminate]].
  - destruct (setNotesForOrder db number s) as [db'|err] eqn:Hset;
      cbn [db_after ended server_error].
    + split; [|split; [intros H; now contradiction H|]].
      * eapply update_keeps; [exact Hset | | exact Hbefore].
        intros r _. unfold notes_in_bounds. cbn [Row.notes set_notes].
        apply Z.leb_le. apply Z.ltb_ge in Hlen. exact Hlen.
      * intros [= ->] _ r Hr Hnum.
        apply update_where_number_ok in Hset as (t & Ht & _ & _ & ->).
        unfold rows_of in Hr. rewrite view_written in Hr.
        cbn [orders with_table rows with_rows] in Hr.
        apply in_map_iff in Hr as (r0 & <- & _).
        unfold text_eq in *.
        destruct (Row.number r0) as [m|] eqn:Hm; cbn [option_map is_true] in *.
        -- destruct (String.eqb m number) eqn:Heq; [reflexivity|].
           rewrite Hm in Hnum. injection Hnum as ->.
           rewrite String.eqb_refl in Heq. discriminate.
        -- rewrite Hm in Hnum. discriminate.
    + split; [exact Hbefore | split; [reflexivity | discriminate]].
Qed.

Lemma notes_route_keeps_notes_in_bounds_witness :
  forallb notes_in_bounds (rows_of dbTwo) = true
  /\ forallb notes_in_bounds
       (rows_of (db_after (post_notes "111-1" (JString EmptyString) dbTwo))) = true
  /\ (ended (post_notes "111-1" (JString EmptyString) dbTwo)
      <> Responded 200 SuccessBody ->
      db_after (post_notes "111-1" (JString EmptyString) dbTwo) = dbTwo)
  /\ (JString EmptyString = JString EmptyString ->
      ended (post_notes "111-1" (JString EmptyString) dbTwo)
      = Responded 200 SuccessBody ->
      forall r,
        In r (rows_of (db_after (post_notes "111-1" (JString EmptyString) dbTwo))) ->
        Row.number r = Some "111-1" -> Row.notes r = Some EmptyString).
Proof.
  split; [reflexivity|].
  apply (notes_route_keeps_notes_in_bounds "111-1" (JString EmptyString) dbTwo).
  reflexivity.
Defined.

(** X29.  An order that the upload has cancelled is gone from every
    listing of standing orders: after the cancellation update for a
    number, no call of [getOrders] with [cancelled] false (the default)
    returns an order of that number. *)
Theorem cancelled_order_leaves_listing (e : env) (db db' : conn)
    (o : GetOrdersOptions) (n : string) (l : list Order)
    (Hmark : markCancelled db n = Ok db')
    (Hstanding : Opt.cancelled o = false)
    (Hrows : getOrders e db' o = Ok (Rows l)) :
  forall order, In order l -> numbered n order = false.
Proof.
  intros order Hin.
  apply update_where_number_ok in Hmark as (t & Ht & _ & _ & ->).
  apply getOrders_ok in Hrows as (bounds & kw & sd & ed & t' & _ & _ & Hp & _ & Hres).
  apply prepare_ok in Hp as (_ & Ht' & _).
  rewrite view_written in Ht'. cbn [orders with_table] in Ht'.
  injection Ht' as <-.
  destruct (Opt.countOnly o); [discriminate|]. injection Hres as ->.
  apply in_map_iff in Hin as (r & <- & Hr).
  apply select_rows_In in Hr as [Hr Hw].
  cbn [rows with_rows] in Hr. apply in_map_iff in Hr as (r0 & <- & _).
  unfold numbered, toOrder. cbn [Order.number].
  unfold text_eq in *.
  destruct (Row.number r0) as [m|] eqn:Hm; cbn [option_map is_true] in *.
  - destruct (String.eqb m n) eqn:Hmn.
    + exfalso. rewrite where_remaining in Hw.
      apply andb_true_iff in Hw as [Hw _].
      cbn [sel_cancelled buildSelect Row.cancelled set_cancelled] in Hw.
      rewrite Hstanding in Hw. discriminate.
    + rewrite Hm. exact Hmn.
  - rewrite Hm. reflexivity.
Qed.

Lemma cancelled_order_leaves_listing_witness :
  (markCancelled dbReview "111-1"
   = Ok (mkConn (mkStore 0 (Some (mkTable v1_columns
           [set_cancelled (Some 1) rowKept; rowMarch2]))) None)
   /\ Opt.cancelled Opt.none = false
   /\ getOrders utc
        (mkConn (mkStore 0 (Some (mkTable v1_columns
           [set_cancelled (Some 1) rowKept; rowMarch2]))) None)
        Opt.none
      = Ok (Rows [toOrder rowMarch2]))
  /\ (forall order, In order [toOrder rowMarch2] -> numbered "111-1" order = false).
Proof.
  split; [repeat split; reflexivity|].
  apply (cancelled_order_leaves_listing utc dbReview
           (mkConn (mkStore 0 (Some (mkTable v1_columns
              [set_cancelled (Some 1) rowKept; rowMarch2]))) None)
           Opt.none "111-1" [toOrder rowMarch2]); reflexivity.
Defined.

End MoreEdges.

Section UploadStops.
Import JSDate VineTracker Samples.

Variable xlsxParse : string -> outcome (list (option Line)).
Variable newDate : string -> Date.
Variable parseFloat : string -> float.

Lemma insertLines_app (before rest : list (option Line)) :
  forall (db : conn) (i : Z) (c : list string),
  insertLines newDate parseFloat (before ++ rest) db i c
  = match insertLines newDate parseFloat before db i c with
    | (db1, LoopDone i1 c1) => insertLines newDate parseFloat rest db1 i1 c1
    | stopped => stopped
    end.
Proof.
  induction before as [|[line|] before IH]; intros db i c;
    cbn [app insertLines]; try reflexivity.
  destruct (String.eqb (line_type line) "CANCELLATION"); [apply IH|].
  destruct (maybeInsertOrder db (orderOfLine newDate parseFloat line));
    [apply IH | reflexivity].
Qed.

(** X30.  An upload is not all or nothing.  When the order date of a
    line is not a date, [toISOString] throws in [maybeInsertOrder]: the
    handler stops there without an answer, the order lines before that
    line stay stored, the lines after it are not looked at, and no
    cancellation of the file is applied, not even one that stands before
    that line. *)
Theorem upload_stops_at_invalid_date (mimetype data : string) (db db1 : conn)
    (t : table) (before rest : list (option Line)) (line : Line)
    (inserted : Z) (cancellations : list string)
    (Htype : mimetype
             = "application/vnd.openxmlformats-officedocument.spreadsheetml.sheet")
    (Hread : xlsxParse data = Ok (before ++ Some line :: rest))
    (Htable : orders (view db) = Some t)
    (Hcolumns : missing_column t inserted_columns = None)
    (Hbefore : insertLines newDate parseFloat before db 0 []
               = (db1, LoopDone inserted cancellations))
    (Horder : line_type line <> "CANCELLATION")
    (Hdate : newDate (line_orderedAtStr line) = InvalidDate) :
  post_upload xlsxParse newDate parseFloat (OneFile mimetype data) db
  = mkHandled db1 [] (Rejected (RangeError "Invalid time value")).
Proof.
  unfold post_upload. rewrite Htype, String.eqb_refl, Hread. cbn [negb].
  rewrite insertLines_app, Hbefore. cbn [insertLines].
  destruct (String.eqb_spec (line_type line) "CANCELLATION"); [contradiction|].
  assert (Hthrow : maybeInsertOrder db1 (orderOfLine newDate parseFloat line)
                   = Throw (RangeError "Invalid time value")).
  { unfold maybeInsertOrder.
    assert (Hr : exists t1, resolve "table orders has no column named "
                                    inserted_columns (view db1) = Ok t1).
    { destruct (insertLines_carries _ _ _ _ _ _ _ _ Hbefore)
        as [<-|(t0 & t1 & Ht0 & Ht1 & Hc & _)].
      - exists t. apply resolve_ok. split; [exact Htable|].
        now apply missing_column_none.
      - exists t1. apply resolve_ok. split; [exact Ht1|].
        rewrite Htable in Ht0. injection Ht0 as <-.
        apply missing_column_none. now rewrite (missing_column_columns _ _ _ Hc). }
    destruct Hr as [t1 ->]. cbn [bind orderOfLine NewOrder.orderedAt].
    rewrite Hdate. reflexivity. }
  rewrite Hthrow. reflexivity.
Qed.

End UploadStops.

Section UploadStopsWitness.
Import JSDate VineTracker Samples.

Lemma upload_stops_at_invalid_date_witness :
  (xlsxType = "application/vnd.openxmlformats-officedocument.spreadsheetml.sheet"
   /\ readUndated "orders.xlsx"
      = Ok ([Some lineOrdered] ++ Some lineUndated :: [Some lineCancelled])
   /\ orders (view dbTwo) = Some (mkTable v1_columns [rowKept; rowCancelled])
   /\ missing_column (mkTable v1_columns [rowKept; rowCancelled]) inserted_columns
      = None
   /\ insertLines parse floatSample [Some lineOrdered] dbTwo 0 []
      = (mkConn (mkStore 0 (Some (mkTable v1_columns
                   [rowKept; rowCancelled;
                    rowOf (orderOfLine parse floatSample lineOrdered)]))) None,
         LoopDone 1 [])
   /\ line_type lineUndated <> "CANCELLATION"
   /\ parse (line_orderedAtStr lineUndated) = InvalidDate)
  /\ post_upload readUndated parse floatSample (OneFile xlsxType "orders.xlsx") dbTwo
     = mkHandled
         (mkConn (mkStore 0 (Some (mkTable v1_columns
                    [rowKept; rowCancelled;
                     rowOf (orderOfLine parse floatSample lineOrdered)]))) None)
         [] (Rejected (RangeError "Invalid time value")).
Proof.
  split; [repeat split; first [reflexivity | discriminate]|].
  apply (upload_stops_at_invalid_date readUndated parse floatSample xlsxType
           "orders.xlsx" dbTwo _ (mkTable v1_columns [rowKept; rowCancelled])
           [Some lineOrdered] [Some lineCancelled] lineUndated 1 []);
    first [reflexivity | discriminate].
Defined.

End UploadStopsWitness.
